(** * CatDist: catalog store, cart and pricing of [app/routes.py]

    A shallow embedding of the request handlers of [src/app/routes.py] and
    of the helpers they call, followed by the properties of the
    specification that concern them.

    Conventions of the embedding.
    - A Python [str] is a [string]; the model covers text whose characters
      are ASCII, which is where [py_strip], [py_upper] and the number
      parsers agree with the interpreter.
    - A Python [float] is a binary64 value of [spec_float] (precision 53,
      maximal exponent 1024), with the IEEE operations of [SpecFloat].
    - A Python [int] is a [Z] (unbounded).
    - A [dict] that is iterated is an association list in insertion order
      ([pydict]); a [dict] that is only looked up is a [gmap].
    - Exceptions are values of [exn]; a handler is a function from the world
      (files, session, flashed messages, trace of file accesses, clock) to
      an outcome and a new world.
    - The functions of pandas, pathlib and werkzeug that the module calls
      are the fields of the class [Libraries]; every statement holds for
      all of them. The writer of workbooks may raise, and what it writes
      may depend on the time of the call.

    The handlers of the cart, the pricing, the exports, the coupon, the
    shipping, the imports, the login, the checkout and the pages are
    embedded, with the loaders and the administrator check they use; the
    update of the account is not. *)

From Stdlib Require Import ZArith NArith Ascii String List Bool Lia.
From Stdlib Require Import Floats.SpecFloat.
From stdpp Require Import base option list gmap strings pretty.

Local Open Scope Z_scope.

(* ================================================================== *)
(** * Python text *)
(* ================================================================== *)

Module PyStr.

Definition code (a : ascii) : N := N_of_ascii a.

(** [str.isspace] on ASCII: TAB, LF, VT, FF, CR, FS, GS, RS, US, space. *)
Definition is_space (a : ascii) : bool :=
  let n := code a in
  ((9 <=? n) && (n <=? 13) || (28 <=? n) && (n <=? 32))%N.

(** The white space that [int] and [float] skip around a literal
    ([Py_ISSPACE]): TAB, LF, VT, FF, CR and space, without the four
    separators FS, GS, RS, US that [str.strip] removes. *)
Definition is_c_space (a : ascii) : bool :=
  let n := code a in ((9 <=? n) && (n <=? 13) || (n =? 32))%N.

Definition is_digit (a : ascii) : bool :=
  let n := code a in ((48 <=? n) && (n <=? 57))%N.

Definition is_lower (a : ascii) : bool :=
  let n := code a in ((97 <=? n) && (n <=? 122))%N.

Definition is_upper (a : ascii) : bool :=
  let n := code a in ((65 <=? n) && (n <=? 90))%N.

Definition upper_char (a : ascii) : ascii :=
  if is_lower a then ascii_of_N (code a - 32) else a.

Definition lower_char (a : ascii) : ascii :=
  if is_upper a then ascii_of_N (code a + 32) else a.

Fixpoint lstrip (l : list ascii) : list ascii :=
  match l with
  | a :: l' => if is_space a then lstrip l' else l
  | [] => []
  end.

Definition rstrip (l : list ascii) : list ascii := rev (lstrip (rev l)).

Definition strip_chars (l : list ascii) : list ascii := rstrip (lstrip l).

Fixpoint c_lstrip (l : list ascii) : list ascii :=
  match l with
  | a :: l' => if is_c_space a then c_lstrip l' else l
  | [] => []
  end.

(** The text between the white space that a numeric literal may have on
    either side. *)
Definition c_strip_chars (l : list ascii) : list ascii :=
  rev (c_lstrip (rev (c_lstrip l))).

(** [s.strip()] *)
Definition py_strip (s : string) : string :=
  string_of_list_ascii (strip_chars (list_ascii_of_string s)).

(** [s.upper()] *)
Definition py_upper (s : string) : string :=
  string_of_list_ascii (map upper_char (list_ascii_of_string s)).

(** [s.lower()] *)
Definition py_lower (s : string) : string :=
  string_of_list_ascii (map lower_char (list_ascii_of_string s)).

(** Truth value of a [str]: non-empty. *)
Definition truthy (s : string) : bool :=
  match s with EmptyString => false | _ => true end.

Definition digit_val (a : ascii) : N := (code a - 48)%N.

Definition digits_val (ds : list ascii) : N :=
  fold_left (fun acc d => (10 * acc + digit_val d)%N) ds 0%N.

(** The interpreter's treatment of [_] in numeric literals given as text
    ([_Py_string_to_number_with_underscores]): an underscore must follow a
    digit and precede a digit; the underscores are then removed. *)
Fixpoint drop_underscores (prev : option ascii) (l : list ascii)
  : option (list ascii) :=
  match l with
  | [] => match prev with
          | Some "_"%char => None
          | _ => Some []
          end
  | c :: l' =>
      if Ascii.eqb c "_" then
        match prev with
        | Some p => if is_digit p then drop_underscores (Some c) l' else None
        | None => None
        end
      else
        match prev with
        | Some "_"%char =>
            if is_digit c then cons c <$> drop_underscores (Some c) l' else None
        | _ => cons c <$> drop_underscores (Some c) l'
        end
  end.

(** Longest prefix of digits, and the rest. *)
Fixpoint span_digits (l : list ascii) : list ascii * list ascii :=
  match l with
  | c :: l' =>
      if is_digit c then let '(ds, r) := span_digits l' in (c :: ds, r)
      else ([], l)
  | [] => ([], [])
  end.

(** An optional sign: [true] for [-]. *)
Definition take_sign (l : list ascii) : bool * list ascii :=
  match l with
  | "-"%char :: r => (true, r)
  | "+"%char :: r => (false, r)
  | _ => (false, l)
  end.

End PyStr.

(* ================================================================== *)
(** * Python numbers: [float] as binary64, [int] as [Z] *)
(* ================================================================== *)

Module PyNum.
Import PyStr.

Definition prec : Z := 53.
Definition emax : Z := 1024.

Abbreviation float := spec_float.

Definition fadd : float -> float -> float := SFadd prec emax.
Definition fsub : float -> float -> float := SFsub prec emax.
Definition fmul : float -> float -> float := SFmul prec emax.
Definition fdiv : float -> float -> float := SFdiv prec emax.
(** [x < y] and [x <= y] on floats (false when either is NaN). *)
Definition flt : float -> float -> bool := SFltb.
Definition fle : float -> float -> bool := SFleb.

Definition is_nan (x : float) : bool :=
  match x with S754_nan => true | _ => false end.

Definition fzero : float := S754_zero false.

(** Truth value of a float: [x != 0.0]; NaN is true, both zeros false. *)
Definition float_truthy (x : float) : bool :=
  match x with S754_zero _ => false | _ => true end.

(** The binary64 value nearest to the integer [z] (ties to even). *)
Definition of_Z (z : Z) : float := binary_normalize prec emax z 0 false.

(** The binary64 value nearest to [(-1)^s * m * 10^e10]: the correctly
    rounded conversion of [strtod]. *)
Definition of_decimal (s : bool) (m : N) (e10 : Z) : float :=
  match m with
  | N0 => S754_zero s
  | Npos p =>
      if 0 <=? e10 then binary_round prec emax s (p * Z.to_pos (10 ^ e10)) 0
      else fdiv (S754_finite s p 0)
                (S754_finite false (Z.to_pos (10 ^ (- e10))) 0)
  end.

(** The exceptions of the interpreter that the module can raise, and
    [LibraryError] for an exception raised inside pandas or openpyxl, with
    its text. *)
Inductive exn :=
| ValueError
| TypeError
| OverflowError
| LibraryError (message : string).

(** [str(e)]: the text of a library's exception. The built-in exceptions
    are raised here without a text; the one [except] clause of the module
    that shows the text of what it caught encloses calls of libraries
    only. *)
Definition exn_text (e : exn) : string :=
  match e with
  | LibraryError message => message
  | _ => EmptyString
  end.

Inductive result (A : Type) :=
| Ok (a : A)
| Raise (e : exn).
Arguments Ok {A} a.
Arguments Raise {A} e.

(** [float(n)] for an [int]: [OverflowError] when the nearest binary64
    value would be infinite. *)
Definition float_of_int (z : Z) : result float :=
  match of_Z z with
  | S754_infinity _ => Raise OverflowError
  | f => Ok f
  end.

(** The part of a float literal after the sign: [inf], [infinity], [nan]
    in any letter case, or digits with an optional point and exponent. *)
Definition parse_exponent (l : list ascii) : option Z :=
  match l with
  | [] => Some 0
  | c :: r =>
      if Ascii.eqb (lower_char c) "e" then
        let '(neg, r1) := take_sign r in
        let '(ds, r2) := span_digits r1 in
        match ds, r2 with
        | _ :: _, [] =>
            let v := Z.of_N (digits_val ds) in
            Some (if neg then - v else v)
        | _, _ => None
        end
      else None
  end.

Definition parse_unsigned (s : bool) (l : list ascii) : option float :=
  let low := string_of_list_ascii (map lower_char l) in
  if (String.eqb low "inf" || String.eqb low "infinity")%bool
  then Some (S754_infinity s)
  else if String.eqb low "nan" then Some S754_nan
  else
    let '(ip, r1) := span_digits l in
    let '(fp, r2) :=
      match r1 with
      | "."%char :: r => span_digits r
      | _ => ([], r1)
      end in
    match (ip ++ fp)%list with
    | [] => None
    | ds =>
        e ← parse_exponent r2;
        Some (of_decimal s (digits_val ds) (e - Z.of_nat (length fp)))
    end.

(** [float(s)] for a [str]: surrounding white space is ignored, grouping
    underscores are removed, and the whole remainder must be a literal.
    [None] stands for [ValueError]. *)
Definition parse_float (s : string) : option float :=
  l ← drop_underscores None (c_strip_chars (list_ascii_of_string s));
  let '(neg, r) := take_sign l in
  parse_unsigned neg r.

(** The most digits that [int] accepts in a decimal literal
    ([sys.int_info.default_max_str_digits]). *)
Definition max_str_digits : nat := 4300.

(** [int(s)] for a [str] in base 10. [None] stands for [ValueError], which
    is also what a literal of more than [max_str_digits] digits raises,
    leading zeros counted, sign and underscores not. *)
Definition parse_int (s : string) : option Z :=
  l ← drop_underscores None (c_strip_chars (list_ascii_of_string s));
  let '(neg, r) := take_sign l in
  let '(ds, r') := span_digits r in
  match ds, r' with
  | _ :: _, [] =>
      if (max_str_digits <? length ds)%nat then None
      else let v := Z.of_N (digits_val ds) in Some (if neg then - v else v)
  | _, _ => None
  end.

(** Half-to-even rounding of the quotient [a / b] to an integer. *)
Definition div_half_even (a b : N) : N :=
  let q := (a / b)%N in
  let r := (a mod b)%N in
  match (2 * r ?= b)%N with
  | Lt => q
  | Gt => (q + 1)%N
  | Eq => if N.even q then q else (q + 1)%N
  end.

(** [m * 2^e * 100] rounded half-to-even to an integer: the digits that
    [dtoa] produces when asked for two decimals. *)
Definition hundredths (m : positive) (e : Z) : N :=
  if 0 <=? e then (Npos m * 2 ^ Z.to_N e * 100)%N
  else div_half_even (Npos m * 100) (2 ^ Z.to_N (- e)).

(** [round(x, 2)]: NaN and infinities are returned unchanged; a finite
    value is rounded to two decimals on its exact value and the decimal
    is converted back. *)
Definition round2 (x : float) : float :=
  match x with
  | S754_finite s m e => of_decimal s (hundredths m e) (-2)
  | _ => x
  end.

(** [max(a, b)]: the scan keeps [a] unless [b > a]. *)
Definition py_max (a b : float) : float := if flt a b then b else a.

Definition two_digits (n : N) : string :=
  if (n <? 10)%N then "0" +:+ pretty n else pretty n.

(** [f"{x:.2f}"] *)
Definition format_2f (x : float) : string :=
  match x with
  | S754_nan => "nan"
  | S754_infinity s => if s then "-inf" else "inf"
  | S754_zero s => if s then "-0.00" else "0.00"
  | S754_finite s m e =>
      let n := hundredths m e in
      (if s then "-" else EmptyString) +:+ pretty (n / 100)%N +:+ "."
        +:+ two_digits (n mod 100)%N
  end.

End PyNum.

Export PyNum.

(* ================================================================== *)
(** * Insertion-ordered dictionaries *)
(* ================================================================== *)

(** A Python [dict] with [str] keys whose iteration order is observed: the
    entries in insertion order. Assigning to an existing key keeps its
    position; a new key goes last. *)
Module PyDict.
Section Ops.
Context {V : Type}.

Definition pydict := list (string * V).

Fixpoint get (k : string) (d : pydict) : option V :=
  match d with
  | [] => None
  | (k', v) :: d' => if String.eqb k k' then Some v else get k d'
  end.

(** [k in d] *)
Definition contains (k : string) (d : pydict) : bool :=
  match get k d with Some _ => true | None => false end.

(** [d[k] = v] *)
Fixpoint set (k : string) (v : V) (d : pydict) : pydict :=
  match d with
  | [] => [(k, v)]
  | (k', v') :: d' =>
      if String.eqb k k' then (k, v) :: d' else (k', v') :: set k v d'
  end.

(** [d.pop(k)] on a dictionary that has the key. *)
Fixpoint pop (k : string) (d : pydict) : pydict :=
  match d with
  | [] => []
  | (k', v') :: d' =>
      if String.eqb k k' then d' else (k', v') :: pop k d'
  end.

(** Truth value of a dictionary: non-empty. *)
Definition truthy (d : pydict) : bool :=
  match d with [] => false | _ => true end.
End Ops.
Arguments pydict V : clear implicits.
End PyDict.
Export PyDict (pydict).

(* ================================================================== *)
(** * Data model *)
(* ================================================================== *)

Definition bytes := list Byte.byte.

(** A value found in a table row: what [row.get(column)] hands to the
    code. [CNone] is Python's [None], which [row.get] returns for a label
    the table lacks; an empty cell is the float NaN. Dates and other
    objects are not modelled. *)
Inductive cell :=
| CNone
| CBool (b : bool)
| CInt (z : Z)
| CFloat (f : float)
| CStr (s : string).

(** A [pandas.DataFrame] as the code sees it: the column labels in order,
    and the rows that [iterrows] yields, each aligned with the labels. *)
Record DataFrame := mkDF {
  df_columns : list string;
  df_rows : list (list cell);
}.

Record Product := mkProduct {
  p_id : string;
  p_supplier_id : string;
  p_name : string;
  p_price : float;
  p_promo_price : option float;
  p_image_path : option string;
}.

Record Client := mkClient {
  c_id : string;
  c_name : string;
  c_email : string;
  c_password : string;
  c_phone : option string;
  c_address : option string;
  c_state : option string;
  c_city : option string;
  c_cep : option string;
}.

(** The functions of pandas, pathlib, werkzeug and the interpreter that the
    module calls and whose results it only passes along. Reading returns
    [None] when the library raises. *)
(** What [df.to_excel(path, index=False)] does: it writes a workbook, or
    it raises; [remains] is then the content that the failed call has put
    at the path, if it got as far as the file. *)
Inductive xlsx_write :=
| XlsxWritten (content : bytes)
| XlsxFailed (message : string) (remains : option bytes).

Class Libraries := {
  (** [pd.read_excel] and [pd.read_csv]: [None] when they raise, and then
      the text of the exception *)
  read_excel : bytes -> option DataFrame;
  read_csv : bytes -> option DataFrame;
  read_excel_error : bytes -> string;
  read_csv_error : bytes -> string;
  (** [df.to_excel] at a time of the clock: a workbook records when it was
      written, so that two writes of one table need not give the same
      bytes *)
  to_excel : Z -> DataFrame -> xlsx_write;
  to_csv : DataFrame -> bytes;
  (** [str(x)] for a float *)
  float_str : float -> string;
  (** [(PurePosixPath(a) / b).as_posix()] *)
  posix_join : string -> string -> string;
  secure_filename : string -> string;
  (** whether [reportlab] can be imported, and the height of an A4 page *)
  has_reportlab : bool;
  a4_height : float;
}.

(** The content of [data/admin.json]: text that [json.loads] rejects, or an
    object with text values, which is all that the module ever writes. *)
Inductive json_doc :=
| JsonBad
| JsonObj (d : gmap string string).

(** The session of the request: the four keys the module uses. *)
Record Session := mkSession {
  s_cart : option (pydict Z);
  s_user_email : option string;
  s_coupon_code : option string;
  s_shipping_value : option float;
}.

Inductive io_event :=
| EvRead (path : string)
| EvWrite (path : string)
| EvUpload (filename : string).

(** Everything a handler can read or change. [w_files] maps the path of a
    tabular file to its content; [w_trace] records file accesses, oldest
    first; [w_clock] is the time, which passes when it is read. *)
Record World := mkWorld {
  w_files : gmap string bytes;
  w_admin : option json_doc;
  w_session : Session;
  w_flashes : list string;
  w_trace : list io_event;
  w_clock : Z;
}.

(** An uploaded file of the request. *)
Record Upload := mkUpload {
  u_filename : string;
  u_stream : bytes;
}.

Record Request := mkRequest {
  r_form : gmap string string;
  r_file : option Upload;
  r_referer : option string;
}.

(* ================================================================== *)
(** * Computations with exceptions over the world *)
(* ================================================================== *)

Definition M (A : Type) : Type := World -> result A * World.

Definition ret {A} (a : A) : M A := fun w => (Ok a, w).

Definition bind {A B} (m : M A) (k : A -> M B) : M B :=
  fun w =>
    match m w with
    | (Ok a, w') => k a w'
    | (Raise e, w') => (Raise e, w')
    end.

Definition lift {A} (r : result A) : M A := fun w => (r, w).

(** [try: m] followed by [except Exception as e: handler e]. *)
Definition catch {A} (m : M A) (handler : exn -> M A) : M A :=
  fun w =>
    match m w with
    | (Ok a, w') => (Ok a, w')
    | (Raise e, w') => handler e w'
    end.

Declare Scope io_scope.
Delimit Scope io_scope with io.
Notation "x <-- m ;; k" := (bind m (fun x => k))
  (at level 100, m at next level, right associativity) : io_scope.
Notation "m ;;; k" := (bind m (fun _ => k))
  (at level 100, right associativity) : io_scope.

Definition get_world : M World := fun w => (Ok w, w).

Definition log (e : io_event) : M unit :=
  fun w => (Ok tt, mkWorld (w_files w) (w_admin w) (w_session w)
                           (w_flashes w) (w_trace w ++ [e]) (w_clock w)).

Definition flash (msg : string) : M unit :=
  fun w => (Ok tt, mkWorld (w_files w) (w_admin w) (w_session w)
                           (w_flashes w ++ [msg]) (w_trace w) (w_clock w)).

(** The time of the call. *)
Definition now : M Z :=
  fun w => (Ok (w_clock w),
            mkWorld (w_files w) (w_admin w) (w_session w) (w_flashes w)
                    (w_trace w) (w_clock w + 1)).

Definition get_session : M Session := fun w => (Ok (w_session w), w).

Definition put_session (s : Session) : M unit :=
  fun w => (Ok tt, mkWorld (w_files w) (w_admin w) s (w_flashes w) (w_trace w)
                           (w_clock w)).

Definition write_file (path : string) (content : bytes) : M unit :=
  fun w => (Ok tt, mkWorld (<[path := content]> (w_files w)) (w_admin w)
                           (w_session w) (w_flashes w)
                           (w_trace w ++ [EvWrite path]) (w_clock w)).

Definition write_admin (doc : json_doc) : M unit :=
  fun w => (Ok tt, mkWorld (w_files w) (Some doc) (w_session w) (w_flashes w)
                           (w_trace w ++ [EvWrite "data/admin.json"])
                           (w_clock w)).

(* ================================================================== *)
(** * Table rows and their coercions *)
(* ================================================================== *)

Fixpoint index_of (c : string) (cols : list string) : option nat :=
  match cols with
  | [] => None
  | c' :: cols' => if String.eqb c c' then Some O else S <$> index_of c cols'
  end.

(** [row.get(c)]: the value under label [c], or [None] for a label the
    table does not have. *)
Definition row_get (cols : list string) (row : list cell) (c : string) : cell :=
  match index_of c cols with
  | Some i => default CNone (row !! i)
  | None => CNone
  end.

(** Truth value of a row value, as used by [or]. *)
Definition cell_truthy (c : cell) : bool :=
  match c with
  | CNone => false
  | CBool b => b
  | CInt z => negb (z =? 0)
  | CFloat f => float_truthy f
  | CStr s => PyStr.truthy s
  end.

(** [a or b] *)
Definition cell_or (a b : cell) : cell := if cell_truthy a then a else b.

Definition fone : float := S754_finite false 4503599627370496 (-52).

(** [float(v)] *)
Definition float_of_cell (c : cell) : result float :=
  match c with
  | CNone => Raise TypeError
  | CBool b => Ok (if b then fone else fzero)
  | CInt z => float_of_int z
  | CFloat f => Ok f
  | CStr s => match parse_float s with
              | Some f => Ok f
              | None => Raise ValueError
              end
  end.

(** [pd.isna(v)] on a scalar *)
Definition isna (c : cell) : bool :=
  match c with
  | CNone => true
  | CFloat f => is_nan f
  | _ => false
  end.

(** [s.replace("\\", "/")] *)
Definition slashes (s : string) : string :=
  string_of_list_ascii
    (map (fun a => if Ascii.eqb a "\" then "/"%char else a)
         (list_ascii_of_string s)).

(** The text after the last [.] of a file name, lower-cased; empty when the
    name has no [.]:
    [filename.rsplit(".", 1)[-1].lower()] when ["." in filename]. *)
Fixpoint after_last_dot (l : list ascii) (acc : option (list ascii))
  : option (list ascii) :=
  match l with
  | [] => acc
  | c :: l' =>
      if Ascii.eqb c "." then after_last_dot l' (Some [])
      else after_last_dot l' ((fun a => a ++ [c])%list <$> acc)
  end.

Definition extension (filename : string) : string :=
  match after_last_dot (list_ascii_of_string filename) None with
  | Some e => PyStr.py_lower (string_of_list_ascii e)
  | None => EmptyString
  end.

Definition result_bind {A B} (r : result A) (k : A -> result B) : result B :=
  match r with
  | Ok a => k a
  | Raise e => Raise e
  end.

(** Runs [f] over the list from left to right and stops at the first
    exception. *)
Fixpoint result_map {A B} (f : A -> result B) (l : list A) : result (list B) :=
  match l with
  | [] => Ok []
  | a :: l' =>
      result_bind (f a) (fun b =>
      result_bind (result_map f l') (fun bs => Ok (b :: bs)))
  end.

(* ================================================================== *)
(** * The module [app/routes.py] *)
(* ================================================================== *)

Record CartItem := mkItem {
  i_product : Product;
  i_qty : Z;
  i_price : float;
  i_line_total : float;
}.

(** The totals computed by [view_cart]. *)
Record Totals := mkTotals {
  t_items : list CartItem;
  t_total_value : float;
  t_discount_rate : float;
  t_discount_value : float;
  t_shipping_value : float;
  t_grand_total : float;
}.

(** The values handed to the template [cart.html]. *)
Record CartView := mkView {
  v_totals : Totals;
  v_coupon_code : option string;
  v_user : option Client;
}.

Record XlsxRow := mkXlsxRow {
  x_produto : string;
  x_preco : float;
  x_quantidade : Z;
  x_total : float;
}.

Inductive canvas_op :=
| SetFont (name : string) (size : Z)
| DrawString (x : Z) (y : float) (text : string)
| DrawRightString (x : Z) (y : float) (text : string)
| ShowPage
| Save.

(** What a handler sends for download, as what it hands to the writer of
    the format: the rows of the sheet, the drawing on the canvas, the rows
    of the text. *)
Inductive download :=
| XlsxSheet (sheet : string) (rows : list XlsxRow)
| PdfCanvas (ops : list canvas_op)
(** the rows given to the [;]-separated writer; the text is sent as
    UTF-8 after a byte-order mark *)
| CsvText (rows : list (list string)).

Inductive response :=
| Redirect (target : string)
| CartPage (view : CartView)
| SendFile (name : string) (body : download).

(** [url_for(endpoint)]: a URL is named by its endpoint. *)
Definition url_for (endpoint : string) : string := endpoint.

(** The coupon table of [view_cart] and its two rates, [0.10] and [0.05]. *)
Definition rate_10 : float := S754_finite false 7205759403792794 (-56).
Definition rate_5 : float := S754_finite false 7205759403792794 (-57).

Definition coupon_discounts : gmap string float :=
  <["DESCONTO5" := rate_5]> (<["DESCONTO10" := rate_10]> ∅).

(** The set [allowed] of [apply_coupon]. *)
Definition allowed : gset string := {[ "DESCONTO10"; "DESCONTO5" ]}.

Definition default_admin : gmap string string :=
  <["password" := "123456"]> (<["email" := "swinck@gmail.com"]> ∅).

Definition ADMIN_FILE : string := "data/admin.json".

Definition data_file (name ext : string) : string := "data/" +:+ name +:+ ext.

Section Routes.
Context `{Libraries}.
Local Open Scope io_scope.

Definition _safe_float (value : cell) : option float :=
  if isna value then None
  else match float_of_cell value with
       | Ok f => Some f
       | Raise _ => None
       end.

(** One attempt of [_read_tabular]: nothing when the file is missing or
    the reader raises. *)
Definition try_read (path : string) (reader : bytes -> option DataFrame)
  : M (option DataFrame) :=
  w <-- get_world ;;
  match w_files w !! path with
  | Some content => log (EvRead path) ;;; ret (reader content)
  | None => ret None
  end.

(** Tries the [.xlsx] file, then the [.csv] file. *)
Definition _read_tabular (filename_no_ext : string) : M (option DataFrame) :=
  let xlsx := data_file filename_no_ext ".xlsx" in
  let csv := data_file filename_no_ext ".csv" in
  r <-- try_read xlsx read_excel ;;
  match r with
  | Some df => ret (Some df)
  | None =>
      r' <-- try_read csv read_csv ;;
      match r' with
      | Some df => ret (Some df)
      | None => ret None
      end
  end.

(** [str(v)] *)
Definition str (c : cell) : string :=
  match c with
  | CNone => "None"
  | CBool b => if b then "True" else "False"
  | CInt z => pretty z
  | CFloat f => float_str f
  | CStr s => s
  end.

(** The image path of a row: set when the value is a non-empty [str]. *)
Definition image_path_of (image_rel : cell) : option string :=
  match image_rel with
  | CStr s =>
      if PyStr.truthy s then Some (posix_join "images" (slashes s)) else None
  | _ => None
  end.

(** Body of the loop of [load_products]. *)
Definition product_of_row (cols : list string) (row : list cell)
  : result Product :=
  let image_path := image_path_of (row_get cols row "image") in
  result_bind (float_of_cell (cell_or (row_get cols row "price") (CFloat fzero)))
    (fun price =>
       Ok (mkProduct (str (row_get cols row "id"))
                     (str (row_get cols row "supplier_id"))
                     (str (row_get cols row "name"))
                     price
                     (_safe_float (row_get cols row "promo_price"))
                     image_path)).

Definition load_products : M (list Product) :=
  df <-- _read_tabular "products" ;;
  match df with
  | None => ret []
  | Some df => lift (result_map (product_of_row (df_columns df)) (df_rows df))
  end.

Definition optional_str (c : cell) : option string :=
  match c with
  | CNone => None
  | _ => Some (str c)
  end.

(** Body of the loop of [load_clients]. *)
Definition client_of_row (cols : list string) (row : list cell) : Client :=
  mkClient (str (row_get cols row "id"))
           (str (row_get cols row "name"))
           (str (row_get cols row "email"))
           (str (row_get cols row "password"))
           (optional_str (row_get cols row "phone"))
           (optional_str (row_get cols row "address"))
           (optional_str (row_get cols row "state"))
           (optional_str (row_get cols row "city"))
           (optional_str (row_get cols row "cep")).

Definition load_clients : M (list Client) :=
  df <-- _read_tabular "clients" ;;
  match df with
  | None => ret []
  | Some df => ret (map (client_of_row (df_columns df)) (df_rows df))
  end.

Definition _get_cart : M (pydict Z) :=
  s <-- get_session ;;
  ret (default [] (s_cart s)).

Definition _save_cart (cart : pydict Z) : M unit :=
  s <-- get_session ;;
  put_session (mkSession (Some cart) (s_user_email s) (s_coupon_code s)
                         (s_shipping_value s)).

Definition _ensure_admin_file : M unit :=
  w <-- get_world ;;
  match w_admin w with
  | Some _ => ret tt
  | None => write_admin (JsonObj default_admin)
  end.

Definition load_admin : M (gmap string string) :=
  _ensure_admin_file ;;;
  log (EvRead ADMIN_FILE) ;;;
  w <-- get_world ;;
  match w_admin w with
  | Some (JsonObj d) => ret d
  | _ => ret default_admin
  end.

(** The synthetic administrator carries the e-mail of the administrator
    record, which is then equal to [user_email]. *)
Definition _get_current_user : M (option Client) :=
  s <-- get_session ;;
  match s_user_email s with
  | None => ret None
  | Some user_email =>
      if negb (PyStr.truthy user_email) then ret None
      else
        admin <-- load_admin ;;
        if bool_decide (admin !! "email" = Some user_email) then
          ret (Some (mkClient "admin" "Administrador" user_email
                       (default EmptyString (admin !! "password"))
                       None None None None None))
        else
          clients <-- load_clients ;;
          ret (find (fun c => String.eqb (c_email c) user_email) clients)
  end.

(** The truth value of [_is_admin_email(email)]. *)
Definition _is_admin_email (email : string) : M bool :=
  admin <-- load_admin ;;
  ret (PyStr.truthy email && bool_decide (admin !! "email" = Some email)).

Definition _require_admin : M (option string) :=
  user <-- _get_current_user ;;
  match user with
  | None => ret (Some "Acesso restrito ao administrador.")
  | Some u =>
      ok <-- _is_admin_email (c_email u) ;;
      if negb ok then ret (Some "Acesso restrito ao administrador.")
      else ret None
  end.

(** [df[col] = None] for a label the table lacks. *)
Definition add_column (df : DataFrame) (col : string) : DataFrame :=
  mkDF (df_columns df ++ [col])%list
       (map (fun row => row ++ [CNone])%list (df_rows df)).

(** [df[cols]] *)
Definition select_columns (df : DataFrame) (cols : list string) : DataFrame :=
  mkDF cols (map (fun row => map (row_get (df_columns df) row) cols) (df_rows df)).

(** One round of the loop [for col in wanted_cols] of the
    [_save_*_dataframe] functions. *)
Definition add_missing (d : DataFrame) (col : string) : DataFrame :=
  match index_of col (df_columns d) with
  | Some _ => d
  | None => add_column d col
  end.

(** The three lines shared by the [_save_*_dataframe] functions: add the
    wanted columns that are missing, then keep the wanted ones in order. *)
Definition enforce_columns (wanted_cols : list string) (df : DataFrame)
  : DataFrame :=
  select_columns (fold_left add_missing wanted_cols df) wanted_cols.

Definition clients_cols : list string :=
  ["id"; "name"; "email"; "password"; "phone"; "address"; "state"; "city"; "cep"].
Definition suppliers_cols : list string := ["id"; "name"; "logo"].
Definition products_cols : list string :=
  ["id"; "supplier_id"; "name"; "price"; "promo_price"; "image"].

(** [df.to_excel(path, index=False)]: the workbook goes to the path, or
    the exception of the library is raised, after what the failed call has
    put there. *)
Definition write_excel (path : string) (df : DataFrame) : M unit :=
  time <-- now ;;
  match to_excel time df with
  | XlsxWritten content => write_file path content
  | XlsxFailed message remains =>
      match remains with
      | Some content => write_file path content
      | None => ret tt
      end ;;;
      lift (Raise (LibraryError message))
  end.

(** [df.to_csv(path, index=False)] *)
Definition write_csv (path : string) (df : DataFrame) : M unit :=
  write_file path (to_csv df).

Definition _save_clients_dataframe (df : DataFrame) : M unit :=
  let df := enforce_columns clients_cols df in
  write_excel "data/clients.xlsx" df ;;;
  write_csv "data/clients.csv" df.

Definition _save_suppliers_dataframe (df : DataFrame) : M unit :=
  let df := enforce_columns suppliers_cols df in
  write_excel "data/suppliers.xlsx" df ;;;
  write_csv "data/suppliers.csv" df.

Definition _save_products_dataframe (df : DataFrame) : M unit :=
  let df := enforce_columns products_cols df in
  write_excel "data/products.xlsx" df ;;;
  write_csv "data/products.csv" df.

(* ---------------- cart ---------------- *)

(** [request.headers.get("Referer") or fallback] *)
Definition referer_or (req : Request) (fallback : string) : string :=
  match r_referer req with
  | Some r => if PyStr.truthy r then r else fallback
  | None => fallback
  end.

(** [int(request.form.get("qty", 1))] *)
Definition form_qty (req : Request) : result Z :=
  match r_form req !! "qty" with
  | None => Ok 1
  | Some s => match parse_int s with
              | Some z => Ok z
              | None => Raise ValueError
              end
  end.

Definition cart_add (product_id : string) (req : Request) : M response :=
  cart <-- _get_cart ;;
  qty <-- lift (form_qty req) ;;
  let cart :=
    PyDict.set product_id
      (default 0 (PyDict.get product_id cart) + Z.max qty 1) cart in
  _save_cart cart ;;;
  flash "Produto adicionado ao carrinho." ;;;
  ret (Redirect (referer_or req (url_for "catalog.index"))).

Definition cart_remove (product_id : string) (req : Request) : M response :=
  cart <-- _get_cart ;;
  (if PyDict.contains product_id cart then
     _save_cart (PyDict.pop product_id cart) ;;;
     flash "Produto removido do carrinho."
   else ret tt) ;;;
  ret (Redirect (referer_or req (url_for "catalog.view_cart"))).

(** [{p.id: p for p in products}]: a later product replaces an earlier
    one with the same id. *)
Definition products_by_id (products : list Product) : gmap string Product :=
  fold_left (fun m p => <[p_id p := p]> m) products ∅.

(** [product.promo_price if product.promo_price is not None else product.price] *)
Definition unit_price (product : Product) : float :=
  match p_promo_price product with
  | Some promo => promo
  | None => p_price product
  end.

(** [price * qty]: the quantity is converted to a float first. *)
Definition times_qty (price : float) (qty : Z) : result float :=
  result_bind (float_of_int qty) (fun q => Ok (fmul price q)).

(** The loop of [view_cart] over [cart.items()]. *)
Fixpoint view_cart_loop (products : gmap string Product)
    (entries : pydict Z) (items : list CartItem) (total_value : float)
  : result (list CartItem * float) :=
  match entries with
  | [] => Ok (items, total_value)
  | (pid, qty) :: rest =>
      match products !! pid with
      | None => view_cart_loop products rest items total_value
      | Some product =>
          let price := unit_price product in
          result_bind (times_qty price qty) (fun line_total =>
            view_cart_loop products rest
              (items ++ [mkItem product qty price line_total])%list
              (fadd total_value line_total))
      end
  end.

(** [float(session.get("shipping_value", 0.0) or 0.0)] *)
Definition session_shipping (stored : option float) : float :=
  match stored with
  | Some v => if float_truthy v then v else fzero
  | None => fzero
  end.

(** [coupon_discounts.get(coupon_code, 0.0)] *)
Definition discount_rate_of (coupon_code : option string) : float :=
  match coupon_code with
  | Some c => default fzero (coupon_discounts !! c)
  | None => fzero
  end.

(** The pricing part of [view_cart], from the building of the product
    dictionary to the grand total, as a function of what it reads: the
    cart, the loaded products and the coupon code and shipping value of
    the session. *)
Definition pricing (cart : pydict Z) (loaded : list Product)
    (coupon_code : option string) (shipping : option float) : result Totals :=
  let products := products_by_id loaded in
  result_bind (view_cart_loop products cart [] fzero) (fun r =>
    let '(items, total_value) := r in
    let discount_rate := discount_rate_of coupon_code in
    let discount_value := round2 (fmul total_value discount_rate) in
    let shipping_value := session_shipping shipping in
    let grand_total :=
      py_max (fadd (fsub total_value discount_value) shipping_value) fzero in
    Ok (mkTotals items total_value discount_rate discount_value
                 shipping_value grand_total)).

Definition view_cart : M response :=
  cart <-- _get_cart ;;
  loaded <-- load_products ;;
  s <-- get_session ;;
  totals <-- lift (pricing cart loaded (s_coupon_code s) (s_shipping_value s)) ;;
  user <-- _get_current_user ;;
  ret (CartPage (mkView totals (s_coupon_code s) user)).

(* ---------------- coupon and shipping ---------------- *)

Definition apply_coupon (req : Request) : M response :=
  let code :=
    PyStr.py_upper
      (PyStr.py_strip (default EmptyString (r_form req !! "coupon"))) in
  s <-- get_session ;;
  (if bool_decide (code ∈ allowed) then
     put_session (mkSession (s_cart s) (s_user_email s) (Some code)
                            (s_shipping_value s)) ;;;
     flash "Cupom aplicado."
   else
     put_session (mkSession (s_cart s) (s_user_email s) None
                            (s_shipping_value s)) ;;;
     flash "Cupom inválido removido.") ;;;
  ret (Redirect (url_for "catalog.view_cart")).

(** The [try] block of [set_shipping]:
    [float(request.form.get("shipping", 0) or 0)], then the clamp. *)
Definition shipping_of_form (req : Request) : float :=
  match r_form req !! "shipping" with
  | None => fzero
  | Some s =>
      if PyStr.truthy s then
        match parse_float s with
        | Some value => if flt value fzero then fzero else value
        | None => fzero
        end
      else fzero
  end.

Definition set_shipping (req : Request) : M response :=
  let value := shipping_of_form req in
  s <-- get_session ;;
  put_session (mkSession (s_cart s) (s_user_email s) (s_coupon_code s)
                         (Some value)) ;;;
  flash "Frete atualizado." ;;;
  ret (Redirect (url_for "catalog.view_cart")).

(* ---------------- exports ---------------- *)

(** The loop of [export_cart_xlsx]. *)
Fixpoint xlsx_loop (products : gmap string Product) (entries : pydict Z)
    (rows : list XlsxRow) (total : float) : result (list XlsxRow * float) :=
  match entries with
  | [] => Ok (rows, total)
  | (pid, qty) :: rest =>
      match products !! pid with
      | None => xlsx_loop products rest rows total
      | Some p =>
          let price := unit_price p in
          result_bind (times_qty price qty) (fun line_total =>
            xlsx_loop products rest
              (rows ++ [mkXlsxRow (p_name p) price qty line_total])%list
              (fadd total line_total))
      end
  end.

Definition export_cart_xlsx : M response :=
  cart <-- _get_cart ;;
  if negb (PyDict.truthy cart) then
    flash "Carrinho vazio." ;;;
    ret (Redirect (url_for "catalog.view_cart"))
  else
    loaded <-- load_products ;;
    let products := products_by_id loaded in
    r <-- lift (xlsx_loop products cart [] fzero) ;;
    ret (SendFile "carrinho.xlsx" (XlsxSheet "Carrinho" (fst r))).

(** The first loop of [export_cart_pdf]: name, quantity, price, line total. *)
Fixpoint pdf_loop (products : gmap string Product) (entries : pydict Z)
    (items : list (string * Z * float * float)) (total : float)
  : result (list (string * Z * float * float) * float) :=
  match entries with
  | [] => Ok (items, total)
  | (pid, qty) :: rest =>
      match products !! pid with
      | None => pdf_loop products rest items total
      | Some p =>
          let price := unit_price p in
          result_bind (times_qty price qty) (fun line_total =>
            pdf_loop products rest
              (items ++ [(p_name p, qty, price, line_total)])%list
              (fadd total line_total))
      end
  end.

(** The second loop of [export_cart_pdf]: one line per item, a new page
    when [y] falls below 60. *)
Fixpoint pdf_lines (items : list (string * Z * float * float)) (y : float)
    (ops : list canvas_op) : list canvas_op * float :=
  match items with
  | [] => (ops, y)
  | (name, qty, price, line_total) :: rest =>
      let '(ops, y) :=
        if flt y (of_Z 60)
        then ((ops ++ [ShowPage])%list, fsub a4_height (of_Z 40))
        else (ops, y) in
      pdf_lines rest (fsub y (of_Z 18))
        (ops ++ [DrawString 40 y name;
                 DrawRightString 300 y (pretty qty);
                 DrawRightString 380 y ("R$ " +:+ format_2f price);
                 DrawRightString 500 y ("R$ " +:+ format_2f line_total)])%list
  end.

(** The drawing part of [export_cart_pdf]: title, column heads, the item
    lines and the total. *)
Definition pdf_ops (items : list (string * Z * float * float)) (total : float)
  : list canvas_op :=
  let y := fsub a4_height (of_Z 40) in
  let ops := [SetFont "Helvetica-Bold" 14;
              DrawString 40 y "Carrinho de Compras"] in
  let y := fsub y (of_Z 30) in
  let ops := (ops ++ [SetFont "Helvetica" 10;
                      DrawString 40 y "Produto";
                      DrawString 260 y "Qtd";
                      DrawString 320 y "Preço";
                      DrawString 400 y "Total"])%list in
  let y := fsub y (of_Z 20) in
  let '(ops, y) := pdf_lines items y ops in
  let y := fsub y (of_Z 10) in
  (ops ++ [SetFont "Helvetica-Bold" 11;
           DrawRightString 500 y ("Total: R$ " +:+ format_2f total);
           ShowPage; Save])%list.

Definition export_cart_pdf : M response :=
  if negb has_reportlab then
    flash "Dependência de PDF ausente. Instale 'reportlab'." ;;;
    ret (Redirect (url_for "catalog.view_cart"))
  else
    cart <-- _get_cart ;;
    if negb (PyDict.truthy cart) then
      flash "Carrinho vazio." ;;;
      ret (Redirect (url_for "catalog.view_cart"))
    else
      loaded <-- load_products ;;
      let products := products_by_id loaded in
      r <-- lift (pdf_loop products cart [] fzero) ;;
      ret (SendFile "carrinho.pdf" (PdfCanvas (pdf_ops r.1 r.2))).

(** [s.replace(".", ",")] *)
Definition comma (s : string) : string :=
  string_of_list_ascii
    (map (fun a => if Ascii.eqb a "." then ","%char else a)
         (list_ascii_of_string s)).

(** The loop of [export_cart_csv]. *)
Fixpoint csv_loop (products : gmap string Product) (entries : pydict Z)
    (rows : list (list string)) : result (list (list string)) :=
  match entries with
  | [] => Ok rows
  | (pid, qty) :: rest =>
      match products !! pid with
      | None => csv_loop products rest rows
      | Some p =>
          let price := unit_price p in
          result_bind (times_qty price qty) (fun line_total =>
            let price_str := comma (format_2f price) in
            let total_str := comma (format_2f line_total) in
            csv_loop products rest
              (rows ++ [[p_id p; p_name p; pretty qty; price_str; total_str]])%list)
      end
  end.

Definition export_cart_csv : M response :=
  cart <-- _get_cart ;;
  if negb (PyDict.truthy cart) then
    flash "Carrinho vazio." ;;;
    ret (Redirect (url_for "catalog.view_cart"))
  else
    loaded <-- load_products ;;
    let products := products_by_id loaded in
    rows <-- lift (csv_loop products cart
                     [["SKU"; "Nome"; "Quantidade"; "PrecoUnitario"; "TotalLinha"]]) ;;
    ret (SendFile "carrinho.csv" (CsvText rows)).

(* ---------------- imports ---------------- *)

(** A reader applied to the upload: the table, or the exception of the
    library. *)
Definition read_upload (reader : bytes -> option DataFrame)
    (error : bytes -> string) (stream : bytes) : result DataFrame :=
  match reader stream with
  | Some df => Ok df
  | None => Raise (LibraryError (error stream))
  end.

(** The [try] block of the import handlers from the call of the reader on,
    with its [except] clause and the [return] after it: whatever the reader
    or the save function raises is caught and its text is flashed. *)
Definition store_upload (save : DataFrame -> M unit) (back : response)
    (success : string) (parsed : result DataFrame) : M response :=
  catch (df <-- lift parsed ;; save df ;;; flash success)
        (fun e => flash ("Falha ao importar: " +:+ exn_text e)) ;;;
  ret back.

(** The body shared by [clients_import_submit], [suppliers_import_submit]
    and [products_import_submit], which differ in the save function, the
    page they return to and the message of success. *)
Definition import_submit (save : DataFrame -> M unit) (page success : string)
    (req : Request) : M response :=
  msg <-- _require_admin ;;
  match msg with
  | Some msg => flash msg ;;; ret (Redirect (url_for "catalog.index"))
  | None =>
      let back := Redirect (url_for page) in
      match r_file req with
      | None => flash "Selecione um arquivo .xlsx ou .csv" ;;; ret back
      | Some file =>
          if negb (PyStr.truthy (u_filename file)) then
            flash "Selecione um arquivo .xlsx ou .csv" ;;; ret back
          else
            let filename := secure_filename (u_filename file) in
            let ext := extension filename in
            if String.eqb ext "xlsx" then
              log (EvUpload (u_filename file)) ;;;
              store_upload save back success
                (read_upload read_excel read_excel_error (u_stream file))
            else if String.eqb ext "csv" then
              log (EvUpload (u_filename file)) ;;;
              store_upload save back success
                (read_upload read_csv read_csv_error (u_stream file))
            else
              flash "Formato não suportado. Use .xlsx ou .csv" ;;; ret back
      end
  end.

Definition clients_import_submit : Request -> M response :=
  import_submit _save_clients_dataframe "catalog.clients_import_page"
                "Clientes importados com sucesso.".

Definition suppliers_import_submit : Request -> M response :=
  import_submit _save_suppliers_dataframe "catalog.suppliers_import_page"
                "Fornecedores importados com sucesso.".

Definition products_import_submit : Request -> M response :=
  import_submit _save_products_dataframe "catalog.products_import_page"
                "Produtos importados com sucesso.".

End Routes.


(* ******************** Vocabulary of the properties ******************** *)

(* ================================================================== *)
(** * Statements about the pricing computation *)
(* ================================================================== *)

(** The quantity [q] can be multiplied with a price: [float(q)] does not
    raise [OverflowError]. *)
Definition converts (q : Z) : bool :=
  match float_of_int q with
  | Ok _ => true
  | Raise _ => false
  end.

(** The entries of the cart that resolve to a product have quantities that
    convert to a float. *)
Definition quantities_convert (products : gmap string Product)
    (cart : pydict Z) : Prop :=
  Forall (fun e => is_Some (products !! e.1) -> converts e.2 = true) cart.

(** What the pricing computation is to yield: totals whose discount value
    is the rounded product of subtotal and rate, whose grand total is the
    maximum of subtotal - discount + shipping and zero, and is not below
    zero. *)
Definition pricing_yields (cart : pydict Z) (loaded : list Product)
    (coupon_code : option string) (shipping : option float) : Prop :=
  exists t,
    pricing cart loaded coupon_code shipping = Ok t /\
    t_discount_rate t = discount_rate_of coupon_code /\
    t_shipping_value t = session_shipping shipping /\
    t_discount_value t = round2 (fmul (t_total_value t) (t_discount_rate t)) /\
    t_grand_total t =
      py_max (fadd (fsub (t_total_value t) (t_discount_value t))
                   (t_shipping_value t)) fzero /\
    flt (t_grand_total t) fzero = false.

(** A catalog with the single product [P1] at price 1.0. *)
Definition one_product : list Product :=
  [mkProduct "P1" "forn1" "Produto P1" fone None None].

(* ================================================================== *)
(** * Worlds, and statements about reading the store *)
(* ================================================================== *)

(** The world [w] after the file accesses [evs]. *)
Definition logged (evs : list io_event) (w : World) : World :=
  mkWorld (w_files w) (w_admin w) (w_session w) (w_flashes w) (w_trace w ++ evs)
          (w_clock w).

Section ReadVocabulary.
Context `{Libraries}.

(** The table in the file at [path], when the file exists and [reader]
    accepts it. *)
Definition readable (w : World) (path : string)
    (reader : bytes -> option DataFrame) : option DataFrame :=
  w_files w !! path ≫= reader.

(** The table of an entity: the spreadsheet when it is readable, else the
    delimited text when that is readable. *)
Definition stored_table (name : string) (w : World) : option DataFrame :=
  match readable w (data_file name ".xlsx") read_excel with
  | Some df => Some df
  | None => readable w (data_file name ".csv") read_csv
  end.

(** The read of the delimited-text file, made when it exists. *)
Definition csv_attempt (name : string) (w : World) : list io_event :=
  match w_files w !! data_file name ".csv" with
  | Some _ => [EvRead (data_file name ".csv")]
  | None => []
  end.

(** The reads of one look-up of an entity, in order: the spreadsheet when
    it exists, then the delimited text when the spreadsheet gave nothing. *)
Definition read_attempts (name : string) (w : World) : list io_event :=
  match w_files w !! data_file name ".xlsx" with
  | Some content =>
      EvRead (data_file name ".xlsx") ::
      match read_excel content with
      | Some _ => []
      | None => csv_attempt name w
      end
  | None => csv_attempt name w
  end.

End ReadVocabulary.

(* ================================================================== *)
(** * Example inputs *)
(* ================================================================== *)

(** The byte that stands for a time in the workbooks of the examples. *)
Definition stamp (time : Z) : Byte.byte :=
  default Byte.x00 (Byte.of_N (Z.to_N (time mod 256))).

(** A stand-in for the libraries, enough to run the handlers on examples:
    every non-empty file holds the table [t]; a table is written as one
    byte, followed in a workbook by the time of the write. *)
Definition table_libraries (t : DataFrame) : Libraries := {|
  read_excel := fun b => match b with [] => None | _ => Some t end;
  read_csv := fun b => match b with [] => None | _ => Some t end;
  read_excel_error := fun _ => "File is not a zip file";
  read_csv_error := fun _ => "No columns to parse from file";
  to_excel := fun time _ => XlsxWritten [Byte.x01; stamp time];
  to_csv := fun _ => [Byte.x02];
  float_str := format_2f;
  posix_join := fun a b => a +:+ "/" +:+ b;
  secure_filename := fun name => name;
  has_reportlab := true;
  a4_height := of_Z 842;
|}.

(** The same, with a writer of workbooks that raises on every table after
    it has emptied the file. *)
Definition failing_libraries (t : DataFrame) : Libraries := {|
  read_excel := fun b => match b with [] => None | _ => Some t end;
  read_csv := fun b => match b with [] => None | _ => Some t end;
  read_excel_error := fun _ => "File is not a zip file";
  read_csv_error := fun _ => "No columns to parse from file";
  to_excel := fun _ _ =>
    XlsxFailed "x cannot be used in worksheets." (Some []);
  to_csv := fun _ => [Byte.x02];
  float_str := format_2f;
  posix_join := fun a b => a +:+ "/" +:+ b;
  secure_filename := fun name => name;
  has_reportlab := true;
  a4_height := of_Z 842;
|}.

(** A products table whose second row has the text [abc] as its price. *)
Definition bad_price_table : DataFrame :=
  mkDF ["id"; "supplier_id"; "name"; "price"; "promo_price"; "image"]
       [[CStr "A1"; CStr "forn1"; CStr "Produto A1"; CFloat fone; CNone; CNone];
        [CStr "A2"; CStr "forn1"; CStr "Produto A2"; CStr "abc"; CNone; CNone];
        [CStr "A3"; CStr "forn1"; CStr "Produto A3"; CFloat fone; CNone; CNone]].

Definition empty_session : Session := mkSession None None None None.

(** A world with no file and a fresh session. *)
Definition empty_world : World := mkWorld ∅ None empty_session [] [] 0.

(** A world whose only file is a non-empty [data/products.csv]. *)
Definition products_csv_world : World :=
  mkWorld {[ "data/products.csv" := [Byte.x02] ]} None empty_session [] [] 0.

(** A request whose form has the single field [name] with value [value]. *)
Definition form_request (name value : string) : Request :=
  mkRequest {[ name := value ]} None None.

(* ================================================================== *)
(** * Requests in sequence, and what they may change *)
(* ================================================================== *)

(** The computation [m] moves every world to one related to it by [R]. *)
Definition respects (R : World -> World -> Prop) {A} (m : M A) : Prop :=
  forall w, R w (m w).2.

Definition same_session (w w' : World) : Prop := w_session w' = w_session w.

Definition same_clock (w w' : World) : Prop := w_clock w' = w_clock w.

(** The administrator record that [load_admin] returns in world [w]. *)
Definition admin_of (w : World) : gmap string string :=
  match w_admin w with
  | Some (JsonObj d) => d
  | _ => default_admin
  end.

(** The session of [w] is the administrator's: it has a non-empty user
    e-mail, equal to the e-mail of the administrator record. *)
Definition is_administrator (w : World) : bool :=
  match s_user_email (w_session w) with
  | Some e => PyStr.truthy e && bool_decide (admin_of w !! "email" = Some e)
  | None => false
  end.

(** File accesses that touch neither an upload nor a tabular file for
    writing: reads, and the first-use creation of [data/admin.json]. *)
Definition quiet_event (e : io_event) : Prop :=
  match e with
  | EvRead _ => True
  | EvWrite path => path = ADMIN_FILE
  | EvUpload _ => False
  end.

(** [w'] differs from [w] by quiet file accesses only. *)
Definition reads_only (w w' : World) : Prop :=
  w_files w' = w_files w /\
  w_session w' = w_session w /\
  w_flashes w' = w_flashes w /\
  admin_of w' = admin_of w /\
  exists evs, w_trace w' = w_trace w ++ evs /\ Forall quiet_event evs.

(** The requests to the handlers modelled above. *)
Inductive action :=
| ACartAdd (product_id : string) (req : Request)
| ACartRemove (product_id : string) (req : Request)
| AViewCart
| AExportXlsx
| AExportPdf
| AExportCsv
| AApplyCoupon (req : Request)
| ASetShipping (req : Request)
| AImportClients (req : Request)
| AImportSuppliers (req : Request)
| AImportProducts (req : Request).

Section Actions.
Context `{Libraries}.

Definition handle (a : action) : M response :=
  match a with
  | ACartAdd product_id req => cart_add product_id req
  | ACartRemove product_id req => cart_remove product_id req
  | AViewCart => view_cart
  | AExportXlsx => export_cart_xlsx
  | AExportPdf => export_cart_pdf
  | AExportCsv => export_cart_csv
  | AApplyCoupon req => apply_coupon req
  | ASetShipping req => set_shipping req
  | AImportClients req => clients_import_submit req
  | AImportSuppliers req => suppliers_import_submit req
  | AImportProducts req => products_import_submit req
  end.

(** The world after a request, whether it was answered or raised. *)
Definition step (a : action) (w : World) : World := (handle a w).2.

Definition run (actions : list action) (w : World) : World :=
  fold_left (fun w a => step a w) actions w.

End Actions.

(** The cart of the session ([_get_cart]). *)
Definition cart_of (w : World) : pydict Z := default [] (s_cart (w_session w)).

Definition quantities_positive (cart : pydict Z) : Prop :=
  Forall (fun e => 1 <= e.2) cart.

Definition coupon_recognized (c : option string) : Prop :=
  c = None \/ c = Some "DESCONTO10" \/ c = Some "DESCONTO5".

(** The code that [apply_coupon] looks up for a request. *)
Definition submitted_code (req : Request) : string :=
  PyStr.py_upper (PyStr.py_strip (default EmptyString (r_form req !! "coupon"))).

(** The session after a request, as a function of the session before. *)
Definition session_after (a : action) (s : Session) : Session :=
  match a with
  | ACartAdd product_id req =>
      match form_qty req with
      | Ok qty =>
          let cart := default [] (s_cart s) in
          mkSession
            (Some (PyDict.set product_id
                     (default 0 (PyDict.get product_id cart) + Z.max qty 1) cart))
            (s_user_email s) (s_coupon_code s) (s_shipping_value s)
      | Raise _ => s
      end
  | ACartRemove product_id _ =>
      let cart := default [] (s_cart s) in
      if PyDict.contains product_id cart then
        mkSession (Some (PyDict.pop product_id cart))
                  (s_user_email s) (s_coupon_code s) (s_shipping_value s)
      else s
  | AApplyCoupon req =>
      let code := submitted_code req in
      mkSession (s_cart s) (s_user_email s)
                (if bool_decide (code ∈ allowed) then Some code else None)
                (s_shipping_value s)
  | ASetShipping req =>
      mkSession (s_cart s) (s_user_email s) (s_coupon_code s)
                (Some (shipping_of_form req))
  | _ => s
  end.

(* ================================================================== *)
(** * Statements about imports *)
(* ================================================================== *)

Definition restricted : string := "Acesso restrito ao administrador.".


Section ImportVocabulary.
Context `{Libraries}.

(** The table that an import request carries: the upload parsed according
    to the extension of its name, when it has a name, an accepted extension
    and content that the reader accepts. *)
Definition upload_table (req : Request) : option DataFrame :=
  match r_file req with
  | None => None
  | Some file =>
      if PyStr.truthy (u_filename file) then
        let ext := extension (secure_filename (u_filename file)) in
        if String.eqb ext "xlsx" then read_excel (u_stream file)
        else if String.eqb ext "csv" then read_csv (u_stream file)
        else None
      else None
  end.

(** The tabular files after the table [df] is saved for entity [name]
    at time [time]: both files of the entity replaced when the workbook is
    written; when its writer raises, the delimited text is not written and
    the workbook is what the failed call has left. *)
Definition stored_after_save (name : string) (time : Z) (df : DataFrame)
    (files : gmap string bytes) : gmap string bytes :=
  match to_excel time df with
  | XlsxWritten content =>
      <[data_file name ".csv" := to_csv df]>
        (<[data_file name ".xlsx" := content]> files)
  | XlsxFailed _ (Some content) => <[data_file name ".xlsx" := content]> files
  | XlsxFailed _ None => files
  end.

(** The tabular files after an import of entity [name] with canonical
    columns [cols]: those after the save of the normalised upload when the
    session is the administrator's and the upload parses; unchanged
    otherwise. *)
Definition stored_after_import (name : string) (cols : list string)
    (req : Request) (w : World) : gmap string bytes :=
  if is_administrator w then
    match upload_table req with
    | Some df =>
        stored_after_save name (w_clock w) (enforce_columns cols df) (w_files w)
    | None => w_files w
    end
  else w_files w.

(** What a save function of entity [name] with columns [cols] does: it
    returns when the workbook of the normalised table is written and
    raises what the writer raises; the files are then those of
    [stored_after_save]; the session, the administrator record and the
    flashed messages are left alone, and the clock has been read once. *)
Definition saves (name : string) (cols : list string)
    (save : DataFrame -> M unit) : Prop :=
  forall df w,
    fst (save df w)
    = match to_excel (w_clock w) (enforce_columns cols df) with
      | XlsxWritten _ => Ok tt
      | XlsxFailed message _ => Raise (LibraryError message)
      end /\
    w_files (save df w).2
    = stored_after_save name (w_clock w) (enforce_columns cols df) (w_files w) /\
    w_session (save df w).2 = w_session w /\
    admin_of (save df w).2 = admin_of w /\
    w_flashes (save df w).2 = w_flashes w /\
    w_clock (save df w).2 = w_clock w + 1.


End ImportVocabulary.

(** A session signed in as a client, and a request that uploads a file. *)
Definition client_world : World :=
  mkWorld ∅ None (mkSession None (Some "demo@teste.com") None None) [] [] 0.

Definition admin_world : World :=
  mkWorld ∅ None (mkSession None (Some "swinck@gmail.com") None None) [] [] 0.

Definition upload_request (filename : string) : Request :=
  mkRequest ∅ (Some (mkUpload filename [Byte.x01])) None.

(** A products table with three priced rows, a world that stores it and
    whose cart names the product id [ZZ] that the table lacks. *)
Definition catalog_table : DataFrame :=
  mkDF ["id"; "supplier_id"; "name"; "price"; "promo_price"; "image"]
       [[CStr "A1"; CStr "forn1"; CStr "Produto A1"; CFloat fone; CNone; CNone];
        [CStr "A2"; CStr "forn1"; CStr "Produto A2"; CInt 3; CFloat fone; CNone];
        [CStr "A3"; CStr "forn1"; CStr "Produto A3"; CStr "2.50"; CStr "n/a"; CNone]].

Definition cart_world : World :=
  mkWorld {[ "data/products.csv" := [Byte.x02] ]} None
          (mkSession (Some [("A1", 2); ("ZZ", 5); ("A3", 1)]) None None None)
          [] [] 0.

(** The products that [load_products] builds from [catalog_table]. *)
Definition catalog_products : list Product :=
  [mkProduct "A1" "forn1" "Produto A1" fone None None;
   mkProduct "A2" "forn1" "Produto A2" (of_Z 3) (Some fone) None;
   mkProduct "A3" "forn1" "Produto A3"
             (S754_finite false 5629499534213120 (-51)) None None].

(** The digit 1 followed by four hundred zeros: the text of [10^400]. *)
Definition huge_qty : string :=
  string_of_list_ascii ("1"%char :: replicate 400 "0"%char).

(* ================================================================== *)
(** * The other handlers of [app/routes.py] *)
(* ================================================================== *)

Record Supplier := mkSupplier {
  sup_id : string;
  sup_name : string;
  sup_logo_path : option string;
}.

(** The templates rendered by the handlers below, with their values. *)
Inductive page :=
| IndexPage (suppliers : list Supplier) (user : option Client)
| SupplierPage (supplier : option Supplier) (products : list Product)
    (page total_pages : Z) (supplier_id : string) (user : option Client)
| LoginPage
| CheckoutPage (user : Client)
| AccountPage (user : Client)
| ImportClientsPage (user : option Client)
| ImportDataPage (user : option Client) (entity accept : string)
    (help_cols : list string).

Inductive reply :=
| Goto (target : string)
| Show (p : page).

(** [url_for(endpoint, next=url_for(next))] *)
Definition url_for_next (endpoint next : string) : string :=
  endpoint +:+ "?next=" +:+ next.

(** [a / b] on integers with [b > 0]: the float nearest to the quotient,
    [OverflowError] when that is infinite. *)
Definition true_div (a : Z) (b : positive) : result float :=
  match a with
  | Z0 => Ok fzero
  | Zpos p =>
      match fdiv (S754_finite false p 0) (S754_finite false b 0) with
      | S754_infinity _ => Raise OverflowError
      | q => Ok q
      end
  | Zneg p =>
      match fdiv (S754_finite true p 0) (S754_finite false b 0) with
      | S754_infinity _ => Raise OverflowError
      | q => Ok q
      end
  end.

(** [math.ceil(x)]: [ValueError] on NaN, [OverflowError] on an infinity. *)
Definition ceil (x : float) : result Z :=
  match x with
  | S754_zero _ => Ok 0
  | S754_nan => Raise ValueError
  | S754_infinity _ => Raise OverflowError
  | S754_finite s m e =>
      if 0 <=? e then Ok ((if s then -1 else 1) * (Zpos m * 2 ^ e))
      else if s then Ok (- (Zpos m / 2 ^ (- e)))
      else Ok (- ((- Zpos m) / 2 ^ (- e)))
  end.

(** [l[start:stop]] *)
Definition slice_index (len i : Z) : Z :=
  if i <? 0 then Z.max (i + len) 0 else Z.min i len.

Definition py_slice {A} (l : list A) (start stop : Z) : list A :=
  let len := Z.of_nat (length l) in
  let a := slice_index len start in
  let b := slice_index len stop in
  take (Z.to_nat (b - a)) (drop (Z.to_nat a) l).

Section MoreRoutes.
Context `{Libraries}.
Local Open Scope io_scope.

(** Body of the loop of [load_suppliers]. *)
Definition supplier_of_row (cols : list string) (row : list cell) : Supplier :=
  let logo_path := image_path_of (row_get cols row "logo") in
  mkSupplier (str (row_get cols row "id")) (str (row_get cols row "name"))
             logo_path.

Definition load_suppliers : M (list Supplier) :=
  df <-- _read_tabular "suppliers" ;;
  match df with
  | None => ret []
  | Some df => ret (map (supplier_of_row (df_columns df)) (df_rows df))
  end.

(** [save_admin(email, password)]; an argument that is [None] or empty
    leaves its field as it is. *)
Definition save_admin (email password : option string) : M unit :=
  data <-- load_admin ;;
  let data :=
    match email with
    | Some e => if PyStr.truthy e then <["email" := e]> data else data
    | None => data
    end in
  let data :=
    match password with
    | Some p => if PyStr.truthy p then <["password" := p]> data else data
    | None => data
    end in
  write_admin (JsonObj data).

Definition index : M reply :=
  suppliers <-- load_suppliers ;;
  user <-- _get_current_user ;;
  ret (Show (IndexPage suppliers user)).

(** [int(request.args.get("page", 1))] *)
Definition page_arg (arg : option string) : result Z :=
  match arg with
  | None => Ok 1
  | Some s => match parse_int s with
              | Some z => Ok z
              | None => Raise ValueError
              end
  end.

(** [max(ceil(total / page_size), 1)] with [page_size = 9]. *)
Definition total_pages_of (total : Z) : result Z :=
  result_bind (true_div total 9) (fun q =>
  result_bind (ceil q) (fun c => Ok (Z.max c 1))).

(** [supplier_catalog(supplier_id)]; [arg] is the query argument [page]. *)
Definition supplier_catalog (supplier_id : string) (arg : option string)
  : M reply :=
  let page_size := 9 in
  requested <-- lift (page_arg arg) ;;
  let page := Z.max requested 1 in
  loaded <-- load_products ;;
  let products :=
    filter (fun p => p_supplier_id p = supplier_id) loaded in
  let total := Z.of_nat (length products) in
  total_pages <-- lift (total_pages_of total) ;;
  let page := if total_pages <? page then total_pages else page in
  let start := (page - 1) * page_size in
  let stop := start + page_size in
  let page_products := py_slice products start stop in
  suppliers <-- load_suppliers ;;
  let supplier := find (fun s => String.eqb (sup_id s) supplier_id) suppliers in
  user <-- _get_current_user ;;
  ret (Show (SupplierPage supplier page_products page total_pages
                          supplier_id user)).

Definition login_page : M reply :=
  user <-- _get_current_user ;;
  match user with
  | Some _ => ret (Goto (url_for "catalog.index"))
  | None => ret (Show LoginPage)
  end.

(** [login_submit()]; [next] is the query argument [next]. *)
Definition login_submit (req : Request) (next : option string) : M reply :=
  let email := PyStr.py_strip (default EmptyString (r_form req !! "email")) in
  let password := default EmptyString (r_form req !! "password") in
  let leave :=
    Goto (match next with
          | Some n => if PyStr.truthy n then n else url_for "catalog.index"
          | None => url_for "catalog.index"
          end) in
  admin <-- load_admin ;;
  s <-- get_session ;;
  if bool_decide (admin !! "email" = Some email)
     && bool_decide (admin !! "password" = Some password) then
    put_session (mkSession (s_cart s) (Some email) (s_coupon_code s)
                           (s_shipping_value s)) ;;;
    flash "Bem-vindo(a), Administrador(a)!" ;;;
    ret leave
  else
    clients <-- load_clients ;;
    match find (fun c => String.eqb (c_email c) email
                         && String.eqb (c_password c) password) clients with
    | None =>
        flash "Credenciais inválidas." ;;;
        ret (Goto (url_for "catalog.login_page"))
    | Some client =>
        put_session (mkSession (s_cart s) (Some (c_email client))
                               (s_coupon_code s) (s_shipping_value s)) ;;;
        flash ("Bem-vindo(a), " +:+ c_name client +:+ "!") ;;;
        ret leave
    end.

Definition logout : M reply :=
  s <-- get_session ;;
  put_session (mkSession (s_cart s) None (s_coupon_code s)
                         (s_shipping_value s)) ;;;
  flash "Sessão encerrada." ;;;
  ret (Goto (url_for "catalog.index")).

Definition checkout_page : M reply :=
  user <-- _get_current_user ;;
  match user with
  | None =>
      ret (Goto (url_for_next "catalog.login_page" (url_for "catalog.checkout_page")))
  | Some user => ret (Show (CheckoutPage user))
  end.

Definition checkout_submit : M reply :=
  user <-- _get_current_user ;;
  match user with
  | None =>
      ret (Goto (url_for_next "catalog.login_page" (url_for "catalog.checkout_page")))
  | Some _ =>
      s <-- get_session ;;
      put_session (mkSession None (s_user_email s) (s_coupon_code s)
                             (s_shipping_value s)) ;;;
      flash "Pedido finalizado! Obrigado pela compra." ;;;
      ret (Goto (url_for "catalog.index"))
  end.

Definition account_page : M reply :=
  user <-- _get_current_user ;;
  match user with
  | None =>
      ret (Goto (url_for_next "catalog.login_page" (url_for "catalog.account_page")))
  | Some user => ret (Show (AccountPage user))
  end.

Definition clients_import_page : M reply :=
  msg <-- _require_admin ;;
  match msg with
  | Some msg => flash msg ;;; ret (Goto (url_for "catalog.index"))
  | None =>
      user <-- _get_current_user ;;
      ret (Show (ImportClientsPage user))
  end.

Definition suppliers_import_page : M reply :=
  msg <-- _require_admin ;;
  match msg with
  | Some msg => flash msg ;;; ret (Goto (url_for "catalog.index"))
  | None =>
      user <-- _get_current_user ;;
      ret (Show (ImportDataPage user "fornecedores" ".xlsx,.csv"
                   ["id"; "name"; "logo"]))
  end.

Definition products_import_page : M reply :=
  msg <-- _require_admin ;;
  match msg with
  | Some msg => flash msg ;;; ret (Goto (url_for "catalog.index"))
  | None =>
      user <-- _get_current_user ;;
      ret (Show (ImportDataPage user "produtos" ".xlsx,.csv"
                   ["id"; "supplier_id"; "name"; "price"; "promo_price"; "image"]))
  end.

End MoreRoutes.

(* ================================================================== *)
(** * Vocabulary of the further properties *)
(* ================================================================== *)

(** The cart holds at most one entry per product id. *)
Definition keys_unique (cart : pydict Z) : Prop := NoDup (map fst cart).

(** The sum of the quantities that a run of add requests contributes. *)
Definition added (qtys : list Z) : Z :=
  fold_right (fun q acc => Z.max q 1 + acc) 0 qtys.


(** The cart entries whose product id is in the product dictionary. *)
Definition resolved (products : gmap string Product) (cart : list (string * Z))
  : list (string * Z) :=
  filter (fun e => is_Some (products !! e.1)) cart.

(** [item] is the breakdown line of the cart entry [e]. *)
Definition item_of (products : gmap string Product) (e : string * Z)
    (item : CartItem) : Prop :=
  products !! e.1 = Some (i_product item) /\
  i_qty item = e.2 /\
  i_price item = unit_price (i_product item) /\
  times_qty (i_price item) (i_qty item) = Ok (i_line_total item).

(** A price value that [float(... or 0.0)] cannot convert: a non-empty text
    that is not a float literal, or an integer too large for a float. *)
Definition bad_price (c : cell) : Prop :=
  match c with
  | CStr s => PyStr.truthy s = true /\ parse_float s = None
  | CInt z => converts z = false
  | _ => False
  end.

(** The height at which a canvas operation draws, when it draws text. *)
Definition drawn_at (op : canvas_op) : option float :=
  match op with
  | DrawString _ y _ | DrawRightString _ y _ => Some y
  | _ => None
  end.

(** The operation does not draw below the bottom margin of 60. *)
Definition above_margin (op : canvas_op) : Prop :=
  match drawn_at op with
  | Some y => flt y (of_Z 60) = false
  | None => True
  end.

(** The text has no [.] in it. *)
Definition no_dot (s : string) : Prop := "."%char ∉ list_ascii_of_string s.


(** The import request carries a named file whose extension is [xlsx] or
    [csv] (the test of the import handlers before they parse). *)
Definition accepted `{Libraries} (req : Request) : bool :=
  match r_file req with
  | Some file =>
      PyStr.truthy (u_filename file)
      && (String.eqb (extension (secure_filename (u_filename file))) "xlsx"
          || String.eqb (extension (secure_filename (u_filename file))) "csv")
  | None => false
  end.

(** The three pages that offer an import. *)
Definition import_pages `{Libraries} : list (M reply) :=
  [clients_import_page; suppliers_import_page; products_import_page].


(** The session has no user: no e-mail, or an empty one. *)
Definition anonymous (w : World) : Prop :=
  match s_user_email (w_session w) with
  | Some e => PyStr.truthy e = false
  | None => True
  end.

Section UserVocabulary.
Context `{Libraries}.

(** The clients that [load_clients] returns in world [w]. *)
Definition stored_clients (w : World) : list Client :=
  match stored_table "clients" w with
  | None => []
  | Some df => map (client_of_row (df_columns df)) (df_rows df)
  end.

(** The pair is the e-mail and password of the administrator record, or of
    some stored client. *)
Definition credentials_match (w : World) (email password : string) : Prop :=
  (admin_of w !! "email" = Some email /\ admin_of w !! "password" = Some password) \/
  exists c, c ∈ stored_clients w /\ c_email c = email /\ c_password c = password.

(** The session names a user that [_get_current_user] finds: a non-empty
    e-mail that is the administrator's or a stored client's. *)
Definition signed_in (w : World) : Prop :=
  exists e,
    s_user_email (w_session w) = Some e /\ PyStr.truthy e = true /\
    (admin_of w !! "email" = Some e \/ exists c, c ∈ stored_clients w /\ c_email c = e).

End UserVocabulary.

(** The e-mail and the password that [login_submit] compares. *)
Definition login_email (req : Request) : string :=
  PyStr.py_strip (default EmptyString (r_form req !! "email")).
Definition login_password (req : Request) : string :=
  default EmptyString (r_form req !! "password").

(** Where a successful login goes: the [next] argument when it is given and
    not empty, else the index. *)
Definition login_target (next : option string) : string :=
  match next with
  | Some n => if PyStr.truthy n then n else "catalog.index"
  | None => "catalog.index"
  end.

(** A clients table in which a client has the e-mail of the default
    administrator and a password of their own, and a world that stores it. *)
Definition clients_table : DataFrame :=
  mkDF ["id"; "name"; "email"; "password"]
       [[CStr "c1"; CStr "Cliente Demo"; CStr "demo@teste.com"; CStr "123456"];
        [CStr "c2"; CStr "Outro"; CStr "swinck@gmail.com"; CStr "segredo"]].

Definition clients_csv_world : World :=
  mkWorld {[ "data/clients.csv" := [Byte.x02] ]} None
          (mkSession (Some [("A1", 2)]) None (Some "DESCONTO10") None) [] [] 0.

Definition login_request (email password : string) : Request :=
  mkRequest (<["password" := password]> {[ "email" := email ]}) None None.


(** [if value: data[key] = value] *)
Definition updated (key : string) (value : option string)
    (data : gmap string string) : gmap string string :=
  match value with
  | Some v => if PyStr.truthy v then <[key := v]> data else data
  | None => data
  end.

(** The world [w] with the user e-mail of its session set to [e]. *)
Definition with_user (e : string) (w : World) : World :=
  mkWorld (w_files w) (w_admin w)
          (mkSession (s_cart (w_session w)) (Some e)
                     (s_coupon_code (w_session w))
                     (s_shipping_value (w_session w)))
          (w_flashes w) (w_trace w) (w_clock w).


(** The products of a supplier among the loaded ones, in their order. *)
Definition products_of (supplier_id : string) (loaded : list Product)
  : list Product :=
  filter (fun p => p_supplier_id p = supplier_id) loaded.

(** The page that is shown when [requested] is asked for and there are
    [total_pages] pages. *)
Definition shown_page (requested total_pages : Z) : Z :=
  Z.min (Z.max requested 1) total_pages.

(** The number of pages that the code computes with a float division is
    the exact one, [ceil(total / 9)] and at least 1. *)
Definition pages_exact (total : Z) : bool :=
  match total_pages_of total with
  | Ok pages => pages =? Z.max ((total + 8) / 9) 1
  | Raise _ => false
  end.

(** [pages_exact] holds for the [count] totals from [total] on. *)
Fixpoint pages_exact_from (count : nat) (total : Z) : bool :=
  match count with
  | O => true
  | S count' => pages_exact total && pages_exact_from count' (total + 1)
  end.

(* ***************************** Properties ***************************** *)

(** [int] and [float] do not skip the separators that [str.strip] removes,
    and [int] refuses a literal of more than 4300 digits. *)
Example number_text_limits :
  let separated :=
    String (ascii_of_N 31) (String "5" (String (ascii_of_N 28) EmptyString)) in
  PyStr.py_strip separated = "5" /\
  parse_int separated = None /\
  parse_float separated = None /\
  parse_int (String (ascii_of_N 11) (String "5" (String (ascii_of_N 9) EmptyString)))
    = Some 5 /\
  parse_int (string_of_list_ascii (repeat "1"%char 4301%nat)) = None.
Proof. vm_compute. repeat split. Qed.

(** A literal of at most 4300 digits is within the limit of [int]. *)
Lemma parse_int_digits (ds : list ascii) :
  ds <> [] ->
  Forall (fun d => PyStr.is_digit d = true) ds ->
  (length ds <= PyNum.max_str_digits)%nat ->
  parse_int (string_of_list_ascii ds) = Some (Z.of_N (PyStr.digits_val ds)).
Proof.
  intros Hne Hds Hlen. unfold parse_int.
  rewrite list_ascii_of_string_of_list_ascii.
  assert (Hstrip : PyStr.c_strip_chars ds = ds).
  { assert (Hl : forall l, Forall (fun d => PyStr.is_digit d = true) l ->
                           PyStr.c_lstrip l = l).
    { intros [|a l] Hal; [reflexivity|]. simpl.
      apply Forall_cons in Hal as [Ha _].
      replace (PyStr.is_c_space a) with false; [reflexivity|].
      unfold PyStr.is_digit, PyStr.is_c_space in *.
      destruct (N.leb_spec 48 (PyStr.code a)); [|discriminate].
      symmetry. apply orb_false_iff. split.
      - apply andb_false_iff. right. apply N.leb_gt. lia.
      - apply N.eqb_neq. lia. }
    unfold PyStr.c_strip_chars. rewrite (Hl ds Hds).
    rewrite Hl by (by apply Forall_rev). apply rev_involutive. }
  rewrite Hstrip.
  assert (Hdrop : forall l prev,
            Forall (fun d => PyStr.is_digit d = true) l ->
            (l = [] -> prev <> Some "_"%char) ->
            PyStr.drop_underscores prev l = Some l).
  { induction l as [|c l IH]; intros prev Hl Hprev; simpl.
    - destruct prev as [p|]; [|reflexivity].
      destruct (Ascii.eqb_spec p "_"); [|by destruct p as [[] [] [] [] [] [] [] []]].
      subst. by destruct (Hprev eq_refl).
    - apply Forall_cons in Hl as [Hc Hl].
      destruct (Ascii.eqb_spec c "_") as [->|Hne']; [discriminate|].
      assert (Hrest : PyStr.drop_underscores (Some c) l = Some l).
      { apply IH; [exact Hl|]. intros _ [= ->]. by apply Hne'. }
      rewrite Hrest, Hc. simpl.
      destruct prev as [p|]; [|reflexivity].
      by destruct p as [[] [] [] [] [] [] [] []]. }
  rewrite Hdrop; [|exact Hds|intros; discriminate]. simpl.
  assert (Hsign : PyStr.take_sign ds = (false, ds)).
  { destruct ds as [|d ds']; [reflexivity|].
    apply Forall_cons in Hds as [Hd _].
    by destruct d as [[] [] [] [] [] [] [] []]. }
  rewrite Hsign.
  assert (Hspan : forall l, Forall (fun d => PyStr.is_digit d = true) l ->
                            PyStr.span_digits l = (l, [])).
  { induction l as [|c l IH]; intros Hl; simpl; [reflexivity|].
    apply Forall_cons in Hl as [Hc Hl]. by rewrite Hc, (IH Hl). }
  rewrite (Hspan ds Hds).
  destruct ds as [|d ds']; [by destruct Hne|].
  destruct (Nat.ltb_spec PyNum.max_str_digits (length (d :: ds'))); [lia|].
  reflexivity.
Qed.

(* ================================================================== *)
(** * The primitives on examples *)
(* ================================================================== *)

Example parse_float_examples :
  parse_float "0.1" = Some rate_10 /\
  parse_float " 1_0.5e1 " = Some (of_Z 105) /\
  parse_float "-Infinity" = Some (S754_infinity true) /\
  parse_float "NaN" = Some S754_nan /\
  parse_float "1e400" = Some (S754_infinity false) /\
  parse_float "-0" = Some (S754_zero true) /\
  parse_float "abc" = None /\
  parse_float "1e" = None /\
  parse_float "." = None /\
  parse_float "1__0" = None /\
  parse_float EmptyString = None.
Proof. vm_compute. repeat split. Qed.

Example parse_int_examples :
  parse_int " -1_0 " = Some (-10) /\
  parse_int "+007" = Some 7 /\
  parse_int "1.0" = None /\
  parse_int EmptyString = None /\
  parse_int "abc" = None.
Proof. vm_compute. repeat split. Qed.

(** [round(2.675, 2) == 2.67] and [round(0.125, 2) == 0.12]: the rounding
    is on the binary value, ties to even. *)
Example round2_examples :
  round2 <$> parse_float "2.675" = parse_float "2.67" /\
  round2 <$> parse_float "0.125" = parse_float "0.12" /\
  round2 <$> parse_float "0.375" = parse_float "0.38" /\
  round2 <$> parse_float "-0.001" = Some (S754_zero true) /\
  round2 S754_nan = S754_nan.
Proof. vm_compute. repeat split. Qed.

Example format_2f_examples :
  format_2f <$> parse_float "1234.5" = Some "1234.50" /\
  format_2f <$> parse_float "2.675" = Some "2.67" /\
  format_2f <$> parse_float "-0.001" = Some "-0.00" /\
  format_2f S754_nan = "nan".
Proof. vm_compute. repeat split. Qed.

(** The largest integer that converts to a float, and the first that does
    not. *)
Example float_of_int_limit :
  converts (2 ^ 1024 - 2 ^ 970 - 1) = true /\
  float_of_int (2 ^ 1024 - 2 ^ 970) = Raise OverflowError /\
  float_of_int (- 10 ^ 400) = Raise OverflowError.
Proof. vm_compute. repeat split. Qed.


(* ================================================================== *)
(** * Properties of the pricing computation *)
(* ================================================================== *)

Lemma py_max_zero_not_below (x : float) : flt (py_max x fzero) fzero = false.
Proof.
  unfold py_max. destruct (flt x fzero) eqn:E; [reflexivity | exact E].
Qed.

Lemma times_qty_converts (price : float) (q : Z) :
  converts q = true -> exists lt, times_qty price q = Ok lt.
Proof.
  unfold converts, times_qty. destruct (float_of_int q); [|discriminate].
  intros _. eexists. reflexivity.
Qed.

Lemma view_cart_loop_completes products cart :
  quantities_convert products cart ->
  forall items total, exists r, view_cart_loop products cart items total = Ok r.
Proof.
  induction 1 as [|[pid q] cart Hq _ IH]; intros items total; simpl.
  - eexists; reflexivity.
  - destruct (products !! pid) as [p|] eqn:Hp; [|apply IH].
    destruct (times_qty_converts (unit_price p) q) as [lt Hlt].
    { apply Hq. simpl. rewrite Hp. eauto. }
    rewrite Hlt. simpl. apply IH.
Qed.

(** C1 (as amended). For every cart, catalog, coupon code and shipping value
    such that the quantity of every cart entry that resolves to a product
    converts to a float, the pricing computation yields
    discount value = round(subtotal * rate, 2) and
    grand total = max(subtotal - discount value + shipping value, 0), and
    the grand total is not below zero. *)
Theorem pricing_totals (cart : pydict Z) (loaded : list Product)
    (coupon_code : option string) (shipping : option float) :
  quantities_convert (products_by_id loaded) cart ->
  pricing_yields cart loaded coupon_code shipping.
Proof.
  intros Hq. unfold pricing_yields, pricing.
  destruct (view_cart_loop_completes _ _ Hq [] fzero) as [[items total] Hr].
  rewrite Hr. simpl. eexists. split; [reflexivity|]. simpl.
  repeat split. apply py_max_zero_not_below.
Qed.

Lemma pricing_totals_witness :
  quantities_convert (products_by_id one_product) [("P1", 3); ("P9", 10 ^ 400)] /\
  pricing_yields [("P1", 3); ("P9", 10 ^ 400)] one_product (Some "DESCONTO10") None.
Proof.
  assert (H : quantities_convert (products_by_id one_product)
                [("P1", 3); ("P9", 10 ^ 400)]).
  { repeat constructor; simpl; intros [p Hp]; vm_compute in Hp; try discriminate;
      vm_compute; reflexivity. }
  split; [exact H | exact (pricing_totals _ _ _ _ H)].
Defined.

(** C1 (as stated) fails: a cart that holds product [P1] with quantity
    [10^400] makes [price * qty] raise [OverflowError], so no totals are
    produced. *)
Lemma pricing_overflow :
  ~ pricing_yields [("P1", 10 ^ 400)] one_product None None.
Proof.
  intros [t [Ht _]]. vm_compute in Ht. discriminate.
Qed.

(** The scenario of the specification: product [P1] priced 10.00 with promo
    9.00, three of them in the cart, coupon [DESCONTO10], shipping 5.00:
    subtotal 27.00, discount 2.70, grand total 29.30. *)
Example pricing_scenario :
  let f s := default fzero (parse_float s) in
  match pricing [("P1", 3)]
          [mkProduct "P1" "forn1" "Produto P1" (f "10.00") (Some (f "9.00")) None]
          (Some "DESCONTO10") (Some (f "5.00")) with
  | Ok t => (t_total_value t, t_discount_value t, t_grand_total t)
            = (f "27.00", f "2.70", f "29.30")
  | Raise _ => False
  end.
Proof. vm_compute. reflexivity. Qed.

(* ================================================================== *)
(** * Reading the store *)
(* ================================================================== *)

Lemma logged_nil (w : World) : logged [] w = w.
Proof. destruct w. unfold logged. simpl. by rewrite app_nil_r. Qed.

Lemma logged_logged (a b : list io_event) (w : World) :
  logged b (logged a w) = logged (a ++ b) w.
Proof. unfold logged. simpl. by rewrite app_assoc. Qed.

Section ReadTabular.
Context `{Libraries}.

Lemma try_read_eq (path : string) (reader : bytes -> option DataFrame) (w : World) :
  try_read path reader w =
    (Ok (readable w path reader),
     logged (match w_files w !! path with Some _ => [EvRead path] | None => [] end) w).
Proof.
  unfold try_read, readable, bind, get_world.
  destruct (w_files w !! path); simpl.
  - reflexivity.
  - by rewrite logged_nil.
Qed.

Lemma read_tabular_eq (name : string) (w : World) :
  _read_tabular name w = (Ok (stored_table name w), logged (read_attempts name w) w).
Proof.
  unfold _read_tabular, bind. rewrite try_read_eq.
  unfold stored_table, read_attempts, csv_attempt, readable.
  destruct (w_files w !! data_file name ".xlsx") as [b|] eqn:Hx; simpl.
  - destruct (read_excel b) as [df|]; simpl; [reflexivity|].
    rewrite try_read_eq. unfold readable. simpl.
    rewrite logged_logged.
    destruct (w_files w !! data_file name ".csv") as [b'|]; simpl;
      [destruct (read_csv b')|]; reflexivity.
  - rewrite try_read_eq. unfold readable. simpl. rewrite logged_logged. simpl.
    destruct (w_files w !! data_file name ".csv") as [b'|]; simpl;
      [destruct (read_csv b')|]; reflexivity.
Qed.

Lemma load_products_eq (w : World) :
  load_products w =
    (match stored_table "products" w with
     | None => Ok []
     | Some df => result_map (product_of_row (df_columns df)) (df_rows df)
     end,
     logged (read_attempts "products" w) w).
Proof.
  unfold load_products, bind. rewrite read_tabular_eq.
  destruct (stored_table "products" w); reflexivity.
Qed.

Lemma load_clients_eq (w : World) :
  load_clients w =
    (Ok (match stored_table "clients" w with
         | None => []
         | Some df => map (client_of_row (df_columns df)) (df_rows df)
         end),
     logged (read_attempts "clients" w) w).
Proof.
  unfold load_clients, bind. rewrite read_tabular_eq.
  destruct (stored_table "clients" w); reflexivity.
Qed.

End ReadTabular.

(** C6. Reading an entity tries the spreadsheet first and falls back to the
    delimited text of the same base name when the spreadsheet is missing or
    unreadable; when neither gives a table the result is "no data", and the
    product list is then empty, with no exception. With no store file at
    all, [load_products] returns the empty list and leaves the world as it
    was. *)
Theorem read_tabular_fallback `{Libraries} (name : string) (w : World) :
  _read_tabular name w =
    (Ok (match readable w (data_file name ".xlsx") read_excel with
         | Some df => Some df
         | None => readable w (data_file name ".csv") read_csv
         end),
     logged (read_attempts name w) w) /\
  fst (load_products w) =
    match readable w "data/products.xlsx" read_excel,
          readable w "data/products.csv" read_csv with
    | Some df, _ | None, Some df =>
        result_map (product_of_row (df_columns df)) (df_rows df)
    | None, None => Ok []
    end /\
  (forall admin session flashes trace clock,
     load_products (mkWorld ∅ admin session flashes trace clock)
     = (Ok [], mkWorld ∅ admin session flashes trace clock)).
Proof.
  split; [apply read_tabular_eq|]. split.
  - rewrite load_products_eq. unfold stored_table. simpl.
    change (data_file "products" ".xlsx") with "data/products.xlsx".
    change (data_file "products" ".csv") with "data/products.csv".
    destruct (readable w "data/products.xlsx" read_excel);
      destruct (readable w "data/products.csv" read_csv); reflexivity.
  - intros. rewrite load_products_eq.
    unfold stored_table, read_attempts, csv_attempt, readable. simpl.
    rewrite !lookup_empty. simpl. apply f_equal. apply logged_nil.
Qed.

(* ================================================================== *)
(** * Coercion of the fields of a product row *)
(* ================================================================== *)

Lemma result_map_raise {A B} (f : A -> result B) (l : list A) (x : A) (e : exn) :
  x ∈ l -> f x = Raise e -> exists e', result_map f l = Raise e'.
Proof.
  induction 1 as [x l|x y l _ IH]; intros Hx; simpl.
  - rewrite Hx. simpl. eauto.
  - destruct (f y); simpl; [|eauto].
    destruct (IH Hx) as [e' ->]. simpl. eauto.
Qed.

(** A promo price that is missing or does not convert becomes absent, and
    [_safe_float] never raises. *)
Lemma safe_float_absent (v : cell) :
  (isna v = true \/ exists e, float_of_cell v = Raise e) -> _safe_float v = None.
Proof.
  unfold _safe_float. intros [-> | [e He]]; [reflexivity|].
  rewrite He. by destruct (isna v).
Qed.

(** A row whose price is the missing-value marker of pandas (NaN) gets the
    price NaN, not 0.0: NaN is true for [or]. *)
Lemma product_of_row_nan_price `{Libraries} (cols : list string) (row : list cell) :
  row_get cols row "price" = CFloat S754_nan ->
  exists p, product_of_row cols row = Ok p /\ p_price p = S754_nan.
Proof.
  intros Hp. unfold product_of_row. rewrite Hp. simpl. eauto.
Qed.

(** A row without a [price] column gets the price 0.0. *)
Lemma product_of_row_no_price `{Libraries} (cols : list string) (row : list cell) :
  row_get cols row "price" = CNone ->
  exists p, product_of_row cols row = Ok p /\ p_price p = fzero.
Proof.
  intros Hp. unfold product_of_row. rewrite Hp. simpl. eauto.
Qed.

(** C2 (the code at a failing input). When some row of the products table
    has as its price a non-empty text that is not a number, [load_products]
    raises: the row is not given the price 0.0 and the remaining rows are
    not loaded. *)
Theorem load_products_bad_price `{Libraries} (w : World) (df : DataFrame)
    (row : list cell) (s : string) :
  stored_table "products" w = Some df ->
  row ∈ df_rows df ->
  row_get (df_columns df) row "price" = CStr s ->
  PyStr.truthy s = true ->
  parse_float s = None ->
  exists e, fst (load_products w) = Raise e.
Proof.
  intros Hdf Hrow Hprice Hs Hparse.
  rewrite load_products_eq, Hdf. simpl.
  apply (result_map_raise _ _ row ValueError); [exact Hrow|].
  unfold product_of_row. rewrite Hprice. unfold cell_or. simpl.
  rewrite Hs. simpl. by rewrite Hparse.
Qed.

Lemma load_products_bad_price_witness :
  exists e,
    fst (@load_products (table_libraries bad_price_table) products_csv_world)
    = Raise e.
Proof.
  apply (@load_products_bad_price (table_libraries bad_price_table)
           products_csv_world bad_price_table
           [CStr "A2"; CStr "forn1"; CStr "Produto A2"; CStr "abc"; CNone; CNone]
           "abc").
  - vm_compute. reflexivity.
  - vm_compute. apply list_elem_of_further, list_elem_of_here.
  - vm_compute. reflexivity.
  - reflexivity.
  - vm_compute. reflexivity.
Defined.

(* ================================================================== *)
(** * Shipping *)
(* ================================================================== *)

(** The value that [set_shipping] stores is never below zero. *)
Lemma shipping_of_form_not_below (req : Request) :
  flt (shipping_of_form req) fzero = false.
Proof.
  unfold shipping_of_form.
  destruct (r_form req !! "shipping") as [s|]; [|reflexivity].
  destruct (PyStr.truthy s); [|reflexivity].
  destruct (parse_float s) as [v|]; [|reflexivity].
  destruct (flt v fzero) eqn:E; [reflexivity | exact E].
Qed.

(** A submitted value below zero and a submitted text that is not a number
    are both stored as 0.0. *)
Lemma shipping_of_form_clamped (req : Request) (s : string) :
  r_form req !! "shipping" = Some s ->
  match parse_float s with
  | Some v => flt v fzero = true
  | None => True
  end ->
  shipping_of_form req = fzero.
Proof.
  intros Hs Hv. unfold shipping_of_form. rewrite Hs.
  destruct (PyStr.truthy s); [|reflexivity].
  destruct (parse_float s) as [v|]; [|reflexivity]. by rewrite Hv.
Qed.

(** C9 (the code at a failing input). The submitted text [nan] is a valid
    float literal and NaN is not below zero, so [set_shipping] stores NaN:
    the stored value is not a number that is at least zero, and the grand
    total computed from it is NaN. *)
Theorem set_shipping_stores_nan (w : World) :
  exists w',
    set_shipping (form_request "shipping" "nan") w
      = (Ok (Redirect "catalog.view_cart"), w') /\
    s_shipping_value (w_session w') = Some S754_nan /\
    fle fzero S754_nan = false /\
    t_grand_total <$> (match pricing [] [] None (s_shipping_value (w_session w')) with
                       | Ok t => Some t
                       | Raise _ => None
                       end) = Some S754_nan.
Proof.
  eexists. split; [reflexivity|]. simpl. split; [|split]; vm_compute; reflexivity.
Qed.

(* ================================================================== *)
(** * What a computation leaves unchanged *)
(* ================================================================== *)

Section Frame.
Variable R : World -> World -> Prop.
Context `{!PreOrder R}.

Lemma respects_ret {A} (a : A) : respects R (ret a).
Proof. intros w. simpl. reflexivity. Qed.

Lemma respects_lift {A} (r : result A) : respects R (lift r).
Proof. intros w. simpl. reflexivity. Qed.

Lemma respects_get_world : respects R get_world.
Proof. intros w. simpl. reflexivity. Qed.

Lemma respects_get_session : respects R get_session.
Proof. intros w. simpl. reflexivity. Qed.

Lemma respects_bind {A B} (m : M A) (k : A -> M B) :
  respects R m -> (forall a, respects R (k a)) -> respects R (bind m k).
Proof.
  intros Hm Hk w. unfold bind. specialize (Hm w).
  destruct (m w) as [[a|e] w1]; simpl in *; [|exact Hm].
  etransitivity; [exact Hm | apply Hk].
Qed.

Lemma respects_catch {A} (m : M A) (handler : exn -> M A) :
  respects R m -> (forall e, respects R (handler e)) ->
  respects R (catch m handler).
Proof.
  intros Hm Hh w. unfold catch. specialize (Hm w).
  destruct (m w) as [[a|e] w1]; simpl in *; [exact Hm|].
  etransitivity; [exact Hm | apply Hh].
Qed.

End Frame.

#[local] Instance same_session_preorder : PreOrder same_session.
Proof.
  split; [intros w; reflexivity|].
  intros a b c Hab Hbc. unfold same_session in *. congruence.
Qed.

#[local] Instance reads_only_preorder : PreOrder reads_only.
Proof.
  split.
  - intros w. repeat split. exists []. by rewrite app_nil_r.
  - intros a b c (F1 & S1 & L1 & A1 & e1 & T1 & Q1) (F2 & S2 & L2 & A2 & e2 & T2 & Q2).
    repeat split; try congruence.
    exists (e1 ++ e2)%list. split; [|by apply Forall_app].
    rewrite T2, T1. by rewrite app_assoc.
Qed.

(** Destructs the scrutinee of the computation in the goal. *)
Ltac frame_case :=
  match goal with
  | |- respects _ (match ?x with _ => _ end) => destruct x
  end.

Ltac frame_with base :=
  repeat first
    [ solve [apply respects_ret; apply _] | solve [apply respects_lift; apply _]
    | solve [apply respects_get_world; apply _]
    | solve [apply respects_get_session; apply _]
    | base
    | apply respects_bind; try apply _; [|intros ?]
    | apply respects_catch; try apply _; [|intros ?]
    | frame_case ].

Lemma same_session_log e : respects same_session (log e).
Proof. intros w. reflexivity. Qed.

Lemma same_session_flash msg : respects same_session (flash msg).
Proof. intros w. reflexivity. Qed.

Lemma same_session_write_file path content :
  respects same_session (write_file path content).
Proof. intros w. reflexivity. Qed.

Lemma same_session_write_admin doc : respects same_session (write_admin doc).
Proof. intros w. reflexivity. Qed.

Lemma same_session_now : respects same_session now.
Proof. intros w. reflexivity. Qed.

Ltac same_session_base :=
  first [ apply same_session_log | apply same_session_flash
        | apply same_session_write_file | apply same_session_write_admin
        | apply same_session_now ].

Section SameSession.
Context `{Libraries}.

Lemma same_session_load_products : respects same_session load_products.
Proof.
  unfold load_products, _read_tabular, try_read.
  frame_with same_session_base.
Qed.

Lemma same_session_current_user : respects same_session _get_current_user.
Proof.
  unfold _get_current_user, load_admin, _ensure_admin_file, load_clients,
    _read_tabular, try_read.
  frame_with same_session_base.
Qed.

Lemma same_session_require_admin : respects same_session _require_admin.
Proof.
  unfold _require_admin, _is_admin_email, load_admin, _ensure_admin_file.
  frame_with ltac:(first [apply same_session_current_user | same_session_base]).
Qed.

Lemma same_session_import save page success req :
  (forall df, respects same_session (save df)) ->
  respects same_session (import_submit save page success req).
Proof.
  intros Hsave. unfold import_submit, store_upload.
  frame_with ltac:(first [apply same_session_require_admin | apply Hsave
                         | same_session_base]).
Qed.

Lemma same_session_view_cart : respects same_session view_cart.
Proof.
  unfold view_cart, _get_cart.
  frame_with ltac:(first [apply same_session_load_products
                         | apply same_session_current_user | same_session_base]).
Qed.

Lemma same_session_exports :
  respects same_session export_cart_xlsx /\
  respects same_session export_cart_pdf /\
  respects same_session export_cart_csv.
Proof.
  unfold export_cart_xlsx, export_cart_pdf, export_cart_csv, _get_cart.
  repeat split;
    frame_with ltac:(first [apply same_session_load_products | same_session_base]).
Qed.

(** The session after a request is [session_after] of the session before. *)
Lemma step_session (a : action) (w : World) :
  w_session (step a w) = session_after a (w_session w).
Proof.
  unfold step. destruct a; simpl.
  - unfold cart_add, _get_cart, _save_cart, bind, get_session, lift. simpl.
    destruct (form_qty req); reflexivity.
  - unfold cart_remove, _get_cart, _save_cart, bind, get_session. simpl.
    destruct (PyDict.contains _ _); reflexivity.
  - apply same_session_view_cart.
  - apply same_session_exports.
  - apply same_session_exports.
  - apply same_session_exports.
  - unfold apply_coupon, submitted_code, bind, get_session. simpl.
    destruct (bool_decide _); reflexivity.
  - reflexivity.
  - apply same_session_import. intros df.
    unfold _save_clients_dataframe, write_excel, write_csv.
    frame_with same_session_base.
  - apply same_session_import. intros df.
    unfold _save_suppliers_dataframe, write_excel, write_csv.
    frame_with same_session_base.
  - apply same_session_import. intros df.
    unfold _save_products_dataframe, write_excel, write_csv.
    frame_with same_session_base.
Qed.

End SameSession.

(* ================================================================== *)
(** * The cart *)
(* ================================================================== *)

Section DictFacts.
Context {V : Type}.
Implicit Types (d : pydict V) (k : string) (v : V).

Lemma get_set_eq k v d : PyDict.get k (PyDict.set k v d) = Some v.
Proof.
  induction d as [|[k' v'] d IH]; simpl.
  - by rewrite String.eqb_refl.
  - destruct (String.eqb k k') eqn:E; simpl; rewrite ?String.eqb_refl, ?E; auto.
Qed.

Lemma get_set_ne k k' v d :
  k <> k' -> PyDict.get k' (PyDict.set k v d) = PyDict.get k' d.
Proof.
  intros Hne. induction d as [|[k0 v0] d IH]; simpl.
  - destruct (String.eqb_spec k' k); congruence.
  - destruct (String.eqb_spec k k0) as [->|Hk]; simpl.
    + destruct (String.eqb_spec k' k0); congruence.
    + destruct (String.eqb_spec k' k0); auto.
Qed.

Lemma Forall_set (P : string * V -> Prop) k v d :
  P (k, v) -> Forall P d -> Forall P (PyDict.set k v d).
Proof.
  intros Hv. induction 1 as [|[k' v'] d Hx Hd IH]; simpl.
  - by constructor.
  - destruct (String.eqb k k'); constructor; auto.
Qed.

Lemma Forall_pop (P : string * V -> Prop) k d :
  Forall P d -> Forall P (PyDict.pop k d).
Proof.
  induction 1 as [|[k' v'] d Hx Hd IH]; simpl; [constructor|].
  destruct (String.eqb k k'); [assumption | by constructor].
Qed.

Lemma Forall_get (P : string * V -> Prop) k v d :
  Forall P d -> PyDict.get k d = Some v -> P (k, v).
Proof.
  induction 1 as [|[k' v'] d Hx Hd IH]; simpl; [discriminate|].
  destruct (String.eqb_spec k k') as [->|]; [|assumption].
  intros [= ->]. exact Hx.
Qed.

End DictFacts.

Lemma session_after_cart_positive (a : action) (s : Session) :
  quantities_positive (default [] (s_cart s)) ->
  quantities_positive (default [] (s_cart (session_after a s))).
Proof.
  intros Hpos. destruct a; simpl; try assumption.
  - destruct (form_qty req) as [qty|]; simpl; [|assumption].
    apply Forall_set; [|assumption]. simpl.
    destruct (PyDict.get product_id (default [] (s_cart s))) as [old|] eqn:Hold; simpl.
    + apply (Forall_get _ _ _ _ Hpos) in Hold. simpl in Hold. lia.
    + lia.
  - destruct (PyDict.contains _ _); simpl; [|assumption].
    by apply Forall_pop.
Qed.

Lemma run_cart_positive `{Libraries} (actions : list action) (w : World) :
  quantities_positive (cart_of w) -> quantities_positive (cart_of (run actions w)).
Proof.
  revert w. induction actions as [|a actions IH]; intros w Hw; [exact Hw|].
  simpl. apply IH. unfold cart_of. rewrite step_session.
  by apply session_after_cart_positive.
Qed.

(** C8. Starting from an empty cart, after every sequence of requests every
    quantity in the cart is a positive integer. A successful add stores, for
    its product id, the previous quantity (0 when absent) plus [max(qty, 1)]
    and leaves the other ids as they were; removing an id that is not in the
    cart answers without error and changes nothing. *)
Theorem cart_quantities_positive `{Libraries} (actions : list action) (w : World) :
  cart_of w = [] ->
  quantities_positive (cart_of (run actions w)) /\
  (forall product_id req w0 qty,
     form_qty req = Ok qty ->
     exists w1,
       cart_add product_id req w0
         = (Ok (Redirect (referer_or req "catalog.index")), w1) /\
       PyDict.get product_id (cart_of w1)
         = Some (default 0 (PyDict.get product_id (cart_of w0)) + Z.max qty 1) /\
       1 <= Z.max qty 1 /\
       forall other, product_id <> other ->
         PyDict.get other (cart_of w1) = PyDict.get other (cart_of w0)) /\
  (forall product_id req w0,
     PyDict.get product_id (cart_of w0) = None ->
     cart_remove product_id req w0
       = (Ok (Redirect (referer_or req "catalog.view_cart")), w0)).
Proof.
  intros Hempty. split; [|split].
  - apply run_cart_positive. rewrite Hempty. constructor.
  - intros pid req w0 qty Hq.
    unfold cart_add, _get_cart, _save_cart, bind, get_session, lift. simpl.
    rewrite Hq. simpl. eexists. split; [reflexivity|]. unfold cart_of. simpl.
    split; [apply get_set_eq|]. split; [lia|].
    intros other Hne. by apply get_set_ne.
  - intros pid req w0 Hget.
    unfold cart_remove, _get_cart, bind, get_session, PyDict.contains. simpl.
    unfold cart_of in Hget. rewrite Hget. reflexivity.
Qed.

Lemma cart_quantities_positive_witness :
  quantities_positive
    (cart_of (@run (table_libraries bad_price_table)
                [ACartAdd "A1" (form_request "qty" "-3");
                 ACartAdd "A1" (form_request "qty" "2");
                 ACartRemove "B7" (form_request "qty" "1")]
                empty_world)).
Proof.
  apply (@cart_quantities_positive (table_libraries bad_price_table)).
  reflexivity.
Defined.

(* ================================================================== *)
(** * Coupons *)
(* ================================================================== *)

Lemma allowed_spec (code : string) :
  code ∈ allowed <-> code = "DESCONTO10" \/ code = "DESCONTO5".
Proof. unfold allowed. set_solver. Qed.

Lemma discount_rate_of_eq (code : option string) :
  discount_rate_of code =
    if bool_decide (code = Some "DESCONTO10") then rate_10
    else if bool_decide (code = Some "DESCONTO5") then rate_5
    else fzero.
Proof.
  destruct code as [c|]; [|reflexivity]. simpl. unfold coupon_discounts.
  destruct (decide (c = "DESCONTO10")) as [->|H10]; [reflexivity|].
  rewrite (bool_decide_eq_false_2 (Some c = Some "DESCONTO10")) by congruence.
  destruct (decide (c = "DESCONTO5")) as [->|H5]; [reflexivity|].
  rewrite (bool_decide_eq_false_2 (Some c = Some "DESCONTO5")) by congruence.
  rewrite !lookup_insert_ne by congruence. by rewrite lookup_empty.
Qed.

Lemma pricing_rate cart loaded code shipping t :
  pricing cart loaded code shipping = Ok t ->
  t_discount_rate t = discount_rate_of code.
Proof.
  unfold pricing. destruct (view_cart_loop _ _ _ _) as [[items total]|]; simpl;
    [|discriminate].
  intros [= <-]. reflexivity.
Qed.

Lemma apply_coupon_eq (req : Request) (w : World) :
  exists w',
    apply_coupon req w = (Ok (Redirect "catalog.view_cart"), w') /\
    w_session w' = session_after (AApplyCoupon req) (w_session w).
Proof.
  unfold apply_coupon, bind, get_session. simpl. fold (submitted_code req).
  destruct (bool_decide (submitted_code req ∈ allowed)); eexists; split; reflexivity.
Qed.

(** C3. The discount rate that the pricing computation uses is the float
    0.10 for the stored code [DESCONTO10], the float 0.05 for [DESCONTO5] and
    0.0 for any other or no code; applying a code that is not recognized
    answers normally and leaves no coupon in the session. *)
Theorem coupon_rates (cart : pydict Z) (loaded : list Product)
    (code : option string) (shipping : option float) (t : Totals) :
  pricing cart loaded code shipping = Ok t ->
  t_discount_rate t =
    (if bool_decide (code = Some "DESCONTO10") then rate_10
     else if bool_decide (code = Some "DESCONTO5") then rate_5
     else fzero) /\
  parse_float "0.10" = Some rate_10 /\
  parse_float "0.05" = Some rate_5 /\
  parse_float "0.0" = Some fzero /\
  forall req w,
    submitted_code req ∉ allowed ->
    exists w',
      apply_coupon req w = (Ok (Redirect "catalog.view_cart"), w') /\
      s_coupon_code (w_session w') = None.
Proof.
  intros Ht. split; [|split; [|split; [|split]]]; try (vm_compute; reflexivity).
  - rewrite (pricing_rate _ _ _ _ _ Ht). apply discount_rate_of_eq.
  - intros req w Hcode. destruct (apply_coupon_eq req w) as (w' & Heq & Hs).
    exists w'. split; [exact Heq|]. rewrite Hs. simpl.
    by rewrite bool_decide_eq_false_2.
Qed.

Lemma coupon_rates_witness :
  exists t,
    pricing [("P1", 3)] one_product (Some "DESCONTO5") None = Ok t /\
    t_discount_rate t = rate_5.
Proof.
  destruct (pricing [("P1", 3)] one_product (Some "DESCONTO5") None) as [t|e] eqn:E.
  - exists t. split; [reflexivity|].
    exact (proj1 (coupon_rates _ _ _ _ t E)).
  - vm_compute in E. discriminate.
Defined.

Lemma upper_lower_char (a : ascii) :
  PyStr.upper_char (PyStr.lower_char a) = PyStr.upper_char a.
Proof. destruct a as [[] [] [] [] [] [] [] []]; reflexivity. Qed.

Lemma py_upper_lower (s : string) :
  PyStr.py_upper (PyStr.py_lower s) = PyStr.py_upper s.
Proof.
  unfold PyStr.py_upper, PyStr.py_lower.
  rewrite list_ascii_of_string_of_list_ascii, map_map. f_equal.
  apply map_ext. intros a. apply upper_lower_char.
Qed.

Lemma session_after_coupon (a : action) (s : Session) :
  coupon_recognized (s_coupon_code s) ->
  coupon_recognized (s_coupon_code (session_after a s)).
Proof.
  intros Hc. destruct a; simpl; try assumption.
  - by destruct (form_qty req).
  - by destruct (PyDict.contains _ _).
  - destruct (bool_decide_reflect (submitted_code req ∈ allowed)) as [Hin|_];
      [|by left].
    apply allowed_spec in Hin as [-> | ->]; right; [by left | by right].
Qed.

Lemma run_coupon `{Libraries} (actions : list action) (w : World) :
  coupon_recognized (s_coupon_code (w_session w)) ->
  coupon_recognized (s_coupon_code (w_session (run actions w))).
Proof.
  revert w. induction actions as [|a actions IH]; intros w Hw; [exact Hw|].
  simpl. apply IH. rewrite step_session. by apply session_after_coupon.
Qed.

(** C10. Applying a coupon stores [uppercase(trim(s))] when that is
    [DESCONTO10] or [DESCONTO5] and otherwise removes the stored coupon;
    so a text that equals a recognized code up to letter case and
    surrounding white space is accepted; and, from a session whose coupon is
    recognized or absent, the coupon stays recognized or absent after every
    sequence of requests. *)
Theorem apply_coupon_stores `{Libraries} (req : Request) (w : World) :
  (exists w',
     apply_coupon req w = (Ok (Redirect "catalog.view_cart"), w') /\
     s_coupon_code (w_session w') =
       (if bool_decide (submitted_code req = "DESCONTO10" \/
                        submitted_code req = "DESCONTO5")
        then Some (submitted_code req) else None) /\
     s_cart (w_session w') = s_cart (w_session w) /\
     s_shipping_value (w_session w') = s_shipping_value (w_session w)) /\
  (forall raw code,
     r_form req !! "coupon" = Some raw ->
     code = "DESCONTO10" \/ code = "DESCONTO5" ->
     PyStr.py_lower (PyStr.py_strip raw) = PyStr.py_lower code ->
     s_coupon_code (w_session (apply_coupon req w).2) = Some code) /\
  (forall actions,
     coupon_recognized (s_coupon_code (w_session w)) ->
     coupon_recognized (s_coupon_code (w_session (run actions w)))).
Proof.
  destruct (apply_coupon_eq req w) as (w' & Heq & Hs).
  split; [|split].
  - exists w'. split; [exact Heq|]. rewrite Hs. simpl. repeat split.
    destruct (bool_decide_reflect (submitted_code req ∈ allowed)) as [Hin|Hout].
    + rewrite bool_decide_eq_true_2; [reflexivity | by apply allowed_spec].
    + rewrite bool_decide_eq_false_2; [reflexivity|].
      intros Hc. apply Hout. by apply allowed_spec.
  - intros raw code Hraw Hcode Hlow. rewrite Heq. simpl. rewrite Hs. simpl.
    assert (Hsub : submitted_code req = code).
    { unfold submitted_code. rewrite Hraw. simpl.
      rewrite <- py_upper_lower, Hlow, py_upper_lower.
      destruct Hcode as [-> | ->]; reflexivity. }
    rewrite Hsub. rewrite bool_decide_eq_true_2; [reflexivity|].
    by apply allowed_spec.
  - intros actions. apply run_coupon.
Qed.

Lemma apply_coupon_stores_witness :
  s_coupon_code
    (w_session (apply_coupon (form_request "coupon" "  dEsConTo10 ") empty_world).2)
  = Some "DESCONTO10" /\
  coupon_recognized
    (s_coupon_code
       (w_session
          (@run (table_libraries bad_price_table)
             [AApplyCoupon (form_request "coupon" "desconto5");
              AApplyCoupon (form_request "coupon" "DESCONTO20")]
             empty_world))).
Proof.
  pose proof (@apply_coupon_stores (table_libraries bad_price_table)
                (form_request "coupon" "  dEsConTo10 ") empty_world)
    as (_ & Hcase & Hrun).
  split.
  - apply (Hcase "  dEsConTo10 " "DESCONTO10").
    + vm_compute. reflexivity.
    + left. reflexivity.
    + vm_compute. reflexivity.
  - exact (Hrun _ (or_introl eq_refl)).
Defined.

(* ================================================================== *)
(** * Authorization of imports *)
(* ================================================================== *)

Lemma reads_only_logged (evs : list io_event) (w : World) :
  Forall quiet_event evs -> reads_only w (logged evs w).
Proof. intros Hq. repeat split. by exists evs. Qed.

Section Authorization.
Context `{Libraries}.

Lemma read_attempts_quiet (name : string) (w : World) :
  Forall quiet_event (read_attempts name w).
Proof.
  unfold read_attempts, csv_attempt.
  repeat case_match; repeat constructor.
Qed.

Lemma load_admin_spec (w : World) :
  exists w', load_admin w = (Ok (admin_of w), w') /\ reads_only w w'.
Proof.
  unfold load_admin, _ensure_admin_file, bind, get_world, write_admin, log, admin_of.
  destruct w as [files [[|d]|] session flashes trace]; simpl;
    (eexists; split; [reflexivity|]); repeat split; simpl.
  - exists [EvRead ADMIN_FILE]. split; [reflexivity | repeat constructor].
  - exists [EvRead ADMIN_FILE]. split; [reflexivity | repeat constructor].
  - exists [EvWrite "data/admin.json"; EvRead ADMIN_FILE].
    split; [by rewrite <- app_assoc | repeat constructor].
Qed.

Lemma load_clients_spec (w : World) :
  exists clients w', load_clients w = (Ok clients, w') /\ reads_only w w'.
Proof.
  rewrite load_clients_eq. do 2 eexists. split; [reflexivity|].
  apply reads_only_logged, read_attempts_quiet.
Qed.

Lemma current_user_spec (w : World) :
  exists user w',
    _get_current_user w = (Ok user, w') /\ reads_only w w' /\
    (forall c, user = Some c ->
       s_user_email (w_session w) = Some (c_email c) /\
       PyStr.truthy (c_email c) = true) /\
    (is_administrator w = true -> is_Some user).
Proof.
  unfold _get_current_user, is_administrator, bind, get_session. simpl.
  destruct (s_user_email (w_session w)) as [e|] eqn:He; simpl.
  2:{ exists None, w. repeat split; try reflexivity; try discriminate.
      exists []. by rewrite app_nil_r. }
  destruct (PyStr.truthy e) eqn:Htruthy; simpl.
  2:{ exists None, w. repeat split; try reflexivity; try discriminate.
      exists []. by rewrite app_nil_r. }
  destruct (load_admin_spec w) as (w1 & Hadmin & R1). rewrite Hadmin.
  destruct (bool_decide_reflect (admin_of w !! "email" = Some e)) as [Hmail|Hmail].
  - eexists _, w1. split; [reflexivity|]. split; [exact R1|]. split.
    + intros c [= <-]. simpl. auto.
    + eauto.
  - destruct (load_clients_spec w1) as (clients & w2 & Hclients & R2).
    rewrite Hclients. simpl. eexists _, w2. split; [reflexivity|].
    split; [by etransitivity|]. split; [|discriminate].
    intros c Hfind. apply find_some in Hfind as [_ Heq].
    apply String.eqb_eq in Heq. rewrite Heq. auto.
Qed.

Lemma require_admin_spec (w : World) :
  exists w',
    _require_admin w
      = (Ok (if is_administrator w then None else Some restricted), w') /\
    reads_only w w'.
Proof.
  unfold _require_admin, bind.
  destruct (current_user_spec w) as (user & w1 & Huser & R1 & Hmail & Hadm).
  rewrite Huser. destruct user as [c|].
  - destruct (Hmail c eq_refl) as [He Htruthy].
    unfold _is_admin_email, bind.
    destruct (load_admin_spec w1) as (w2 & Hadmin & R2). rewrite Hadmin. simpl.
    assert (Hsame : admin_of w1 = admin_of w) by apply R1.
    unfold is_administrator. rewrite He, Htruthy, Hsame. simpl.
    exists w2. split; [|by etransitivity].
    by destruct (bool_decide (admin_of w !! "email" = Some (c_email c))).
  - exists w1. split; [|exact R1].
    destruct (is_administrator w) eqn:E; [|reflexivity].
    destruct (Hadm eq_refl) as [c Hc]. discriminate.
Qed.

Lemma import_submit_refused save page success (req : Request) (w : World) :
  is_administrator w = false ->
  exists w1,
    reads_only w w1 /\
    forall req',
      import_submit save page success req' w
      = (Ok (Redirect "catalog.index"),
         mkWorld (w_files w1) (w_admin w1) (w_session w1)
                 (w_flashes w1 ++ [restricted]) (w_trace w1) (w_clock w1)).
Proof.
  intros Hadm. destruct (require_admin_spec w) as (w1 & Hreq & R1).
  rewrite Hadm in Hreq. exists w1. split; [exact R1|].
  intros req'. unfold import_submit, bind. rewrite Hreq. reflexivity.
Qed.

End Authorization.

(** C5. For every import request by a session that is not the
    administrator's, each of the three import handlers answers with the
    authorization message and a redirect to the index; it does so whatever
    the request carries, its file accesses are reads and at most the
    creation of [data/admin.json], none of them on the upload, and the
    tabular files and the session are left as they were. *)
Theorem import_requires_admin `{Libraries} (req : Request) (w : World) :
  is_administrator w = false ->
  Forall
    (fun handler : Request -> M response =>
       exists w',
         handler req w = (Ok (Redirect "catalog.index"), w') /\
         w_flashes w' = w_flashes w ++ [restricted] /\
         w_files w' = w_files w /\
         w_session w' = w_session w /\
         (exists evs, w_trace w' = w_trace w ++ evs /\ Forall quiet_event evs) /\
         forall req', handler req' w = handler req w)
    [clients_import_submit; suppliers_import_submit; products_import_submit].
Proof.
  intros Hadm.
  assert (Hone : forall save page success,
    exists w',
      import_submit save page success req w = (Ok (Redirect "catalog.index"), w') /\
      w_flashes w' = w_flashes w ++ [restricted] /\
      w_files w' = w_files w /\
      w_session w' = w_session w /\
      (exists evs, w_trace w' = w_trace w ++ evs /\ Forall quiet_event evs) /\
      forall req', import_submit save page success req' w
                   = import_submit save page success req w).
  { intros save page success.
    destruct (import_submit_refused save page success req w Hadm)
      as (w1 & (F & S & L & _ & T) & Heq).
    eexists. split; [apply Heq|]. simpl. rewrite L.
    repeat split; try assumption.
    intros req'. by rewrite !Heq. }
  repeat constructor; apply Hone.
Qed.

Lemma import_requires_admin_witness :
  is_administrator client_world = false /\
  exists w',
    @products_import_submit (table_libraries bad_price_table)
      (upload_request "produtos.csv") client_world
    = (Ok (Redirect "catalog.index"), w') /\
    w_files w' = w_files client_world.
Proof.
  assert (Hadm : is_administrator client_world = false) by (vm_compute; reflexivity).
  split; [exact Hadm|].
  pose proof (@import_requires_admin (table_libraries bad_price_table)
                (upload_request "produtos.csv") client_world Hadm) as Hall.
  apply Forall_cons in Hall as [_ Hall].
  apply Forall_cons in Hall as [_ Hall].
  apply Forall_cons in Hall as [(w' & Heq & _ & Hfiles & _) _].
  exists w'. split; [exact Heq | exact Hfiles].
Defined.

(* ================================================================== *)
(** * Canonical columns *)
(* ================================================================== *)

Lemma index_of_lookup (c : string) (cols : list string) (i : nat) :
  index_of c cols = Some i -> cols !! i = Some c.
Proof.
  revert i. induction cols as [|c' cols IH]; intros i; simpl; [discriminate|].
  destruct (String.eqb_spec c c') as [->|_].
  - intros [= <-]. reflexivity.
  - destruct (index_of c cols) as [j|]; simpl; [|discriminate].
    intros [= <-]. simpl. by apply IH.
Qed.

Lemma index_of_In (c : string) (cols : list string) :
  In c cols -> is_Some (index_of c cols).
Proof.
  induction cols as [|c' cols IH]; simpl; [tauto|].
  destruct (String.eqb_spec c c') as [->|Hne]; [eauto|].
  intros [->|Hin]; [congruence|].
  destruct (IH Hin) as [i ->]. simpl. eauto.
Qed.




Lemma row_get_map (g : string -> cell) (cols : list string) (c : string) :
  In c cols -> row_get cols (map g cols) c = g c.
Proof.
  intros Hin. unfold row_get. destruct (index_of_In c cols Hin) as [i Hi].
  rewrite Hi. apply index_of_lookup in Hi.
  change (map g cols) with (g <$> cols). rewrite list_lookup_fmap, Hi.
  reflexivity.
Qed.


Lemma add_missing_present (wanted : list string) (d : DataFrame) :
  (forall c, In c wanted -> is_Some (index_of c (df_columns d))) ->
  fold_left add_missing wanted d = d.
Proof.
  induction wanted as [|col wanted IH]; intros Hall; simpl; [reflexivity|].
  unfold add_missing at 2. destruct (Hall col (or_introl eq_refl)) as [i ->].
  apply IH. intros c Hc. apply Hall. by right.
Qed.


Lemma enforce_columns_idempotent (cols : list string) (df : DataFrame) :
  enforce_columns cols (enforce_columns cols df) = enforce_columns cols df.
Proof.
  unfold enforce_columns at 1.
  rewrite add_missing_present.
  2:{ intros c Hc. simpl. by apply index_of_In. }
  unfold enforce_columns, select_columns. simpl. f_equal.
  rewrite map_map. apply map_ext. intros row.
  apply map_ext_in. intros c Hc.
  apply (row_get_map (row_get _ row) cols c Hc).
Qed.


(* ================================================================== *)
(** * Imports replace the stored tables *)
(* ================================================================== *)


Lemma insert_pair_twice (m : gmap string bytes) (k1 k2 : string) (v1 v2 : bytes) :
  <[k2 := v2]> (<[k1 := v1]> (<[k2 := v2]> (<[k1 := v1]> m)))
  = <[k2 := v2]> (<[k1 := v1]> m).
Proof.
  apply map_eq. intros k. rewrite !lookup_insert.
  repeat case_decide; reflexivity.
Qed.

#[local] Instance same_clock_preorder : PreOrder same_clock.
Proof.
  split; [intros w; reflexivity|].
  intros a b c Hab Hbc. unfold same_clock in *. congruence.
Qed.

Lemma same_clock_log e : respects same_clock (log e).
Proof. intros w. reflexivity. Qed.

Lemma same_clock_flash msg : respects same_clock (flash msg).
Proof. intros w. reflexivity. Qed.

Lemma same_clock_write_file path content :
  respects same_clock (write_file path content).
Proof. intros w. reflexivity. Qed.

Lemma same_clock_write_admin doc : respects same_clock (write_admin doc).
Proof. intros w. reflexivity. Qed.

Ltac same_clock_base :=
  first [ apply same_clock_log | apply same_clock_flash
        | apply same_clock_write_file | apply same_clock_write_admin ].



Section Imports.
Context `{Libraries}.

(** The administrator check reads the clock at no point. *)
Lemma same_clock_require_admin : respects same_clock _require_admin.
Proof.
  unfold _require_admin, _is_admin_email, _get_current_user, load_admin,
    _ensure_admin_file, load_clients, _read_tabular, try_read.
  frame_with same_clock_base.
Qed.

Lemma write_excel_spec (path : string) (table : DataFrame) (w : World) :
  write_excel path table w
  = match to_excel (w_clock w) table with
    | XlsxWritten content =>
        (Ok tt,
         mkWorld (<[path := content]> (w_files w)) (w_admin w) (w_session w)
                 (w_flashes w) (w_trace w ++ [EvWrite path]) (w_clock w + 1))
    | XlsxFailed message (Some content) =>
        (Raise (LibraryError message),
         mkWorld (<[path := content]> (w_files w)) (w_admin w) (w_session w)
                 (w_flashes w) (w_trace w ++ [EvWrite path]) (w_clock w + 1))
    | XlsxFailed message None =>
        (Raise (LibraryError message),
         mkWorld (w_files w) (w_admin w) (w_session w) (w_flashes w)
                 (w_trace w) (w_clock w + 1))
    end.
Proof.
  unfold write_excel, bind, now. simpl.
  destruct (to_excel (w_clock w) table) as [content|message [content|]];
    reflexivity.
Qed.

Lemma save_functions :
  saves "clients" clients_cols _save_clients_dataframe /\
  saves "suppliers" suppliers_cols _save_suppliers_dataframe /\
  saves "products" products_cols _save_products_dataframe.
Proof.
  split; [|split]; intros table w;
    unfold _save_clients_dataframe, _save_suppliers_dataframe,
      _save_products_dataframe, stored_after_save, bind;
    rewrite write_excel_spec;
    destruct (to_excel (w_clock w) _) as [content|message [content|]];
    repeat split.
Qed.

(** The end of an import, from the call of the reader on: the handler
    answers in every case; the files are those after the save when the
    reader gave a table, and the message tells whether reader and writers
    returned. *)
Lemma store_upload_spec name cols save back success parsed (w : World) :
  saves name cols save ->
  let w' := (store_upload save back success parsed w).2 in
  fst (store_upload save back success parsed w) = Ok back /\
  w_session w' = w_session w /\
  admin_of w' = admin_of w /\
  match parsed with
  | Ok df =>
      let table := enforce_columns cols df in
      w_files w' = stored_after_save name (w_clock w) table (w_files w) /\
      w_clock w' = w_clock w + 1 /\
      w_flashes w'
      = w_flashes w ++
        [match to_excel (w_clock w) table with
         | XlsxWritten _ => success
         | XlsxFailed message _ => "Falha ao importar: " +:+ message
         end]
  | Raise e =>
      w_files w' = w_files w /\
      w_clock w' = w_clock w /\
      w_flashes w' = w_flashes w ++ ["Falha ao importar: " +:+ exn_text e]
  end.
Proof.
  intros Hsave. unfold store_upload, catch, bind, lift.
  destruct parsed as [df|e]; simpl; [|auto 10].
  destruct (Hsave df w) as (E & F & S & A & L & C).
  destruct (save df w) as [[[]|e] w3]; simpl in *;
    destruct (to_excel (w_clock w) (enforce_columns cols df))
      as [content|message remains]; try discriminate;
    rewrite ?L; auto 10.
  injection E as ->. simpl. auto 10.
Qed.

Lemma import_submit_files name cols save page success (req : Request) (w : World) :
  saves name cols save ->
  exists r w',
    import_submit save page success req w = (Ok r, w') /\
    w_files w' = stored_after_import name cols req w /\
    w_session w' = w_session w /\
    admin_of w' = admin_of w.
Proof.
  intros Hsave. unfold import_submit, stored_after_import, upload_table, bind.
  destruct (require_admin_spec w) as (w1 & Hreq & (F1 & S1 & _ & A1 & _)).
  pose proof (same_clock_require_admin w) as C1. rewrite Hreq in C1.
  unfold same_clock in C1. simpl in C1.
  rewrite Hreq. destruct (is_administrator w).
  2:{ do 2 eexists. split; [reflexivity|]. simpl. auto. }
  destruct (r_file req) as [file|].
  2:{ do 2 eexists. split; [reflexivity|]. simpl. auto. }
  destruct (PyStr.truthy (u_filename file)); simpl.
  2:{ do 2 eexists. split; [reflexivity|]. simpl. auto. }
  assert (Hstore : forall reader error,
    exists r w',
      store_upload save (Redirect (url_for page)) success
        (read_upload reader error (u_stream file))
        (mkWorld (w_files w1) (w_admin w1) (w_session w1) (w_flashes w1)
                 (w_trace w1 ++ [EvUpload (u_filename file)]) (w_clock w1))
      = (Ok r, w') /\
      w_files w'
      = match reader (u_stream file) with
        | Some df =>
            stored_after_save name (w_clock w) (enforce_columns cols df) (w_files w)
        | None => w_files w
        end /\
      w_session w' = w_session w /\ admin_of w' = admin_of w).
  { intros reader error.
    pose proof (store_upload_spec name cols save (Redirect (url_for page)) success
                  (read_upload reader error (u_stream file))
                  (mkWorld (w_files w1) (w_admin w1) (w_session w1) (w_flashes w1)
                           (w_trace w1 ++ [EvUpload (u_filename file)])
                           (w_clock w1)) Hsave) as Hspec.
    cbv zeta in Hspec. destruct (store_upload _ _ _ _ _) as [r w'].
    destruct Hspec as (E & S & A & Hrest). simpl in E, S. subst r.
    assert (A' : admin_of w' = admin_of w1) by exact A.
    exists (Redirect (url_for page)), w'. split; [reflexivity|].
    unfold read_upload in Hrest.
    destruct (reader (u_stream file)) as [df|];
      destruct Hrest as (F & _); simpl in F; rewrite F, ?C1, ?F1;
      (split; [reflexivity|]); split; congruence. }
  destruct (String.eqb (extension (secure_filename (u_filename file))) "xlsx").
  { apply Hstore. }
  destruct (String.eqb (extension (secure_filename (u_filename file))) "csv").
  { apply Hstore. }
  do 2 eexists. split; [reflexivity|]. simpl. auto.
Qed.

(** An administrator's import of an upload that parses: the files after
    the save of the normalised table, one message that tells whether the
    workbook was written, and the clock read once. *)
Lemma import_submit_parsed name cols save page success (req : Request)
    (w : World) (df : DataFrame) :
  saves name cols save ->
  is_administrator w = true ->
  upload_table req = Some df ->
  let table := enforce_columns cols df in
  let w' := (import_submit save page success req w).2 in
  fst (import_submit save page success req w) = Ok (Redirect (url_for page)) /\
  w_files w' = stored_after_save name (w_clock w) table (w_files w) /\
  w_session w' = w_session w /\
  admin_of w' = admin_of w /\
  w_clock w' = w_clock w + 1 /\
  w_flashes w'
  = w_flashes w ++
    [match to_excel (w_clock w) table with
     | XlsxWritten _ => success
     | XlsxFailed message _ => "Falha ao importar: " +:+ message
     end].
Proof.
  intros Hsave Hadm Hup. unfold import_submit, upload_table, bind in *.
  destruct (require_admin_spec w) as (w1 & Hreq & (F1 & S1 & L1 & A1 & _)).
  pose proof (same_clock_require_admin w) as C1. rewrite Hreq in C1.
  unfold same_clock in C1. simpl in C1.
  rewrite Hreq, Hadm.
  destruct (r_file req) as [file|]; [|discriminate].
  destruct (PyStr.truthy (u_filename file)); [|discriminate]. simpl.
  assert (Hstore : forall reader error,
    reader (u_stream file) = Some df ->
    let w' :=
      (store_upload save (Redirect (url_for page)) success
         (read_upload reader error (u_stream file))
         (mkWorld (w_files w1) (w_admin w1) (w_session w1) (w_flashes w1)
                  (w_trace w1 ++ [EvUpload (u_filename file)]) (w_clock w1))).2 in
    fst (store_upload save (Redirect (url_for page)) success
           (read_upload reader error (u_stream file))
           (mkWorld (w_files w1) (w_admin w1) (w_session w1) (w_flashes w1)
                    (w_trace w1 ++ [EvUpload (u_filename file)]) (w_clock w1)))
    = Ok (Redirect (url_for page)) /\
    w_files w'
    = stored_after_save name (w_clock w) (enforce_columns cols df) (w_files w) /\
    w_session w' = w_session w /\
    admin_of w' = admin_of w /\
    w_clock w' = w_clock w + 1 /\
    w_flashes w'
    = w_flashes w ++
      [match to_excel (w_clock w) (enforce_columns cols df) with
       | XlsxWritten _ => success
       | XlsxFailed message _ => "Falha ao importar: " +:+ message
       end]).
  { intros reader error Hread.
    pose proof (store_upload_spec name cols save (Redirect (url_for page)) success
                  (read_upload reader error (u_stream file))
                  (mkWorld (w_files w1) (w_admin w1) (w_session w1) (w_flashes w1)
                           (w_trace w1 ++ [EvUpload (u_filename file)])
                           (w_clock w1)) Hsave) as Hspec.
    cbv zeta in *. destruct Hspec as (E & S & A & Hrest).
    unfold read_upload in Hrest at 1. rewrite Hread in Hrest.
    destruct Hrest as (F & C & L). simpl in S, F, C, L.
    assert (A' : admin_of (store_upload save (Redirect (url_for page)) success
                             (read_upload reader error (u_stream file))
                             (mkWorld (w_files w1) (w_admin w1) (w_session w1)
                                (w_flashes w1)
                                (w_trace w1 ++ [EvUpload (u_filename file)])
                                (w_clock w1))).2
                 = admin_of w1) by exact A.
    rewrite E, S, A', F, C, L, C1, F1, S1, L1. repeat split. exact A1. }
  destruct (String.eqb (extension (secure_filename (u_filename file))) "xlsx").
  { by apply Hstore. }
  destruct (String.eqb (extension (secure_filename (u_filename file))) "csv").
  { by apply Hstore. }
  discriminate.
Qed.


End Imports.



(** An administrator's import of [produtos.csv] writes both product files;
    a second import writes another workbook. *)
Example import_writes_both_files :
  let L := table_libraries bad_price_table in
  let w1 := (@products_import_submit L (upload_request "produtos.csv")
               admin_world).2 in
  let w2 := (@products_import_submit L (upload_request "produtos.csv") w1).2 in
  w_files w1 !! "data/products.xlsx" = Some [Byte.x01; Byte.x00] /\
  w_files w1 !! "data/products.csv" = Some [Byte.x02] /\
  w_flashes w1 = ["Produtos importados com sucesso."] /\
  w_files w2 !! "data/products.xlsx" = Some [Byte.x01; Byte.x01] /\
  w_files w2 !! "data/products.csv" = Some [Byte.x02].
Proof. vm_compute. repeat split. Qed.

(** A file named [produtos.txt] is refused and nothing is written. *)
Example import_txt_refused :
  let w1 := (@products_import_submit (table_libraries bad_price_table)
               (upload_request "produtos.txt") admin_world).2 in
  w_files w1 = ∅ /\
  w_flashes w1 = ["Formato não suportado. Use .xlsx ou .csv"].
Proof. vm_compute. repeat split. Qed.

(** When the writer of workbooks raises, the import answers with the text
    of the exception, the delimited text is not written, and the workbook
    is what the failed call has left. *)
Lemma import_write_fails `{Libraries} (req : Request) (w : World)
    (df : DataFrame) (message : string) (remains : option bytes) :
  is_administrator w = true ->
  upload_table req = Some df ->
  to_excel (w_clock w) (enforce_columns products_cols df)
    = XlsxFailed message remains ->
  fst (products_import_submit req w)
    = Ok (Redirect "catalog.products_import_page") /\
  w_flashes (products_import_submit req w).2
    = w_flashes w ++ ["Falha ao importar: " +:+ message] /\
  w_files (products_import_submit req w).2
    = match remains with
      | Some content => <["data/products.xlsx" := content]> (w_files w)
      | None => w_files w
      end.
Proof.
  intros Hadm Hup Hfail.
  destruct save_functions as (_ & _ & Hp).
  destruct (import_submit_parsed "products" products_cols _
              "catalog.products_import_page" "Produtos importados com sucesso."
              req w df Hp Hadm Hup) as (E & F & _ & _ & _ & L).
  unfold stored_after_save in F. rewrite Hfail in F, L.
  split; [exact E|]. split; [exact L|]. exact F.
Qed.

(** An upload that the reader rejects is answered with the text of the
    reader's exception, and nothing is written. *)
Example import_unreadable_upload :
  let w1 := (@products_import_submit (table_libraries bad_price_table)
               (mkRequest ∅ (Some (mkUpload "produtos.xlsx" [])) None)
               admin_world).2 in
  w_files w1 = ∅ /\
  w_flashes w1 = ["Falha ao importar: File is not a zip file"].
Proof. vm_compute. repeat split. Qed.

(** With a writer of workbooks that raises after it has emptied the file,
    the import of [produtos.csv] leaves an empty workbook and no
    delimited text. *)
Example import_failed_write :
  let w1 := (@products_import_submit (failing_libraries bad_price_table)
               (upload_request "produtos.csv") admin_world).2 in
  w_files w1 !! "data/products.xlsx" = Some [] /\
  w_files w1 !! "data/products.csv" = None /\
  w_flashes w1 = ["Falha ao importar: x cannot be used in worksheets."].
Proof. vm_compute. repeat split. Qed.

(* ================================================================== *)
(** * Cart entries without a product *)
(* ================================================================== *)

Lemma products_by_id_None (loaded : list Product) (pid : string) :
  (forall p, p ∈ loaded -> p_id p <> pid) -> products_by_id loaded !! pid = None.
Proof.
  unfold products_by_id.
  assert (Hgen : forall (m : gmap string Product),
            m !! pid = None ->
            (forall p, p ∈ loaded -> p_id p <> pid) ->
            fold_left (fun m p => <[p_id p := p]> m) loaded m !! pid = None).
  { induction loaded as [|p loaded IH]; intros m Hm Hall; simpl; [exact Hm|].
    apply IH.
    - rewrite lookup_insert_ne; [exact Hm|]. apply Hall. left.
    - intros q Hq. apply Hall. by right. }
  apply Hgen. apply lookup_empty.
Qed.

Section Skipping.
Variable products : gmap string Product.
Variables (before after : pydict Z) (pid : string) (qty : Z).
Hypothesis unknown : products !! pid = None.

Lemma view_cart_loop_skips items total :
  view_cart_loop products (before ++ (pid, qty) :: after) items total
  = view_cart_loop products (before ++ after) items total.
Proof.
  revert items total. induction before as [|[k q] l IH]; intros items total; simpl.
  - by rewrite unknown.
  - destruct (products !! k); [|apply IH].
    destruct (times_qty _ _); simpl; [apply IH | reflexivity].
Qed.

Lemma xlsx_loop_skips rows total :
  xlsx_loop products (before ++ (pid, qty) :: after) rows total
  = xlsx_loop products (before ++ after) rows total.
Proof.
  revert rows total. induction before as [|[k q] l IH]; intros rows total; simpl.
  - by rewrite unknown.
  - destruct (products !! k); [|apply IH].
    destruct (times_qty _ _); simpl; [apply IH | reflexivity].
Qed.

Lemma pdf_loop_skips items total :
  pdf_loop products (before ++ (pid, qty) :: after) items total
  = pdf_loop products (before ++ after) items total.
Proof.
  revert items total. induction before as [|[k q] l IH]; intros items total; simpl.
  - by rewrite unknown.
  - destruct (products !! k); [|apply IH].
    destruct (times_qty _ _); simpl; [apply IH | reflexivity].
Qed.

Lemma csv_loop_skips rows :
  csv_loop products (before ++ (pid, qty) :: after) rows
  = csv_loop products (before ++ after) rows.
Proof.
  revert rows. induction before as [|[k q] l IH]; intros rows; simpl.
  - by rewrite unknown.
  - destruct (products !! k); [|apply IH].
    destruct (times_qty _ _); simpl; [apply IH | reflexivity].
Qed.

End Skipping.

Lemma truthy_middle {V} (before after : pydict V) (e : string * V) :
  PyDict.truthy (before ++ e :: after) = true.
Proof. by destruct before. Qed.

(** The cart view shows the pricing of the session's cart over the loaded
    products, and raises when the pricing raises. *)
Lemma view_cart_pricing `{Libraries} (w : World) (loaded : list Product) :
  fst (load_products w) = Ok loaded ->
  exists user,
    fst (view_cart w) =
      match pricing (cart_of w) loaded (s_coupon_code (w_session w))
              (s_shipping_value (w_session w)) with
      | Ok t => Ok (CartPage (mkView t (s_coupon_code (w_session w)) user))
      | Raise e => Raise e
      end.
Proof.
  intros Hload. rewrite load_products_eq in Hload. simpl in Hload.
  destruct (current_user_spec (logged (read_attempts "products" w) w))
    as (user & w2 & Huser & _).
  exists user.
  unfold view_cart, _get_cart, bind, get_session, lift, cart_of. simpl.
  rewrite load_products_eq, Hload. simpl.
  destruct (pricing _ loaded _ _); [|reflexivity].
  by rewrite Huser.
Qed.

(** C4. A cart entry whose product id no loaded product has is skipped:
    the pricing of the cart is the pricing of the cart without that entry
    (subtotal, breakdown and outcome alike), the cart view shows that
    pricing, each export holds the rows of the cart without the entry, and a
    cart made of that entry alone is priced without error at subtotal 0.0
    with an empty breakdown. *)
Theorem unknown_entry_skipped `{Libraries} (w : World) (loaded : list Product)
    (before after : pydict Z) (pid : string) (qty : Z) :
  fst (load_products w) = Ok loaded ->
  (forall p, p ∈ loaded -> p_id p <> pid) ->
  cart_of w = before ++ (pid, qty) :: after ->
  let kept := before ++ after in
  let products := products_by_id loaded in
  let s := w_session w in
  (forall coupon shipping,
     pricing (before ++ (pid, qty) :: after) loaded coupon shipping
     = pricing kept loaded coupon shipping) /\
  (exists user,
     fst (view_cart w) =
       match pricing kept loaded (s_coupon_code s) (s_shipping_value s) with
       | Ok t => Ok (CartPage (mkView t (s_coupon_code s) user))
       | Raise e => Raise e
       end) /\
  fst (export_cart_xlsx w) =
    match xlsx_loop products kept [] fzero with
    | Ok r => Ok (SendFile "carrinho.xlsx" (XlsxSheet "Carrinho" r.1))
    | Raise e => Raise e
    end /\
  fst (export_cart_pdf w) =
    (if has_reportlab then
       match pdf_loop products kept [] fzero with
       | Ok r => Ok (SendFile "carrinho.pdf" (PdfCanvas (pdf_ops r.1 r.2)))
       | Raise e => Raise e
       end
     else Ok (Redirect "catalog.view_cart")) /\
  fst (export_cart_csv w) =
    match csv_loop products kept
            [["SKU"; "Nome"; "Quantidade"; "PrecoUnitario"; "TotalLinha"]] with
    | Ok rows => Ok (SendFile "carrinho.csv" (CsvText rows))
    | Raise e => Raise e
    end /\
  (forall coupon shipping,
     exists t,
       pricing [(pid, qty)] loaded coupon shipping = Ok t /\
       t_items t = [] /\ t_total_value t = fzero).
Proof.
  intros Hload' Hunknown Hcart kept products s.
  pose proof (products_by_id_None loaded pid Hunknown) as Hnone.
  pose proof Hload' as Hload.
  rewrite load_products_eq in Hload. simpl in Hload.
  unfold cart_of in Hcart.
  assert (Hpricing : forall coupon shipping,
            pricing (before ++ (pid, qty) :: after) loaded coupon shipping
            = pricing kept loaded coupon shipping).
  { intros. unfold pricing. by rewrite view_cart_loop_skips. }
  split; [exact Hpricing|]. split; [|split; [|split; [|split]]].
  - destruct (view_cart_pricing w loaded Hload') as [user Hview].
    exists user. rewrite Hview. unfold cart_of. rewrite Hcart, Hpricing.
    reflexivity.
  - unfold export_cart_xlsx, _get_cart, bind, get_session, lift. simpl.
    rewrite Hcart, truthy_middle. simpl.
    rewrite load_products_eq, Hload. simpl.
    rewrite xlsx_loop_skips by exact Hnone.
    by destruct (xlsx_loop _ _ _ _).
  - unfold export_cart_pdf. destruct has_reportlab; simpl; [|reflexivity].
    unfold _get_cart, bind, get_session, lift. simpl.
    rewrite Hcart, truthy_middle. simpl.
    rewrite load_products_eq, Hload. simpl.
    rewrite pdf_loop_skips by exact Hnone.
    by destruct (pdf_loop _ _ _ _).
  - unfold export_cart_csv, _get_cart, bind, get_session, lift. simpl.
    rewrite Hcart, truthy_middle. simpl.
    rewrite load_products_eq, Hload. simpl.
    rewrite csv_loop_skips by exact Hnone.
    by destruct (csv_loop _ _ _).
  - intros coupon shipping. unfold pricing. simpl. rewrite Hnone. simpl.
    eexists. split; [reflexivity|]. split; reflexivity.
Qed.

Lemma unknown_entry_skipped_witness :
  fst (@load_products (table_libraries catalog_table) cart_world)
    = Ok catalog_products /\
  (forall p, p ∈ catalog_products -> p_id p <> "ZZ") /\
  fst (@export_cart_csv (table_libraries catalog_table) cart_world) =
    match csv_loop (products_by_id catalog_products) [("A1", 2); ("A3", 1)]
            [["SKU"; "Nome"; "Quantidade"; "PrecoUnitario"; "TotalLinha"]] with
    | Ok rows => Ok (SendFile "carrinho.csv" (CsvText rows))
    | Raise e => Raise e
    end.
Proof.
  assert (Hload : fst (@load_products (table_libraries catalog_table) cart_world)
                  = Ok catalog_products) by (vm_compute; reflexivity).
  assert (Hunknown : forall p, p ∈ catalog_products -> p_id p <> "ZZ").
  { intros p Hp. unfold catalog_products in Hp.
    repeat (apply elem_of_cons in Hp as [-> | Hp]; [discriminate|]).
    by apply elem_of_nil in Hp. }
  split; [exact Hload|]. split; [exact Hunknown|].
  exact (proj1 (proj2 (proj2 (proj2 (proj2
           (@unknown_entry_skipped (table_libraries catalog_table) cart_world
              catalog_products [("A1", 2)] [("A3", 1)] "ZZ" 5
              Hload Hunknown eq_refl)))))).
Defined.

(** The rows of that export: the entry [ZZ] is absent. *)
Example export_csv_rows :
  fst (@export_cart_csv (table_libraries catalog_table) cart_world)
  = Ok (SendFile "carrinho.csv"
          (CsvText [["SKU"; "Nome"; "Quantidade"; "PrecoUnitario"; "TotalLinha"];
                    ["A1"; "Produto A1"; "2"; "1,00"; "2,00"];
                    ["A3"; "Produto A3"; "1"; "2,50"; "2,50"]])).
Proof. vm_compute. reflexivity. Qed.

(** The failing cart is reachable: one add request whose quantity is the
    text of [10^400], then the cart view raises [OverflowError]. *)
Example view_cart_overflow_reachable :
  let L := table_libraries catalog_table in
  fst (@view_cart L
         (@run L [ACartAdd "A1" (form_request "qty" huge_qty)] products_csv_world))
  = Raise OverflowError.
Proof. vm_compute. reflexivity. Qed.

(** With the text [abc] as a price in the stored table, the cart view and
    the export raise [ValueError]. *)
Example bad_price_breaks_cart_view :
  let L := table_libraries bad_price_table in
  fst (@view_cart L products_csv_world) = Raise ValueError /\
  fst (@export_cart_csv L cart_world) = Raise ValueError.
Proof. vm_compute. repeat split. Qed.

(** After the shipping request [nan], the cart view shows a NaN grand
    total. *)
Example nan_shipping_in_cart_view :
  let L := table_libraries catalog_table in
  match fst (@view_cart L
               (@run L [ASetShipping (form_request "shipping" "nan")] cart_world)) with
  | Ok (CartPage v) => t_grand_total (v_totals v) = S754_nan
  | _ => False
  end.
Proof. vm_compute. reflexivity. Qed.

(** Two adds and a removal, from the empty cart. *)
Example cart_run_example :
  cart_of (@run (table_libraries catalog_table)
             [ACartAdd "A1" (form_request "qty" "-3");
              ACartAdd "B2" (form_request "qty" "4");
              ACartAdd "A1" (form_request "qty" "2");
              ACartAdd "A1" (form_request "qty" "two");
              ACartRemove "B2" (form_request "qty" "1");
              ACartRemove "B7" (form_request "qty" "1")]
             empty_world)
  = [("A1", 3)].
Proof. vm_compute. reflexivity. Qed.

(* ================================================================== *)
(** * Further properties of the cart *)
(* ================================================================== *)

Section DictKeys.
Context {V : Type}.
Implicit Types (d : list (string * V)) (k : string) (v : V).

Lemma get_None_keys k d : PyDict.get k d = None <-> k ∉ map fst d.
Proof.
  induction d as [|[k' v'] d IH]; simpl.
  - split; [intros _; apply not_elem_of_nil | reflexivity].
  - rewrite not_elem_of_cons. destruct (String.eqb_spec k k') as [->|Hne].
    + split; [discriminate | intros [Hk _]; congruence].
    + rewrite IH. tauto.
Qed.

Lemma keys_set k v d :
  map fst (PyDict.set k v d)
  = if PyDict.contains k d then map fst d else map fst d ++ [k].
Proof.
  unfold PyDict.contains. induction d as [|[k' v'] d IH]; simpl; [reflexivity|].
  destruct (String.eqb_spec k k') as [->|Hne]; simpl; [reflexivity|].
  rewrite IH. by destruct (PyDict.get k d).
Qed.

Lemma filter_all {A} (P : A -> Prop) `{!forall x, Decision (P x)} (l : list A) :
  Forall P l -> filter P l = l.
Proof.
  induction 1 as [|x l Hx _ IH]; [reflexivity|].
  rewrite filter_cons_True by assumption. by rewrite IH.
Qed.

Lemma keys_pop_subset k k' d :
  k' ∈ map fst (PyDict.pop k d) -> k' ∈ map fst d.
Proof.
  induction d as [|[k0 v0] d IH]; simpl; [tauto|].
  destruct (String.eqb k k0); simpl.
  - intros Hin. by right.
  - rewrite !elem_of_cons. intros [->|Hin]; auto.
Qed.

Lemma keys_pop_unique k d : NoDup (map fst d) -> NoDup (map fst (PyDict.pop k d)).
Proof.
  induction d as [|[k0 v0] d IH]; simpl; [auto|].
  intros Hnd. apply NoDup_cons in Hnd as [Hk0 Hnd].
  destruct (String.eqb k k0); simpl; [assumption|].
  apply NoDup_cons. split; [|auto].
  intros Hin. apply Hk0. by apply keys_pop_subset in Hin.
Qed.

Lemma pop_filter k d :
  NoDup (map fst d) -> PyDict.pop k d = filter (fun e => e.1 <> k) d.
Proof.
  induction d as [|[k' v'] d IH]; [reflexivity|].
  intros Hnd. cbn [map fst] in Hnd. apply NoDup_cons in Hnd as [Hk' Hnd].
  cbn [PyDict.pop]. destruct (String.eqb_spec k k') as [->|Hne].
  - rewrite filter_cons_False by (simpl; tauto).
    symmetry. apply filter_all. apply Forall_forall.
    intros [k v] Hin. simpl. intros ->. apply Hk'.
    apply list_elem_of_fmap. by exists (k', v).
  - rewrite filter_cons_True by (simpl; congruence). by rewrite IH.
Qed.

Lemma pop_set_fresh k v d : PyDict.get k d = None -> PyDict.pop k (PyDict.set k v d) = d.
Proof.
  induction d as [|[k' v'] d IH]; simpl.
  - by rewrite String.eqb_refl.
  - destruct (String.eqb_spec k k') as [->|Hne]; [discriminate|].
    simpl. destruct (String.eqb_spec k k'); [congruence|].
    intros Hget. by rewrite IH.
Qed.

End DictKeys.

Lemma session_after_keys_unique (a : action) (s : Session) :
  keys_unique (default [] (s_cart s)) ->
  keys_unique (default [] (s_cart (session_after a s))).
Proof.
  unfold keys_unique. intros Hnd. destruct a; simpl; try assumption.
  - destruct (form_qty req) as [qty|]; simpl; [|assumption].
    rewrite keys_set. unfold PyDict.contains.
    destruct (PyDict.get product_id (default [] (s_cart s))) eqn:Hget; [assumption|].
    apply NoDup_app. split; [assumption|]. split; [|apply NoDup_singleton].
    intros k Hk Hk'. apply list_elem_of_singleton in Hk' as ->.
    by apply get_None_keys in Hget.
  - destruct (PyDict.contains _ _); simpl; [|assumption].
    by apply keys_pop_unique.
Qed.

(** X1. The cart never holds two entries for one product id: from a cart
    with distinct ids, the ids stay distinct after every sequence of
    requests. *)
Theorem cart_keys_unique `{Libraries} (actions : list action) (w : World) :
  keys_unique (cart_of w) -> keys_unique (cart_of (run actions w)).
Proof.
  revert w. induction actions as [|a actions IH]; intros w Hw; [exact Hw|].
  simpl. apply IH. unfold cart_of. rewrite step_session.
  by apply session_after_keys_unique.
Qed.

Lemma cart_keys_unique_witness :
  keys_unique
    (cart_of (@run (table_libraries catalog_table)
                [ACartAdd "A1" (form_request "qty" "2");
                 ACartAdd "A1" (form_request "qty" "1")]
                cart_world)).
Proof.
  apply (@cart_keys_unique (table_libraries catalog_table)).
  unfold keys_unique. compute_done.
Defined.

(** X2. On a cart with distinct ids, a remove request leaves exactly the
    entries of the other product ids, in their order; the removed id is no
    longer in the cart. *)
Theorem cart_remove_filters `{Libraries} (product_id : string) (req : Request)
    (w : World) :
  keys_unique (cart_of w) ->
  cart_of (step (ACartRemove product_id req) w)
    = filter (fun e => e.1 <> product_id) (cart_of w : list (string * Z)) /\
  PyDict.get product_id (cart_of (step (ACartRemove product_id req) w)) = None.
Proof.
  intros Hnd.
  assert (Hcart : cart_of (step (ACartRemove product_id req) w)
                  = filter (fun e => e.1 <> product_id)
                           (cart_of w : list (string * Z))).
  { unfold cart_of. rewrite step_session. simpl. unfold PyDict.contains.
    destruct (PyDict.get product_id (default [] (s_cart (w_session w)))) eqn:Hget; simpl.
    - by apply pop_filter.
    - symmetry. apply filter_all. apply Forall_forall.
      intros [k v] Hin. simpl. intros ->.
      apply get_None_keys in Hget. apply Hget.
      apply list_elem_of_fmap. by exists (product_id, v). }
  split; [exact Hcart|]. rewrite Hcart. apply get_None_keys.
  intros Hin. apply list_elem_of_fmap in Hin as ([k v] & -> & Hin).
  apply list_elem_of_filter in Hin as [Hne _]. by apply Hne.
Qed.

Lemma cart_remove_filters_witness :
  cart_of (@step (table_libraries catalog_table)
             (ACartRemove "ZZ" (form_request "qty" "1")) cart_world)
  = filter (fun e => e.1 <> "ZZ") (cart_of cart_world : list (string * Z)).
Proof.
  apply (@cart_remove_filters (table_libraries catalog_table)).
  unfold keys_unique. compute_done.
Defined.

(** X3. Adding a product that is not in the cart and then removing it gives
    back the cart as it was. *)
Theorem cart_add_then_remove `{Libraries} (product_id : string)
    (add remove : Request) (qty : Z) (w : World) :
  form_qty add = Ok qty ->
  PyDict.get product_id (cart_of w) = None ->
  cart_of (step (ACartRemove product_id remove) (step (ACartAdd product_id add) w))
  = cart_of w.
Proof.
  intros Hq Hget. unfold cart_of in *. rewrite !step_session. simpl.
  rewrite Hq. simpl. unfold PyDict.contains. rewrite get_set_eq. simpl.
  by apply pop_set_fresh.
Qed.

Lemma cart_add_then_remove_witness :
  cart_of (@step (table_libraries catalog_table)
             (ACartRemove "B7" (form_request "x" "y"))
             (@step (table_libraries catalog_table)
                (ACartAdd "B7" (form_request "qty" "4")) cart_world))
  = cart_of cart_world.
Proof.
  apply (@cart_add_then_remove (table_libraries catalog_table) "B7" _ _ 4);
    reflexivity.
Defined.

(** X4. Add requests for one product accumulate: after a run of them the
    quantity of the product is the quantity before (0 when absent) plus the
    sum of [max(qty, 1)] over the requests, and no other product's quantity
    changes. *)
Theorem cart_adds_accumulate `{Libraries} (product_id : string)
    (reqs : list Request) (qtys : list Z) (w : World) :
  Forall2 (fun req qty => form_qty req = Ok qty) reqs qtys ->
  default 0 (PyDict.get product_id (cart_of (run (map (ACartAdd product_id) reqs) w)))
    = default 0 (PyDict.get product_id (cart_of w)) + added qtys /\
  forall other, product_id <> other ->
    PyDict.get other (cart_of (run (map (ACartAdd product_id) reqs) w))
    = PyDict.get other (cart_of w).
Proof.
  intros Hall. revert w.
  induction Hall as [|req qty reqs qtys Hq _ IH]; intros w; simpl.
  - split; [lia | reflexivity].
  - destruct (IH (step (ACartAdd product_id req) w)) as [IHq IHo].
    assert (Hcart : cart_of (step (ACartAdd product_id req) w)
              = PyDict.set product_id
                  (default 0 (PyDict.get product_id (cart_of w)) + Z.max qty 1)
                  (cart_of w)).
    { unfold cart_of. rewrite step_session. simpl. by rewrite Hq. }
    split.
    + rewrite IHq, Hcart, get_set_eq. simpl. lia.
    + intros other Hne. rewrite (IHo other Hne), Hcart. by apply get_set_ne.
Qed.

Lemma cart_adds_accumulate_witness :
  default 0
    (PyDict.get "A1"
       (cart_of (@run (table_libraries catalog_table)
                   (map (ACartAdd "A1")
                      [form_request "qty" "0"; form_request "qty" "5"])
                   cart_world)))
  = 2 + added [0; 5].
Proof.
  apply (@cart_adds_accumulate (table_libraries catalog_table) "A1"
           [form_request "qty" "0"; form_request "qty" "5"] [0; 5] cart_world).
  repeat constructor.
Defined.

(* ================================================================== *)
(** * Further properties of pricing and loading *)
(* ================================================================== *)

Lemma view_cart_loop_breakdown products (cart : list (string * Z)) items0 total0
    items total :
  view_cart_loop products cart items0 total0 = Ok (items, total) ->
  exists new,
    items = items0 ++ new /\
    Forall2 (item_of products) (resolved products cart) new /\
    total = fold_left fadd (map i_line_total new) total0.
Proof.
  unfold resolved. revert items0 total0.
  induction cart as [|[pid qty] cart IH]; intros items0 total0; simpl.
  - intros [= <- <-]. exists []. rewrite app_nil_r. repeat split. constructor.
  - destruct (products !! pid) as [p|] eqn:Hp.
    + destruct (times_qty (unit_price p) qty) as [lt|] eqn:Hlt; simpl;
        [|discriminate].
      intros Hloop. destruct (IH _ _ Hloop) as (new & -> & Hall & ->).
      exists (mkItem p qty (unit_price p) lt :: new).
      rewrite <- app_assoc. split; [reflexivity|]. split; [|reflexivity].
      rewrite filter_cons_True by (simpl; rewrite Hp; eauto).
      constructor; [|exact Hall]. repeat split; assumption.
    + intros Hloop. destruct (IH _ _ Hloop) as (new & -> & Hall & ->).
      exists new. split; [reflexivity|]. split; [|reflexivity].
      rewrite filter_cons_False; [exact Hall|].
      simpl. rewrite Hp. by intros [? ?].
Qed.

(** X5. When the pricing succeeds, its breakdown has one line per cart
    entry that resolves to a product, in the order of the cart; each line
    carries that product, the entry's quantity, the promo price when there
    is one and else the price, and their product as line total; the
    subtotal is the sum of the line totals, added from the first to the
    last starting at 0.0. *)
Theorem pricing_breakdown (cart : list (string * Z)) (loaded : list Product)
    (coupon_code : option string) (shipping : option float) (t : Totals) :
  pricing cart loaded coupon_code shipping = Ok t ->
  Forall2 (item_of (products_by_id loaded))
          (resolved (products_by_id loaded) cart) (t_items t) /\
  t_total_value t = fold_left fadd (map i_line_total (t_items t)) fzero.
Proof.
  unfold pricing.
  destruct (view_cart_loop (products_by_id loaded) cart [] fzero)
    as [[items total]|] eqn:Hloop; simpl; [|discriminate].
  intros [= <-]. simpl.
  destruct (view_cart_loop_breakdown _ _ _ _ _ _ Hloop) as (new & -> & Hall & ->).
  split; [exact Hall | reflexivity].
Qed.

Lemma pricing_breakdown_witness :
  exists t,
    pricing [("A1", 2); ("ZZ", 5); ("A2", 1)] catalog_products None None = Ok t /\
    Forall2 (item_of (products_by_id catalog_products))
            (resolved (products_by_id catalog_products)
                      [("A1", 2); ("ZZ", 5); ("A2", 1)])
            (t_items t).
Proof.
  destruct (pricing [("A1", 2); ("ZZ", 5); ("A2", 1)] catalog_products None None)
    as [t|e] eqn:E; [|vm_compute in E; discriminate].
  exists t. split; [reflexivity|].
  exact (proj1 (pricing_breakdown _ _ _ _ t E)).
Defined.

(** X6. The product dictionary of the cart view maps an id to the last
    loaded product that has it: when two rows of the table share an id, the
    later one prices the cart. *)
Theorem products_by_id_last (loaded : list Product) (k : string) :
  products_by_id loaded !! k = last (filter (fun p => p_id p = k) loaded).
Proof.
  unfold products_by_id.
  assert (Hgen : forall (m : gmap string Product),
            fold_left (fun m p => <[p_id p := p]> m) loaded m !! k
            = match last (filter (fun p => p_id p = k) loaded) with
              | Some p => Some p
              | None => m !! k
              end).
  { induction loaded as [|p loaded IH]; intros m; simpl; [reflexivity|].
    rewrite IH. destruct (decide (p_id p = k)) as [Hk|Hk].
    - rewrite filter_cons_True by assumption. rewrite last_cons.
      destruct (last (filter _ loaded)); [reflexivity|].
      rewrite Hk. apply lookup_insert_eq.
    - rewrite filter_cons_False by assumption.
      destruct (last (filter _ loaded)); [reflexivity|].
      by apply lookup_insert_ne. }
  rewrite Hgen. by destruct (last _).
Qed.

Lemma result_map_Ok {A B} (f : A -> result B) (l : list A) (l' : list B) :
  result_map f l = Ok l' <-> Forall2 (fun a b => f a = Ok b) l l'.
Proof.
  revert l'. induction l as [|a l IH]; intros l'; simpl.
  - split; [intros [= <-]; constructor | intros Hn; by apply Forall2_nil_inv_l in Hn as ->].
  - split.
    + destruct (f a) as [b|] eqn:Hb; simpl; [|discriminate].
      destruct (result_map f l) as [bs|] eqn:Hbs; simpl; [|discriminate].
      intros [= <-]. constructor; [exact Hb | by apply IH].
    + intros Hall. apply Forall2_cons_inv_l in Hall as (b & bs & Hb & Hall & ->).
      rewrite Hb. simpl. apply IH in Hall. rewrite Hall. reflexivity.
Qed.

Lemma result_map_Raise {A B} (f : A -> result B) (l : list A) :
  (exists e, result_map f l = Raise e) <-> Exists (fun a => exists e, f a = Raise e) l.
Proof.
  induction l as [|a l IH]; simpl.
  - split; [intros [e He]; discriminate | intros Hex; inversion Hex].
  - rewrite Exists_cons, <- IH. destruct (f a) as [b|e]; simpl.
    + destruct (result_map f l) as [bs|e']; simpl.
      * split; [intros [e He]; discriminate|].
        intros [[e He]|[e He]]; discriminate.
      * split; eauto.
    + split; eauto.
Qed.

Lemma price_fails_iff (c : cell) :
  (exists e, float_of_cell (cell_or c (CFloat fzero)) = Raise e) <-> bad_price c.
Proof.
  unfold cell_or, bad_price, converts.
  destruct c as [|b|z|f|s]; simpl.
  - split; [intros [e He]; discriminate | tauto].
  - destruct b; simpl; (split; [intros [e He]; discriminate | tauto]).
  - destruct (z =? 0) eqn:Hz; simpl.
    + apply Z.eqb_eq in Hz as ->.
      split; [intros [e He]; discriminate | discriminate].
    + destruct (float_of_int z); split; eauto; try discriminate.
      intros [e' He']. discriminate.
  - destruct (float_truthy f); simpl;
      (split; [intros [e He]; discriminate | tauto]).
  - destruct (PyStr.truthy s); simpl.
    + destruct (parse_float s); split; eauto.
      * intros [e He]. discriminate.
      * intros [_ ?]. discriminate.
    + split; [intros [e He]; discriminate | intros [? _]; discriminate].
Qed.

(** X7. With a readable products table, [load_products] raises exactly
    when some row has a price that cannot be converted (a non-empty text
    that is not a float literal, or an integer too large for a float);
    otherwise it returns one product per row, in row order, each with the
    id, price and promo price read from its row. *)
Theorem load_products_rows `{Libraries} (w : World) (df : DataFrame) :
  stored_table "products" w = Some df ->
  ((exists e, fst (load_products w) = Raise e) <->
   Exists (fun row => bad_price (row_get (df_columns df) row "price")) (df_rows df)) /\
  forall products,
    fst (load_products w) = Ok products ->
    Forall2
      (fun row p =>
         p_id p = str (row_get (df_columns df) row "id") /\
         float_of_cell (cell_or (row_get (df_columns df) row "price") (CFloat fzero))
           = Ok (p_price p) /\
         p_promo_price p = _safe_float (row_get (df_columns df) row "promo_price"))
      (df_rows df) products.
Proof.
  intros Hdf. rewrite load_products_eq, Hdf. simpl. split.
  - rewrite result_map_Raise. apply Exists_proper; [|reflexivity].
    intros row. rewrite <- price_fails_iff. unfold product_of_row.
    destruct (float_of_cell _); simpl; split; eauto; intros [e He]; discriminate.
  - intros products Hok. apply result_map_Ok in Hok.
    eapply Forall2_impl; [exact Hok|].
    intros row p. unfold product_of_row.
    destruct (float_of_cell _) as [price|]; simpl; [|discriminate].
    intros [= <-]. simpl. auto.
Qed.

Lemma load_products_rows_witness :
  exists e,
    fst (@load_products (table_libraries bad_price_table) products_csv_world)
    = Raise e.
Proof.
  apply (proj1 (@load_products_rows (table_libraries bad_price_table)
                  products_csv_world bad_price_table eq_refl)).
  apply Exists_cons. right. apply Exists_cons. left.
  split; vm_compute; reflexivity.
Defined.

(* ================================================================== *)
(** * Further properties of the exports *)
(* ================================================================== *)

(** X8. When the top line of a page is not below the bottom margin, the
    item lines of the PDF export are never drawn below the margin: a new
    page is started first; and every item gets its four texts. *)
Theorem pdf_lines_margin `{Libraries} (items : list (string * Z * float * float))
    (y : float) (ops : list canvas_op) :
  flt (fsub a4_height (of_Z 40)) (of_Z 60) = false ->
  exists new,
    fst (pdf_lines items y ops) = ops ++ new /\
    Forall above_margin new /\
    length (filter (fun op => is_Some (drawn_at op)) new) = (4 * length items)%nat.
Proof.
  intros Htop. revert y ops.
  induction items as [|[[[name qty] price] line_total] items IH]; intros y ops.
  - exists []. simpl. rewrite app_nil_r. repeat split. constructor.
  - cbn [pdf_lines]. destruct (flt y (of_Z 60)) eqn:Hy.
    + destruct (IH (fsub (fsub a4_height (of_Z 40)) (of_Z 18))
                  ((ops ++ [ShowPage]) ++
                   [DrawString 40 (fsub a4_height (of_Z 40)) name;
                    DrawRightString 300 (fsub a4_height (of_Z 40)) (pretty qty);
                    DrawRightString 380 (fsub a4_height (of_Z 40))
                      ("R$ " +:+ format_2f price);
                    DrawRightString 500 (fsub a4_height (of_Z 40))
                      ("R$ " +:+ format_2f line_total)]))
        as (new & Heq & Hall & Hlen).
      eexists (ShowPage :: _ :: _ :: _ :: _ :: new).
      split; [rewrite Heq; by rewrite <- !app_assoc|].
      split.
      * repeat (constructor; [first [exact I | exact Htop]|]). exact Hall.
      * rewrite filter_cons_False by (simpl; by intros [? ?]).
        rewrite !filter_cons_True by (simpl; eauto).
        simpl. rewrite Hlen. lia.
    + destruct (IH (fsub y (of_Z 18))
                  (ops ++
                   [DrawString 40 y name;
                    DrawRightString 300 y (pretty qty);
                    DrawRightString 380 y ("R$ " +:+ format_2f price);
                    DrawRightString 500 y ("R$ " +:+ format_2f line_total)]))
        as (new & Heq & Hall & Hlen).
      eexists (_ :: _ :: _ :: _ :: new).
      split; [rewrite Heq; by rewrite <- !app_assoc|].
      split.
      * repeat (constructor; [exact Hy|]). exact Hall.
      * rewrite !filter_cons_True by (simpl; eauto).
        simpl. rewrite Hlen. lia.
Qed.

Lemma pdf_lines_margin_witness :
  exists new,
    fst (@pdf_lines (table_libraries catalog_table)
           [("Produto A1", 2, fone, fone)] (of_Z 50) [])
    = [] ++ new /\
    Forall above_margin new.
Proof.
  destruct (@pdf_lines_margin (table_libraries catalog_table)
              [("Produto A1", 2, fone, fone)] (of_Z 50) [])
    as (new & Heq & Hall & _).
  - vm_compute. reflexivity.
  - exists new. split; assumption.
Defined.

Lemma comma_no_dot (s : string) : no_dot (comma s).
Proof.
  unfold no_dot, comma. rewrite list_ascii_of_string_of_list_ascii.
  intros Hin. apply list_elem_of_fmap in Hin as (a & Ha & _).
  destruct (Ascii.eqb_spec a "."); [discriminate | congruence].
Qed.

Lemma csv_loop_rows products (cart : list (string * Z)) rows0 rows :
  csv_loop products cart rows0 = Ok rows ->
  exists new,
    rows = rows0 ++ new /\
    length new = length (resolved products cart) /\
    Forall (fun row => exists sku nome qtd preco total,
              row = [sku; nome; qtd; preco; total] /\
              no_dot preco /\ no_dot total) new.
Proof.
  unfold resolved. revert rows0.
  induction cart as [|[pid qty] cart IH]; intros rows0; simpl.
  - intros [= <-]. exists []. rewrite app_nil_r. repeat split. constructor.
  - destruct (products !! pid) as [p|] eqn:Hp.
    + destruct (times_qty (unit_price p) qty) as [lt|]; simpl; [|discriminate].
      intros Hloop. destruct (IH _ Hloop) as (new & -> & Hlen & Hall).
      eexists (_ :: new). rewrite <- app_assoc. split; [reflexivity|].
      rewrite filter_cons_True by (simpl; rewrite Hp; eauto).
      split; [simpl; by rewrite Hlen|].
      constructor; [|exact Hall].
      do 5 eexists. split; [reflexivity|]. split; apply comma_no_dot.
    + intros Hloop. destruct (IH _ Hloop) as (new & -> & Hlen & Hall).
      exists new. split; [reflexivity|]. split; [|exact Hall].
      rewrite filter_cons_False; [exact Hlen|].
      simpl. rewrite Hp. by intros [? ?].
Qed.

(** X9. Whenever the CSV export sends a file, its first row is the header
    and every other row has five fields, the two amounts without a [.]
    (the decimal separator is a comma); the cart was not empty and the
    products were loaded. *)
Theorem export_csv_shape `{Libraries} (w : World) (name : string)
    (rows : list (list string)) :
  fst (export_cart_csv w) = Ok (SendFile name (CsvText rows)) ->
  cart_of w <> [] /\
  exists loaded data,
    fst (load_products w) = Ok loaded /\
    rows = ["SKU"; "Nome"; "Quantidade"; "PrecoUnitario"; "TotalLinha"] :: data /\
    length data = length (resolved (products_by_id loaded) (cart_of w)) /\
    Forall (fun row => exists sku nome qtd preco total,
              row = [sku; nome; qtd; preco; total] /\
              no_dot preco /\ no_dot total) data.
Proof.
  unfold export_cart_csv, _get_cart, bind, get_session, lift, cart_of. simpl.
  generalize (default [] (s_cart (w_session w))). intros cart.
  destruct (PyDict.truthy cart) eqn:Hcart; simpl; [|discriminate].
  intros Hexp. split; [by destruct cart|].
  rewrite load_products_eq in *. simpl in *.
  destruct (match stored_table "products" w with
            | Some df => _ | None => _ end) as [loaded|]; simpl in *;
    [|discriminate].
  destruct (csv_loop (products_by_id loaded) cart _) as [rows'|] eqn:Hloop;
    simpl in *; [|discriminate].
  injection Hexp as _ <-.
  destruct (csv_loop_rows _ _ _ _ Hloop) as (new & -> & Hlen & Hall).
  exists loaded, new. repeat split; assumption.
Qed.

Lemma export_csv_shape_witness :
  cart_of cart_world <> [] /\
  fst (@export_cart_csv (table_libraries catalog_table) cart_world)
  = Ok (SendFile "carrinho.csv"
          (CsvText [["SKU"; "Nome"; "Quantidade"; "PrecoUnitario"; "TotalLinha"];
                    ["A1"; "Produto A1"; "2"; "1,00"; "2,00"];
                    ["A3"; "Produto A3"; "1"; "2,50"; "2,50"]])).
Proof.
  assert (Hexp : fst (@export_cart_csv (table_libraries catalog_table) cart_world)
    = Ok (SendFile "carrinho.csv"
            (CsvText [["SKU"; "Nome"; "Quantidade"; "PrecoUnitario"; "TotalLinha"];
                      ["A1"; "Produto A1"; "2"; "1,00"; "2,00"];
                      ["A3"; "Produto A3"; "1"; "2,50"; "2,50"]])))
    by (vm_compute; reflexivity).
  split; [|exact Hexp].
  exact (proj1 (@export_csv_shape (table_libraries catalog_table) cart_world
                  _ _ Hexp)).
Defined.

(* ================================================================== *)
(** * Further properties of the imports *)
(* ================================================================== *)

Lemma list_ascii_app (a b : string) :
  list_ascii_of_string (a +:+ b) = list_ascii_of_string a ++ list_ascii_of_string b.
Proof. induction a as [|c a IH]; simpl; [reflexivity | by rewrite IH]. Qed.

Lemma after_last_dot_app (l1 l2 : list ascii) (acc : option (list ascii)) :
  after_last_dot (l1 ++ l2) acc = after_last_dot l2 (after_last_dot l1 acc).
Proof.
  revert acc. induction l1 as [|c l1 IH]; intros acc; simpl; [reflexivity|].
  destruct (Ascii.eqb c "."); apply IH.
Qed.

Lemma after_last_dot_plain (l : list ascii) (acc : option (list ascii)) :
  "."%char ∉ l -> after_last_dot l acc = (fun pre => pre ++ l) <$> acc.
Proof.
  revert acc. induction l as [|c l IH]; intros acc Hl; simpl.
  - destruct acc; simpl; [by rewrite app_nil_r | reflexivity].
  - apply not_elem_of_cons in Hl as [Hc Hl].
    destruct (Ascii.eqb_spec c "."); [congruence|].
    rewrite IH by assumption. destruct acc; simpl; [|reflexivity].
    by rewrite <- app_assoc.
Qed.

(** X10. The extension that the import handlers test is the text after the
    last [.] of the file name, in lower case, so [DADOS.CSV] and
    [a.b.Xlsx] are accepted; a name without a [.] has the empty
    extension, even when the name itself is [csv]. *)
Theorem extension_last_dot (base ext : string) :
  no_dot ext ->
  extension (base +:+ "." +:+ ext) = PyStr.py_lower ext /\
  extension ext = EmptyString.
Proof.
  unfold no_dot, extension. intros Hext. split.
  - rewrite !list_ascii_app, after_last_dot_app. simpl.
    rewrite after_last_dot_plain by assumption. simpl.
    by rewrite string_of_list_ascii_of_string.
  - rewrite after_last_dot_plain by assumption. reflexivity.
Qed.

Lemma extension_last_dot_witness :
  extension ("relatorio.2024" +:+ "." +:+ "XLSX") = "xlsx" /\
  extension "csv" = EmptyString.
Proof.
  apply (extension_last_dot "relatorio.2024" "XLSX").
  unfold no_dot. compute_done.
Defined.

Lemma stored_table_files `{Libraries} (name : string) (w w' : World) :
  w_files w' = w_files w -> stored_table name w' = stored_table name w.
Proof. intros Hf. unfold stored_table, readable. by rewrite Hf. Qed.

(** X11. After an administrator imports a products table and the workbook
    is written, the store reads back as the normalised table and
    [load_products] builds its products from it, provided the spreadsheet
    reader inverts the writer on that workbook, or fails on it while the
    csv reader inverts the csv writer: each of the two files alone
    reproduces the import. *)
Theorem import_then_load `{Libraries} (req : Request) (w : World)
    (df : DataFrame) (workbook : bytes) :
  is_administrator w = true ->
  upload_table req = Some df ->
  to_excel (w_clock w) (enforce_columns products_cols df) = XlsxWritten workbook ->
  read_excel workbook = Some (enforce_columns products_cols df) \/
  (read_excel workbook = None /\
   read_csv (to_csv (enforce_columns products_cols df))
    = Some (enforce_columns products_cols df)) ->
  stored_table "products" (products_import_submit req w).2
    = Some (enforce_columns products_cols df) /\
  fst (load_products (products_import_submit req w).2)
    = result_map (product_of_row products_cols)
        (df_rows (enforce_columns products_cols df)).
Proof.
  intros Hadm Hup Hwritten Hread.
  destruct save_functions as (_ & _ & Hp).
  destruct (import_submit_files "products" products_cols
              _save_products_dataframe "catalog.products_import_page"
              "Produtos importados com sucesso." req w Hp)
    as (r & w1 & Heq & Hfiles & _).
  unfold products_import_submit. rewrite Heq. simpl.
  unfold stored_after_import, stored_after_save in Hfiles.
  rewrite Hadm, Hup, Hwritten in Hfiles.
  assert (Hst : stored_table "products" w1 = Some (enforce_columns products_cols df)).
  { unfold stored_table, readable. rewrite Hfiles.
    rewrite lookup_insert_ne by discriminate.
    rewrite lookup_insert_eq. simpl.
    destruct Hread as [-> | [-> Hcsv]]; [reflexivity|].
    rewrite lookup_insert_eq. simpl. exact Hcsv. }
  split; [exact Hst|].
  rewrite load_products_eq, Hst. reflexivity.
Qed.

Lemma import_then_load_witness :
  let L := table_libraries (enforce_columns products_cols catalog_table) in
  stored_table (H := L) "products"
    (@products_import_submit L (upload_request "produtos.csv") admin_world).2
  = Some (enforce_columns products_cols catalog_table).
Proof.
  intros L.
  assert (Hidem : enforce_columns products_cols
                    (enforce_columns products_cols catalog_table)
                  = enforce_columns products_cols catalog_table)
    by apply enforce_columns_idempotent.
  pose proof (@import_then_load L (upload_request "produtos.csv") admin_world
                (enforce_columns products_cols catalog_table)
                [Byte.x01; Byte.x00]) as Hthm.
  rewrite Hidem in Hthm.
  apply Hthm.
  - vm_compute. reflexivity.
  - reflexivity.
  - reflexivity.
  - left. reflexivity.
Defined.

Section Rejected.
Context `{Libraries}.

Lemma import_submit_rejected save page success (req : Request) (w : World) :
  accepted req = false ->
  exists r w',
    import_submit save page success req w = (Ok r, w') /\
    w_files w' = w_files w /\
    exists evs, w_trace w' = w_trace w ++ evs /\ Forall quiet_event evs.
Proof.
  intros Hacc. unfold import_submit, bind.
  destruct (require_admin_spec w) as (w1 & Hreq & (F1 & _ & _ & _ & T1)).
  rewrite Hreq. unfold accepted in Hacc.
  destruct (is_administrator w).
  2:{ do 2 eexists. split; [reflexivity|]. simpl. auto. }
  destruct (r_file req) as [file|].
  2:{ do 2 eexists. split; [reflexivity|]. simpl. auto. }
  destruct (PyStr.truthy (u_filename file)); simpl in *.
  2:{ do 2 eexists. split; [reflexivity|]. simpl. auto. }
  destruct (String.eqb (extension (secure_filename (u_filename file))) "xlsx");
    [discriminate|].
  destruct (String.eqb (extension (secure_filename (u_filename file))) "csv");
    [discriminate|].
  do 2 eexists. split; [reflexivity|]. simpl. auto.
Qed.

End Rejected.

(** X12. An import request without a file, with an unnamed file or with an
    extension other than [xlsx] and [csv] is answered without reading the
    upload and leaves every tabular file as it was, whoever sends it. *)
Theorem rejected_upload_untouched `{Libraries} (req : Request) (w : World) :
  accepted req = false ->
  Forall
    (fun handler : Request -> M response =>
       exists r w',
         handler req w = (Ok r, w') /\
         w_files w' = w_files w /\
         exists evs, w_trace w' = w_trace w ++ evs /\ Forall quiet_event evs)
    [clients_import_submit; suppliers_import_submit; products_import_submit].
Proof.
  intros Hacc. repeat constructor; by apply import_submit_rejected.
Qed.

Lemma rejected_upload_untouched_witness :
  exists r w',
    @products_import_submit (table_libraries catalog_table)
      (upload_request "produtos.txt") admin_world = (Ok r, w') /\
    w_files w' = w_files admin_world.
Proof.
  pose proof (@rejected_upload_untouched (table_libraries catalog_table)
                (upload_request "produtos.txt") admin_world eq_refl) as Hall.
  apply Forall_cons in Hall as [_ Hall].
  apply Forall_cons in Hall as [_ Hall].
  apply Forall_cons in Hall as [(r & w' & Heq & Hfiles & _) _].
  exists r, w'. split; assumption.
Defined.

(** X13. The three import pages are shown exactly to the administrator:
    any other session is answered with the authorization message and a
    redirect to the index. Neither case changes the tabular files or the
    session. *)
Theorem import_pages_admin_only `{Libraries} (w : World) :
  Forall
    (fun handler : M reply =>
       exists r w',
         handler w = (Ok r, w') /\
         w_files w' = w_files w /\
         w_session w' = w_session w /\
         if is_administrator w then exists p, r = Show p
         else r = Goto "catalog.index" /\
              w_flashes w' = w_flashes w ++ [restricted])
    import_pages.
Proof.
  unfold import_pages.
  repeat constructor;
    unfold clients_import_page, suppliers_import_page, products_import_page, bind;
    destruct (require_admin_spec w) as (w1 & Hreq & (F1 & S1 & L1 & _));
    rewrite Hreq; destruct (is_administrator w).
  all: try (do 2 eexists; split; [reflexivity|]; simpl; rewrite L1; by auto).
  all: destruct (current_user_spec w1) as (user & w2 & Huser & (F2 & S2 & _) & _);
    rewrite Huser; do 2 eexists; (split; [reflexivity|]); simpl;
    rewrite F2, S2; eauto.
Qed.

(* ================================================================== *)
(** * Users: login, logout, checkout *)
(* ================================================================== *)

Section Users.
Context `{Libraries}.

Lemma stored_clients_files (w w' : World) :
  w_files w' = w_files w -> stored_clients w' = stored_clients w.
Proof. intros Hf. unfold stored_clients. by rewrite (stored_table_files _ w w' Hf). Qed.

Lemma load_clients_stored (w : World) :
  exists w', load_clients w = (Ok (stored_clients w), w') /\ reads_only w w'.
Proof.
  rewrite load_clients_eq. eexists. split; [reflexivity|].
  apply reads_only_logged, read_attempts_quiet.
Qed.

Lemma find_Some_iff {A} (f : A -> bool) (l : list A) :
  is_Some (find f l) <-> exists x, x ∈ l /\ f x = true.
Proof.
  split.
  - intros [x Hx]. apply find_some in Hx as [Hin Hf].
    exists x. split; [by apply list_elem_of_In | exact Hf].
  - intros (x & Hin & Hf). destruct (find f l) eqn:E; [eauto|].
    apply list_elem_of_In in Hin.
    pose proof (find_none f l E x Hin). congruence.
Qed.


Lemma current_user_signed_in (w : World) :
  exists user w',
    _get_current_user w = (Ok user, w') /\ reads_only w w' /\
    (is_Some user <-> signed_in w).
Proof.
  unfold _get_current_user, signed_in, bind, get_session. simpl.
  destruct (s_user_email (w_session w)) as [e|] eqn:He; simpl.
  2:{ exists None, w. split; [reflexivity|]. split; [reflexivity|].
      split; [intros [? ?]; discriminate | intros (e & ? & _); discriminate]. }
  destruct (PyStr.truthy e) eqn:Htruthy; simpl.
  2:{ exists None, w. split; [reflexivity|]. split; [reflexivity|].
      split; [intros [? ?]; discriminate|].
      intros (e' & [= <-] & Ht & _). congruence. }
  destruct (load_admin_spec w) as (w1 & Hadmin & R1). rewrite Hadmin.
  destruct (bool_decide_reflect (admin_of w !! "email" = Some e)) as [Hmail|Hmail].
  - eexists _, w1. split; [reflexivity|]. split; [exact R1|].
    split; [|eauto]. intros _. exists e. auto.
  - destruct (load_clients_stored w1) as (w2 & Hclients & R2).
    rewrite Hclients. simpl. eexists _, w2. split; [reflexivity|].
    split; [by etransitivity|].
    rewrite (stored_clients_files w w1) by apply R1.
    rewrite find_Some_iff. split.
    + intros (c & Hin & Hc). apply String.eqb_eq in Hc.
      exists e. repeat split; [assumption|]. right. eauto.
    + intros (e' & [= <-] & _ & [Hm | (c & Hin & Hc)]); [congruence|].
      exists c. split; [exact Hin|]. by apply String.eqb_eq.
Qed.

(** What [login_submit] does, by whether the credentials match. *)
Lemma login_submit_outcome (req : Request) (next : option string) (w : World) :
  exists w',
    (login_submit req next w).2 = w' /\
    w_files w' = w_files w /\ admin_of w' = admin_of w /\
    ((credentials_match w (login_email req) (login_password req) /\
      fst (login_submit req next w) = Ok (Goto (login_target next)) /\
      w_session w' = mkSession (s_cart (w_session w)) (Some (login_email req))
                       (s_coupon_code (w_session w))
                       (s_shipping_value (w_session w))) \/
     (~ credentials_match w (login_email req) (login_password req) /\
      fst (login_submit req next w) = Ok (Goto "catalog.login_page") /\
      w_session w' = w_session w /\
      exists before, w_flashes w' = before ++ ["Credenciais inválidas."])).
Proof.
  unfold login_submit, bind, get_session, credentials_match.
  fold (login_email req) (login_password req) (login_target next).
  destruct (load_admin_spec w) as (w1 & Hadmin & (F1 & S1 & L1 & A1 & _)).
  rewrite Hadmin. simpl.
  destruct (load_clients_stored w1) as (w2 & Hclients & (F2 & S2 & L2 & A2 & _)).
  rewrite (stored_clients_files w w1 F1) in Hclients.
  assert (Hfound : forall c,
    find (fun c => String.eqb (c_email c) (login_email req)
                   && String.eqb (c_password c) (login_password req))
         (stored_clients w) = Some c ->
    c ∈ stored_clients w /\ c_email c = login_email req /\
    c_password c = login_password req).
  { intros c Hfind. apply find_some in Hfind as [Hin Hc].
    apply andb_true_iff in Hc as [Hce Hcp].
    apply String.eqb_eq in Hce, Hcp. split; [by apply list_elem_of_In | auto]. }
  assert (Hnone :
    find (fun c => String.eqb (c_email c) (login_email req)
                   && String.eqb (c_password c) (login_password req))
         (stored_clients w) = None ->
    ~ exists c, c ∈ stored_clients w /\ c_email c = login_email req /\
                c_password c = login_password req).
  { intros Hfind (c & Hin & Hce & Hcp). apply list_elem_of_In in Hin.
    pose proof (find_none _ _ Hfind c Hin) as Hno. simpl in Hno.
    rewrite Hce, Hcp, !String.eqb_refl in Hno. discriminate. }
  destruct (bool_decide_reflect (admin_of w !! "email" = Some (login_email req)))
    as [He|He];
    destruct (bool_decide_reflect
                (admin_of w !! "password" = Some (login_password req)))
      as [Hp|Hp]; simpl.
  1:{ eexists. split; [reflexivity|]. simpl. rewrite S1.
      split; [exact F1|]. split; [exact A1|]. left. auto. }
  all: rewrite Hclients; simpl;
    destruct (find _ (stored_clients w)) as [c|] eqn:Hfind; simpl;
    eexists; (split; [reflexivity|]); simpl;
    (split; [congruence|]);
    (split; [transitivity (admin_of w2); [reflexivity | congruence]|]).
  all: try (destruct (Hfound c eq_refl) as (Hin & Hce & Hcp);
            left; rewrite Hce, S1; split; [right; by eauto | auto]).
  all: right; rewrite S2, S1; (split; [|by eauto]);
    intros [[He' Hp'] | Hc]; [congruence | by apply (Hnone eq_refl)].
Qed.

End Users.

(** X14. A login whose stripped e-mail and password are those of the
    administrator record or of a stored client signs the session in under
    that e-mail, keeps cart, coupon and shipping, and goes to the [next]
    address or the index; any other login leaves the session as it was,
    flashes the invalid-credentials message and returns to the login page.
    Neither touches the tabular files. *)
Theorem login_checks_credentials `{Libraries} (req : Request)
    (next : option string) (w : World) :
  w_files (login_submit req next w).2 = w_files w /\
  (credentials_match w (login_email req) (login_password req) ->
   fst (login_submit req next w) = Ok (Goto (login_target next)) /\
   w_session (login_submit req next w).2
   = mkSession (s_cart (w_session w)) (Some (login_email req))
               (s_coupon_code (w_session w)) (s_shipping_value (w_session w))) /\
  (~ credentials_match w (login_email req) (login_password req) ->
   fst (login_submit req next w) = Ok (Goto "catalog.login_page") /\
   w_session (login_submit req next w).2 = w_session w /\
   exists before,
     w_flashes (login_submit req next w).2 = before ++ ["Credenciais inválidas."]).
Proof.
  destruct (login_submit_outcome req next w)
    as (w' & -> & Hf & _ & [(Hm & Hr & Hs) | (Hm & Hr & Hs & Hfl)]).
  - split; [exact Hf|]. split; [auto | tauto].
  - split; [exact Hf|]. split; [tauto | auto].
Qed.

Lemma login_checks_credentials_witness :
  let L := table_libraries clients_table in
  credentials_match (H := L) clients_csv_world "demo@teste.com" "123456" /\
  s_user_email
    (w_session (@login_submit L (login_request " demo@teste.com " "123456") None
                  clients_csv_world).2)
  = Some "demo@teste.com".
Proof.
  intros L.
  assert (Hm : credentials_match (H := L) clients_csv_world
                 (login_email (login_request " demo@teste.com " "123456"))
                 (login_password (login_request " demo@teste.com " "123456"))).
  { right. eexists. split; [apply list_elem_of_here|]. split; reflexivity. }
  split; [exact Hm|].
  destruct (proj1 (proj2 (@login_checks_credentials L
              (login_request " demo@teste.com " "123456") None clients_csv_world))
              Hm) as [_ ->].
  reflexivity.
Defined.

(** X15. Whoever logs in under the administrator's e-mail becomes the
    administrator, also when the password was that of a stored client with
    the same e-mail and not the administrator's. *)
Theorem login_with_admin_email `{Libraries} (req : Request)
    (next : option string) (w : World) (c : Client) :
  c ∈ stored_clients w ->
  c_email c = login_email req ->
  c_password c = login_password req ->
  admin_of w !! "email" = Some (login_email req) ->
  PyStr.truthy (login_email req) = true ->
  is_administrator (login_submit req next w).2 = true.
Proof.
  intros Hin Hce Hcp Hadm Htruthy.
  destruct (login_submit_outcome req next w)
    as (w' & -> & _ & Ha & [(_ & _ & Hs) | (Hm & _)]).
  - unfold is_administrator. rewrite Hs, Ha. simpl. rewrite Htruthy. simpl.
    by apply bool_decide_eq_true_2.
  - exfalso. apply Hm. right. eauto.
Qed.

Lemma login_with_admin_email_witness :
  let L := table_libraries clients_table in
  admin_of clients_csv_world !! "password" <> Some "segredo" /\
  is_administrator
    (@login_submit L (login_request "swinck@gmail.com" "segredo") None
       clients_csv_world).2 = true.
Proof.
  intros L. split; [vm_compute; discriminate|].
  apply (@login_with_admin_email L (login_request "swinck@gmail.com" "segredo")
           None clients_csv_world
           (mkClient "c2" "Outro" "swinck@gmail.com" "segredo"
                     None None None None None)).
  - apply list_elem_of_further, list_elem_of_here.
  - reflexivity.
  - reflexivity.
  - vm_compute. reflexivity.
  - reflexivity.
Defined.

(** X16. After a logout the session has no user and is not the
    administrator's; its cart and coupon are kept; and every import request
    that follows is refused, the tabular files staying as they were. *)
Theorem logout_ends_session `{Libraries} (w : World) :
  fst (logout w) = Ok (Goto "catalog.index") /\
  anonymous (logout w).2 /\
  is_administrator (logout w).2 = false /\
  cart_of (logout w).2 = cart_of w /\
  s_coupon_code (w_session (logout w).2) = s_coupon_code (w_session w) /\
  Forall
    (fun handler : Request -> M response =>
       forall req, exists w2,
         handler req (logout w).2 = (Ok (Redirect "catalog.index"), w2) /\
         w_files w2 = w_files w)
    [clients_import_submit; suppliers_import_submit; products_import_submit].
Proof.
  assert (Hadm : is_administrator (logout w).2 = false) by reflexivity.
  assert (Hone : forall save page success req,
            exists w2,
              import_submit save page success req (logout w).2
              = (Ok (Redirect "catalog.index"), w2) /\
              w_files w2 = w_files w).
  { intros save page success req.
    destruct (import_submit_refused save page success req _ Hadm)
      as (w1 & (F & _) & Heq).
    eexists. split; [apply Heq | exact F]. }
  split; [reflexivity|]. split; [exact I|]. split; [exact Hadm|].
  split; [reflexivity|]. split; [reflexivity|].
  apply Forall_cons_2; [intros req; apply Hone|].
  apply Forall_cons_2; [intros req; apply Hone|].
  apply Forall_cons_2; [intros req; apply Hone|].
  apply Forall_nil_2.
Qed.



Lemma exports_of_empty_cart `{Libraries} (w : World) :
  cart_of w = [] ->
  fst (export_cart_xlsx w) = Ok (Redirect "catalog.view_cart") /\
  fst (export_cart_pdf w) = Ok (Redirect "catalog.view_cart") /\
  fst (export_cart_csv w) = Ok (Redirect "catalog.view_cart").
Proof.
  unfold cart_of. intros Hcart. split; [|split].
  - unfold export_cart_xlsx, _get_cart, bind, get_session. simpl.
    by rewrite Hcart.
  - unfold export_cart_pdf, _get_cart, bind, get_session.
    destruct has_reportlab; simpl; [|reflexivity]. by rewrite Hcart.
  - unfold export_cart_csv, _get_cart, bind, get_session. simpl.
    by rewrite Hcart.
Qed.

(** X18. The checkout of a signed-in session empties the cart and goes to
    the index; the user, the coupon and the tabular files stay as they
    were; and each export that follows produces no file and returns to the
    cart. *)
Theorem checkout_empties_cart `{Libraries} (w : World) :
  signed_in w ->
  fst (checkout_submit w) = Ok (Goto "catalog.index") /\
  cart_of (checkout_submit w).2 = [] /\
  s_user_email (w_session (checkout_submit w).2) = s_user_email (w_session w) /\
  s_coupon_code (w_session (checkout_submit w).2) = s_coupon_code (w_session w) /\
  w_files (checkout_submit w).2 = w_files w /\
  fst (export_cart_xlsx (checkout_submit w).2) = Ok (Redirect "catalog.view_cart") /\
  fst (export_cart_pdf (checkout_submit w).2) = Ok (Redirect "catalog.view_cart") /\
  fst (export_cart_csv (checkout_submit w).2) = Ok (Redirect "catalog.view_cart").
Proof.
  intros Hin.
  destruct (current_user_signed_in w) as (user & w1 & Huser & (F1 & S1 & _) & Hiff).
  destruct (proj2 Hiff Hin) as [u Hu]. subst user.
  assert (Hcart : cart_of (checkout_submit w).2 = []).
  { unfold checkout_submit, bind. rewrite Huser. reflexivity. }
  split; [unfold checkout_submit, bind; by rewrite Huser|].
  split; [exact Hcart|].
  split; [unfold checkout_submit, bind; rewrite Huser; simpl; by rewrite S1|].
  split; [unfold checkout_submit, bind; rewrite Huser; simpl; by rewrite S1|].
  split; [unfold checkout_submit, bind; rewrite Huser; exact F1|].
  apply exports_of_empty_cart, Hcart.
Qed.

Lemma checkout_empties_cart_witness :
  let L := table_libraries clients_table in
  signed_in (H := L) (with_user "demo@teste.com" clients_csv_world) /\
  cart_of (@checkout_submit L (with_user "demo@teste.com" clients_csv_world)).2 = [].
Proof.
  intros L.
  assert (Hin : signed_in (H := L) (with_user "demo@teste.com" clients_csv_world)).
  { exists "demo@teste.com". repeat split. right.
    eexists. split; [apply list_elem_of_here | reflexivity]. }
  split; [exact Hin|].
  exact (proj1 (proj2 (@checkout_empties_cart L _ Hin))).
Defined.

Lemma updated_email (e : string) (password : option string)
    (data : gmap string string) :
  PyStr.truthy e = true ->
  updated "password" password (updated "email" (Some e) data) !! "email" = Some e.
Proof.
  intros Htruthy. unfold updated. rewrite Htruthy.
  destruct password as [p|]; [destruct (PyStr.truthy p)|];
    rewrite ?lookup_insert_ne by discriminate; apply lookup_insert_eq.
Qed.

(** X19. [save_admin] leaves a record that parses and that [load_admin]
    returns: the record before (the defaults when the file was missing or
    corrupt) with the e-mail and the password replaced by the arguments
    that are given and not empty. A session under the e-mail then stored is
    the administrator's. Session and tabular files are untouched. *)
Theorem save_admin_updates (email password : option string) (w : World) :
  w_admin (save_admin email password w).2
    = Some (JsonObj (updated "password" password
                       (updated "email" email (admin_of w)))) /\
  (exists w', load_admin (save_admin email password w).2
              = (Ok (updated "password" password
                       (updated "email" email (admin_of w))), w')) /\
  w_session (save_admin email password w).2 = w_session w /\
  w_files (save_admin email password w).2 = w_files w /\
  forall e,
    email = Some e -> PyStr.truthy e = true ->
    is_administrator (with_user e (save_admin email password w).2) = true.
Proof.
  destruct (load_admin_spec w) as (w1 & Hadmin & (F1 & S1 & _)).
  assert (Hw : w_admin (save_admin email password w).2
               = Some (JsonObj (updated "password" password
                                  (updated "email" email (admin_of w))))).
  { unfold save_admin, bind. rewrite Hadmin. reflexivity. }
  split; [exact Hw|]. split; [|split; [|split]].
  - destruct (load_admin_spec (save_admin email password w).2) as (w' & Hl & _).
    exists w'. rewrite Hl. unfold admin_of. by rewrite Hw.
  - unfold save_admin, bind. rewrite Hadmin. exact S1.
  - unfold save_admin, bind. rewrite Hadmin. exact F1.
  - intros e -> Htruthy. unfold is_administrator, admin_of. simpl.
    rewrite Hw, Htruthy. simpl. apply bool_decide_eq_true_2.
    by apply updated_email.
Qed.

Lemma save_admin_updates_witness :
  is_administrator
    (with_user "novo@loja.com"
       (save_admin (Some "novo@loja.com") None clients_csv_world).2) = true.
Proof.
  apply (proj2 (proj2 (proj2 (proj2
           (save_admin_updates (Some "novo@loja.com") None clients_csv_world))))
           "novo@loja.com" eq_refl eq_refl).
Defined.

(* ================================================================== *)
(** * Pages that only read, and the supplier catalog *)
(* ================================================================== *)

Section Pages.
Context `{Libraries}.

Lemma load_suppliers_eq (w : World) :
  load_suppliers w =
    (Ok (match stored_table "suppliers" w with
         | None => []
         | Some df => map (supplier_of_row (df_columns df)) (df_rows df)
         end),
     logged (read_attempts "suppliers" w) w).
Proof.
  unfold load_suppliers, bind. rewrite read_tabular_eq.
  destruct (stored_table "suppliers" w); reflexivity.
Qed.

Lemma reads_only_load_products : respects reads_only load_products.
Proof.
  intros w. rewrite load_products_eq. apply reads_only_logged, read_attempts_quiet.
Qed.

Lemma reads_only_load_suppliers : respects reads_only load_suppliers.
Proof.
  intros w. rewrite load_suppliers_eq. apply reads_only_logged, read_attempts_quiet.
Qed.

Lemma reads_only_current_user : respects reads_only _get_current_user.
Proof.
  intros w. destruct (current_user_spec w) as (user & w' & -> & R & _). exact R.
Qed.

End Pages.

Ltac reads_only_base :=
  first [ apply reads_only_load_products | apply reads_only_load_suppliers
        | apply reads_only_current_user ].

(** X20. The index, the supplier catalog, the login form, the checkout
    page, the account page and the cart view only read: whatever they
    answer, and also when they raise, the tabular files, the session and
    the flashed messages are as before, and the only file they may create
    is the administrator record on its first use. *)
Theorem pages_only_read `{Libraries} (supplier_id : string) (arg : option string) :
  respects reads_only index /\
  respects reads_only (supplier_catalog supplier_id arg) /\
  respects reads_only login_page /\
  respects reads_only checkout_page /\
  respects reads_only account_page /\
  respects reads_only view_cart.
Proof.
  unfold index, supplier_catalog, login_page, checkout_page, account_page,
    view_cart, _get_cart.
  cbv zeta.
  refine (conj _ (conj _ (conj _ (conj _ (conj _ _)))));
    frame_with reads_only_base.
Qed.

Lemma total_pages_of_ge (total pages : Z) :
  total_pages_of total = Ok pages -> 1 <= pages.
Proof.
  unfold total_pages_of.
  destruct (true_div total 9) as [q|]; simpl; [|discriminate].
  destruct (ceil q) as [c|]; simpl; [|discriminate].
  intros [= <-]. lia.
Qed.

Lemma py_slice_page {A} (l : list A) (start : Z) :
  0 <= start -> py_slice l start (start + 9) = take 9 (drop (Z.to_nat start) l).
Proof.
  intros Hstart. unfold py_slice, slice_index.
  destruct (Z.ltb_spec start 0); [lia|].
  destruct (Z.ltb_spec (start + 9) 0); [lia|].
  destruct (Z_le_gt_dec start (Z.of_nat (length l))) as [Hle|Hgt].
  - rewrite (Z.min_l start) by lia.
    destruct (Z_le_gt_dec (start + 9) (Z.of_nat (length l))) as [Hle9|Hgt9].
    + rewrite Z.min_l by lia. f_equal. lia.
    + rewrite Z.min_r by lia.
      rewrite !take_ge; [reflexivity | |]; rewrite length_drop; lia.
  - rewrite !Z.min_r by lia.
    rewrite Z.sub_diag. simpl. rewrite take_0.
    rewrite (drop_ge l (Z.to_nat start)) by lia. reflexivity.
Qed.

(** X21. Whenever the supplier catalog answers, the page it shows is the
    requested one brought into the range from 1 to the number of pages,
    which is at least 1; it shows at most nine products, all of the
    supplier: the nine from position [9 * (page - 1)] on among the
    supplier's products. *)
Theorem supplier_page_bounds `{Libraries} (supplier_id : string)
    (arg : option string) (w : World) (supplier : option Supplier)
    (shown : list Product) (page total_pages : Z) (sid : string)
    (user : option Client) :
  fst (supplier_catalog supplier_id arg w)
    = Ok (Show (SupplierPage supplier shown page total_pages sid user)) ->
  1 <= page <= total_pages /\
  (length shown <= 9)%nat /\
  Forall (fun p => p_supplier_id p = supplier_id) shown /\
  exists requested loaded,
    page_arg arg = Ok requested /\
    fst (load_products w) = Ok loaded /\
    page = shown_page requested total_pages /\
    shown = take 9 (drop (Z.to_nat (9 * (page - 1))) (products_of supplier_id loaded)).
Proof.
  unfold supplier_catalog, bind, lift.
  destruct (page_arg arg) as [requested|] eqn:Harg; [|discriminate].
  rewrite load_products_eq. simpl.
  destruct (match stored_table "products" w with
            | Some df => _ | None => _ end) as [loaded|] eqn:Hload;
    simpl; [|discriminate].
  fold (products_of supplier_id loaded).
  destruct (total_pages_of _) as [pages|] eqn:Hpages; simpl; [|discriminate].
  rewrite load_suppliers_eq.
  destruct (current_user_spec
              (logged (read_attempts "suppliers" (logged (read_attempts "products" w) w))
                      (logged (read_attempts "products" w) w)))
    as (u & w' & Huser & _).
  rewrite Huser. simpl. intros [= _ <- <- <- _ _].
  apply total_pages_of_ge in Hpages.
  assert (Hpage : (if pages <? Z.max requested 1 then pages else Z.max requested 1)
                  = shown_page requested pages).
  { unfold shown_page. destruct (Z.ltb_spec pages (Z.max requested 1)); lia. }
  rewrite Hpage.
  assert (1 <= shown_page requested pages <= pages)
    by (unfold shown_page; lia).
  rewrite py_slice_page by lia.
  replace ((shown_page requested pages - 1) * 9)
    with (9 * (shown_page requested pages - 1)) by lia.
  split; [assumption|]. split; [rewrite length_take; lia|]. split.
  - apply Forall_forall. intros p Hp.
    apply subseteq_take, subseteq_drop in Hp.
    unfold products_of in Hp. by apply list_elem_of_filter in Hp as [Hp _].
  - exists requested, loaded. auto.
Qed.

Lemma supplier_page_bounds_witness :
  let L := table_libraries catalog_table in
  fst (@supplier_catalog L "forn1" (Some "7") products_csv_world)
    = Ok (Show (SupplierPage None catalog_products 1 1 "forn1" None)) /\
  1 <= 1 <= 1 /\ (length catalog_products <= 9)%nat.
Proof.
  intros L.
  assert (E : fst (@supplier_catalog L "forn1" (Some "7") products_csv_world)
              = Ok (Show (SupplierPage None catalog_products 1 1 "forn1" None)))
    by (vm_compute; reflexivity).
  split; [exact E|].
  destruct (@supplier_page_bounds L _ _ _ _ _ _ _ _ _ E) as (Hp & Hl & _).
  split; assumption.
Defined.

Lemma pages_exact_from_spec (count : nat) (total : Z) :
  pages_exact_from count total = true ->
  forall k, total <= k < total + Z.of_nat count -> pages_exact k = true.
Proof.
  revert total. induction count as [|count IH]; intros total Hall k Hk; [lia|].
  cbn [pages_exact_from] in Hall. apply andb_true_iff in Hall as [Hhere Hrest].
  destruct (Z.eq_dec k total) as [->|Hne]; [exact Hhere|].
  apply (IH (total + 1) Hrest). lia.
Qed.

Lemma pages_exact_10000 : pages_exact_from (Z.to_nat 10000) 0 = true.
Proof. vm_compute. reflexivity. Qed.

Lemma total_pages_exact (total : Z) :
  0 <= total < 10000 ->
  total_pages_of total = Ok (Z.max ((total + 8) / 9) 1).
Proof.
  intros Hrange.
  pose proof (pages_exact_from_spec _ _ pages_exact_10000 total) as Hex.
  rewrite Z2Nat.id in Hex by lia. specialize (Hex ltac:(lia)).
  unfold pages_exact in Hex.
  destruct (total_pages_of total) as [pages|]; [|discriminate].
  apply Z.eqb_eq in Hex. by rewrite Hex.
Qed.

(** X22. For a supplier with fewer than ten thousand products the number
    of pages is exactly the number of products divided by nine and rounded
    up (1 when there is none), the float division and [ceil] of the code
    notwithstanding; the catalog then answers with the page described
    above, and the product at position [i] of the supplier is found at
    position [i mod 9] of page [i / 9 + 1]: every product is on exactly
    that page. A [page] argument that is not an integer raises
    [ValueError] before anything is read. *)
Theorem supplier_pages_exact `{Libraries} (supplier_id : string)
    (arg : option string) (w : World) (requested : Z) (loaded : list Product) :
  page_arg arg = Ok requested ->
  fst (load_products w) = Ok loaded ->
  Z.of_nat (length (products_of supplier_id loaded)) < 10000 ->
  let products := products_of supplier_id loaded in
  let total_pages := Z.max ((Z.of_nat (length products) + 8) / 9) 1 in
  let page := shown_page requested total_pages in
  let shown := take 9 (drop (Z.to_nat (9 * (page - 1))) products) in
  (exists supplier user,
     fst (supplier_catalog supplier_id arg w)
     = Ok (Show (SupplierPage supplier shown page total_pages supplier_id user))) /\
  (forall i p,
     products !! i = Some p ->
     requested = Z.of_nat i / 9 + 1 ->
     shown !! (i mod 9)%nat = Some p) /\
  (forall s,
     parse_int s = None ->
     supplier_catalog supplier_id (Some s) w = (Raise ValueError, w)).
Proof.
  intros Harg Hload Hlen products total_pages page shown.
  assert (Hpages : total_pages_of (Z.of_nat (length products)) = Ok total_pages)
    by (apply total_pages_exact; unfold products; lia).
  assert (Hrange : 1 <= page <= total_pages)
    by (unfold page, shown_page, total_pages; lia).
  split; [|split].
  - rewrite load_products_eq in Hload. simpl in Hload.
    unfold supplier_catalog, bind, lift. rewrite Harg.
    rewrite load_products_eq. simpl. rewrite Hload. simpl.
    fold (products_of supplier_id loaded). fold products.
    rewrite Hpages. simpl. rewrite load_suppliers_eq.
    destruct (current_user_spec
                (logged (read_attempts "suppliers"
                           (logged (read_attempts "products" w) w))
                        (logged (read_attempts "products" w) w)))
      as (u & w' & Huser & _).
    rewrite Huser. simpl.
    assert (Hpage : (if total_pages <? Z.max requested 1 then total_pages
                     else Z.max requested 1) = page).
    { unfold page, shown_page.
      destruct (Z.ltb_spec total_pages (Z.max requested 1)); lia. }
    rewrite Hpage. rewrite py_slice_page by lia.
    replace ((page - 1) * 9) with (9 * (page - 1)) by lia.
    do 2 eexists. reflexivity.
  - intros i p Hi Hreq.
    assert (Hlt : (i < length products)%nat) by (by apply lookup_lt_Some in Hi).
    assert (Hpage : page = Z.of_nat i / 9 + 1).
    { unfold page, shown_page, total_pages. rewrite Hreq.
      assert (Z.of_nat i / 9 + 1 <= (Z.of_nat (length products) + 8) / 9).
      { replace (Z.of_nat i / 9 + 1) with ((Z.of_nat i + 1 * 9) / 9)
          by (rewrite Z.div_add; lia).
        apply Z.div_le_mono; lia. }
      assert (0 <= Z.of_nat i / 9) by (apply Z.div_pos; lia).
      lia. }
    unfold shown. rewrite Hpage.
    replace (Z.to_nat (9 * (Z.of_nat i / 9 + 1 - 1))) with (9 * (i / 9))%nat.
    2:{ replace (Z.of_nat i / 9 + 1 - 1) with (Z.of_nat (i / 9))
          by (rewrite Nat2Z.inj_div; simpl; lia).
        lia. }
    rewrite lookup_take_lt by (apply Nat.mod_upper_bound; lia).
    rewrite lookup_drop. rewrite <- Nat.div_mod_eq. exact Hi.
  - intros s Hs. unfold supplier_catalog, bind, lift, page_arg. by rewrite Hs.
Qed.

Lemma supplier_pages_exact_witness :
  let L := table_libraries catalog_table in
  exists supplier user,
    fst (@supplier_catalog L "forn1" (Some "0") products_csv_world)
    = Ok (Show (SupplierPage supplier catalog_products 1 1 "forn1" user)).
Proof.
  intros L.
  apply (proj1 (@supplier_pages_exact L "forn1" (Some "0") products_csv_world
                  0 catalog_products eq_refl
                  ltac:(vm_compute; reflexivity) ltac:(vm_compute; reflexivity))).
Defined.
